(** * zora: the event-stream engine of dist/index.mjs

    A shallow embedding of the test harness: the assertion methods, the
    test unit built by [tester] with its buffer and its pull operation
    [next], the combinators [filter], [map] and [combine] on asynchronous
    iterators, the scheduler [start], and the reporter [tap].

    Conventions of the embedding.
    - A JavaScript value is a [value]; a number that the harness itself
      counts (ids, offsets, plan bounds) is a [nat].
    - An asynchronous iterator is a state-passing function
      [nat -> St -> step V R * St]: the first argument bounds the number of
      nested re-entries of [next] ([this.next()], [instance.next()]); the
      result [Blocked] says that the bound was reached.  A pull that is
      [Blocked] for every bound is a pull that never resolves.
    - A test body is a [body]: the trace of what the function does with
      its assertion object, in program order.  The body of a unit is run
      up to its first suspension when the unit is built; it goes on when
      a pull waits for its promise ([await coRoutine]).  That a body which
      goes on at other times gives the same sequence is proved for the
      bodies that do not raise ([progress], [drain_during]).
    - The objects a unit refers to (its sub tests) are held by the slot
      of its buffer that refers to them: a sub test has one parent and is
      pulled through it alone.
    - [Date.now() - start] is an input: every unit is created with the
      duration its body will be measured to have taken.
    - What the reporter writes on the console is the list of the texts
      [console.log] is called with; the text [JSON.stringify] gives for
      a value is a parameter of the reporter. *)

From Stdlib Require Import List String Ascii Bool Arith ZArith Lia Btauto DecimalString.
Import ListNotations.
Open Scope string_scope.

Set Implicit Arguments.

(* ================================================================== *)
(** ** JavaScript values *)

(** The values the assertion methods inspect.  A regular expression is
    its source text and its matching function on strings; a function is
    known by its name; an object carries the constructors of its
    prototype chain (most derived first), its [message] property when it
    has one, and the text [String(o)] gives for it. *)
Inductive value : Type :=
| VUndefined
| VNull
| VBool (b : bool)
| VNumber (n : Z)
| VString (s : string)
| VRegExp (source : string) (test : string -> bool)
| VFunction (name : string)
| VObject (constructors : list string) (message : option string) (rendering : string).

(** [Boolean(v)]. *)
Definition truthy (v : value) : bool :=
  match v with
  | VUndefined | VNull => false
  | VBool b => b
  | VNumber n => negb (Z.eqb n 0)
  | VString s => negb (String.eqb s "")
  | VRegExp _ _ | VFunction _ | VObject _ _ _ => true
  end.

(** [String(v)]. *)
Definition to_string (v : value) : string :=
  match v with
  | VUndefined => "undefined"
  | VNull => "null"
  | VBool true => "true"
  | VBool false => "false"
  | VNumber n => NilZero.string_of_int (Z.to_int n)
  | VString s => s
  | VRegExp source _ => "/" ++ source ++ "/"
  | VFunction name => "function " ++ name ++ "() { [native code] }"
  | VObject _ _ rendering => rendering
  end.

(** The constructors on the prototype chain of [v]; a primitive has none
    for the purpose of [instanceof]. *)
Definition prototype_chain (v : value) : list string :=
  match v with
  | VObject constructors _ _ => constructors
  | VFunction _ => ["Function"; "Object"]
  | VRegExp _ _ => ["RegExp"; "Object"]
  | _ => []
  end.

(** [v instanceof f]. *)
Definition instanceof (v f : value) : bool :=
  match f with
  | VFunction name => existsb (String.eqb name) (prototype_chain v)
  | _ => false
  end.

(** [regexp.test(v)]: the argument is converted to a string first. *)
Definition regexp_test (regexp v : value) : bool :=
  match regexp with
  | VRegExp _ test => test (to_string v)
  | _ => false
  end.

(** [v.message]. *)
Definition message_of (v : value) : value :=
  match v with
  | VObject _ (Some m) _ => VString m
  | _ => VUndefined
  end.

(** [a && b]. *)
Definition js_and (a b : value) : value := if truthy a then b else a.

(** [a || b]. *)
Definition js_or (a b : value) : value := if truthy a then a else b.

(** The [TypeError] of a property read on [undefined] or [null]. *)
Definition type_error (what : string) : value :=
  VObject ["TypeError"; "Error"; "Object"] (Some what) ("TypeError: " ++ what).

(** [v.constructor]; reading it on [undefined] or [null] raises. *)
Definition constructor_of (v : value) : value + value :=
  match v with
  | VUndefined | VNull => inr (type_error "Cannot read property 'constructor'")
  | VBool _ => inl (VFunction "Boolean")
  | VNumber _ => inl (VFunction "Number")
  | VString _ => inl (VFunction "String")
  | VRegExp _ _ => inl (VFunction "RegExp")
  | VFunction _ => inl (VFunction "Function")
  | VObject [] _ _ => inl VUndefined
  | VObject (c :: _) _ _ => inl (VFunction c)
  end.

Definition is_string (v : value) : bool :=
  match v with VString _ => true | _ => false end.

Definition is_regexp (v : value) : bool :=
  match v with VRegExp _ _ => true | _ => false end.

Definition is_function (v : value) : bool :=
  match v with VFunction _ => true | _ => false end.

(* ================================================================== *)
(** ** Assertion results *)

(** The object an assertion method returns.  A property that the object
    does not have is [None] ([VUndefined] for [expected] and [actual]). *)
Record assertion : Type := mkAssertion {
  pass : bool;
  actual : value;
  expected : value;
  description : value;
  operator : option string;
  id : option nat;
  executionTime : option nat;
  at_ : option string
}.

Definition set_id (n : nat) (a : assertion) : assertion :=
  mkAssertion (pass a) (actual a) (expected a) (description a) (operator a)
              (Some n) (executionTime a) (at_ a).

Definition set_at (location : string) (a : assertion) : assertion :=
  mkAssertion (pass a) (actual a) (expected a) (description a) (operator a)
              (id a) (executionTime a) (Some location).

(** What calling a JavaScript function comes to: it returns, or it
    raises a value. *)
Inductive completion (A : Type) : Type :=
| Returns (a : A)
| Raises (error : value).
Arguments Returns {A} a.
Arguments Raises {A} error.

(** The default of a parameter: [description = 'should be truthy']. *)
Definition default (d : string) (v : value) : value :=
  match v with VUndefined => VString d | _ => v end.

Module Assertion.

Definition ok (val description : value) : assertion :=
  mkAssertion (truthy val) val (VBool true)
              (default "should be truthy" description) (Some "ok") None None None.

Definition notOk (val description : value) : assertion :=
  mkAssertion (negb (truthy val)) val (VBool false)
              (default "should not be truthy" description) (Some "notOk") None None None.

Definition fail (description : value) : assertion :=
  mkAssertion false (VString "fail called") (VString "fail not called")
              (default "fail called" description) (Some "fail") None None None.

(** [throws(func, expected, description)].  [func] is given by what
    calling it comes to.  [caught] is [Some err] for [{error: err}]. *)
Definition throws (func : completion value) (expected description : value)
  : completion assertion :=
  let '(expected, description) :=
    if is_string expected then (description, expected) else (expected, description) in
  let caught := match func with Returns _ => None | Raises err => Some err end in
  let pass := match caught with Some _ => true | None => false end in
  let actual := match caught with Some err => err | None => VUndefined end in
  if is_regexp expected then
    Returns (mkAssertion
               (regexp_test expected actual
                || regexp_test expected (js_and actual (message_of actual)))
               actual (VString (to_string expected))
               (js_or description (VString "should throw"))
               (Some "throws") None None None)
  else if is_function expected && pass then
    match constructor_of actual with
    | inl c =>
        Returns (mkAssertion (instanceof actual expected) c expected
                   (js_or description (VString "should throw"))
                   (Some "throws") None None None)
    | inr err => Raises err
    end
  else
    Returns (mkAssertion pass actual expected
               (js_or description (VString "should throw"))
               (Some "throws") None None None).

(** [doesNotThrow(func, expected, description)]. *)
Definition doesNotThrow (func : completion value) (expected description : value)
  : completion assertion :=
  let '(expected, description) :=
    if is_string expected then (description, expected) else (expected, description) in
  let caught := match func with Returns _ => None | Raises err => Some err end in
  Returns (mkAssertion
             (match caught with None => true | Some _ => false end)
             (match caught with Some err => err | None => VUndefined end)
             (VString "no thrown error")
             (js_or description (VString "should not throw"))
             (Some "doesNotThrow") None None None).

End Assertion.

(** [assertMethodHook]: a failing result records where it was made
    ([location] stands for the line of the stack trace that
    [getAssertionLocation] picks); the result is then handed to the
    unit's collector by the caller. *)
Definition assertMethodHook (location : string) (assertResult : assertion) : assertion :=
  if negb (pass assertResult) then set_at location assertResult else assertResult.

(* ================================================================== *)
(** ** Events *)

(** What an event carries in its [data] property; the constructor gives
    its [type] property. *)
Inductive message : Type :=
| Title (text : string)
| Assert (result : assertion)
| TestAssert (result : assertion)
| Plan (start end_ : nat)
| Time (ms : nat)
| Comment (text : string)
| Bailout (error : value)
| Version (number : nat).

(** [{type, data, offset}]; an event built without [offset] has [None]. *)
Record event : Type := mkEvent {
  data : message;
  offset : option nat
}.

(** [item.type]. *)
Definition type (item : event) : string :=
  match data item with
  | Title _ => "title"
  | Assert _ => "assert"
  | TestAssert _ => "testAssert"
  | Plan _ _ => "plan"
  | Time _ => "time"
  | Comment _ => "comment"
  | Bailout _ => "bailout"
  | Version _ => "version"
  end.

(** [item.offset > 0]: false when the event has no offset. *)
Definition offset_positive (item : event) : bool :=
  match offset item with
  | Some (S _) => true
  | _ => false
  end.

(** [array.includes(s)] on an array of strings. *)
Definition includes (array : list string) (s : string) : bool :=
  existsb (String.eqb s) array.

(* ================================================================== *)
(** ** Asynchronous iterators *)

(** What [await iterator.next()] comes to: [{done: false, value}],
    [{done: true, value}] where the value may be missing, a rejection, or
    no answer within the bound. *)
Inductive step (V R : Type) : Type :=
| Yield (v : V)
| Done (r : option R)
| Failed (error : value)
| Blocked.
Arguments Yield {V R} v.
Arguments Done {V R} r.
Arguments Failed {V R} error.
Arguments Blocked {V R}.

Definition iterator (St V R : Type) : Type := nat -> St -> step V R * St.

Section Combinators.

Variables St V W R : Type.

(** [filter(predicate)(iterator)] *)
Fixpoint filter (predicate : V -> bool) (it : iterator St V R)
         (fuel : nat) (s : St) : step V R * St :=
  match fuel with
  | O => (Blocked, s)
  | S fuel =>
      match it fuel s with
      | (Done _, s) => (Done None, s)
      | (Yield value, s) =>
          if negb (predicate value) then filter predicate it fuel s
          else (Yield value, s)
      | (Failed error, s) => (Failed error, s)
      | (Blocked, s) => (Blocked, s)
      end
  end.

(** [map(mapFn)(iterator)]; [mapFn] may update the variables it
    closes over, which are part of the state. *)
Definition map (mapFn : V -> St -> W * St) (it : iterator St V R)
           (fuel : nat) (s : St) : step W R * St :=
  match fuel with
  | O => (Blocked, s)
  | S fuel =>
      match it fuel s with
      | (Done _, s) => (Done None, s)
      | (Yield value, s) => let (value, s) := mapFn value s in (Yield value, s)
      | (Failed error, s) => (Failed error, s)
      | (Blocked, s) => (Blocked, s)
      end
  end.

(** A function without side effects, as a [mapFn]. *)
Definition pure (f : V -> W) : V -> St -> W * St := fun value s => (f value, s).

End Combinators.

Section Combine.

(** The iterators handed to [combine] are objects of type [I] pulled
    with [inext]; [F] is the rest of the state, which [combine] does
    not touch. *)
Variables I F V R : Type.
Variable inext : nat -> I -> step V R * I.

(** The variables [current] and [pending] of the closure. *)
Record combined : Type := mkCombined {
  current : option I;
  pending : list I
}.

(** [combine(...iterators)]: [pending] is a copy of the arguments and
    [current] its first element, shifted out. *)
Definition combine (iterators : list I) : combined :=
  mkCombined (hd_error iterators) (tl iterators).

Fixpoint combine_next (fuel : nat) (s : combined * F) : step V R * (combined * F) :=
  match fuel with
  | O => (Blocked, s)
  | S fuel =>
      let (c, frame) := s in
      match current c with
      | None => (Done None, s)
      | Some cur =>
          match inext fuel cur with
          | (Done _, _) =>
              combine_next fuel (mkCombined (hd_error (pending c)) (tl (pending c)), frame)
          | (Yield value, cur) => (Yield value, (mkCombined (Some cur) (pending c), frame))
          | (Failed error, cur) => (Failed error, (mkCombined (Some cur) (pending c), frame))
          | (Blocked, cur) => (Blocked, (mkCombined (Some cur) (pending c), frame))
          end
      end
  end.

End Combine.

(* ================================================================== *)
(** ** Test units *)

(** The [result] object of a unit, which is also the summary its
    sequence ends with.  (Its [spec] property, the body function, is
    left out.) *)
Module Result.
Record t : Type := mk {
  count : nat;
  pass : bool;
  description : string;
  executionTime : option nat
}.
End Result.

(** A test body, as the trace of what it does with its assertion object:
    - [Collect a rest]: an assertion method is called and hands [a] to
      the collector;
    - [SubTest d spec elapsed awaited rest]: [t.test(d, spec)] is called,
      and awaited or not;
    - [Await rest]: the body awaits something else (a timer);
    - [Throw error rest]: the body raises (the statements [rest] follow
      the raising one in the text of the function);
    - [Return]: the body returns. *)
Inductive body : Type :=
| Return
| Throw (error : value) (rest : body)
| Collect (assertResult : assertion) (rest : body)
| SubTest (description : string) (spec : body) (elapsed : nat) (awaited : bool) (rest : body)
| Await (rest : body).

(** The promise [coRoutine]: pending with what is left of the body, or
    resolved, with the [result] object ([true]) or with [undefined]. *)
Inductive promise : Type :=
| Pending (rest : body)
| Resolved (with_result : bool).

(** A slot of the buffer: an event, or a sub test. *)
Inductive item (U : Type) : Type :=
| IEvent (e : event)
| ISubTest (delegate : U).
Arguments IEvent {U} e.
Arguments ISubTest {U} delegate.

#[local] Set Warnings "-register-all".

(** What [tester(collect, {offset})(description, spec)] builds: the
    variables of the closure ([buffer], [result], [done]), the promise
    [coRoutine], and the [id] property the parent's collector gives to
    the returned object. *)
Inductive instance : Type := mkInstance {
  unit_offset : nat;
  buffer : list (item instance);
  result : Result.t;
  done : bool;
  coRoutine : promise;
  elapsed : nat;
  unit_id : option nat
}.

Definition with_buffer (b : list (item instance)) (u : instance) : instance :=
  mkInstance (unit_offset u) b (result u) (done u) (coRoutine u) (elapsed u) (unit_id u).

Definition with_result (r : Result.t) (u : instance) : instance :=
  mkInstance (unit_offset u) (buffer u) r (done u) (coRoutine u) (elapsed u) (unit_id u).

Definition with_done (d : bool) (u : instance) : instance :=
  mkInstance (unit_offset u) (buffer u) (result u) d (coRoutine u) (elapsed u) (unit_id u).

Definition with_coRoutine (p : promise) (u : instance) : instance :=
  mkInstance (unit_offset u) (buffer u) (result u) (done u) p (elapsed u) (unit_id u).

Definition with_id (n : nat) (u : instance) : instance :=
  mkInstance (unit_offset u) (buffer u) (result u) (done u) (coRoutine u) (elapsed u) (Some n).

(** [buffer.push(x)] *)
Definition push (x : item instance) (u : instance) : instance :=
  with_buffer (buffer u ++ [x]) u.

(** [createAssertion(item)] *)
Definition createAssertion (a : assertion) (u : instance) : event * instance :=
  let r := result u in
  (mkEvent (Assert a) (Some (unit_offset u)),
   with_result (Result.mk (Result.count r) (Result.pass r && pass a)
                          (Result.description r) (Result.executionTime r)) u).

(** [collector(item)]: [item] is an assertion result or a sub test. *)
Definition collector (x : assertion + instance) (u : instance) : instance :=
  let r := result u in
  let n := S (Result.count r) in
  let u := with_result (Result.mk n (Result.pass r) (Result.description r)
                                  (Result.executionTime r)) u in
  match x with
  | inl a => let (e, u) := createAssertion (set_id n a) u in push (IEvent e) u
  | inr sub => push (ISubTest (with_id n sub)) u
  end.

(** The handler given to [then]. *)
Definition on_fulfilled (u : instance) : instance :=
  let r := result u in
  let r := Result.mk (Result.count r) (Result.pass r) (Result.description r)
                     (Some (elapsed u)) in
  let u := with_result r u in
  let u := push (IEvent (mkEvent (Plan 1 (Result.count r)) (Some (unit_offset u)))) u in
  let u := push (IEvent (mkEvent (Time (elapsed u)) (Some (unit_offset u)))) u in
  with_coRoutine (Resolved true) (with_done true u).

(** The handler given to [catch]. *)
Definition on_rejected (err : value) (u : instance) : instance :=
  let failing :=
    mkAssertion false VUndefined VUndefined
                (VString (Result.description (result u))) None None None None in
  let u := push (IEvent (mkEvent (Assert failing) None)) u in
  let u := push (IEvent (mkEvent (Comment "Unhandled exception") None)) u in
  let u := push (IEvent (mkEvent (Bailout err) (Some (unit_offset u)))) u in
  with_coRoutine (Resolved false) u.

(** The reaction of the promise chain once the body is over: [rest] is
    [Return], or [Throw err _] when the body raised. *)
Definition settle (rest : body) (u : instance) : instance :=
  match rest with
  | Throw err _ => on_rejected err u
  | _ => on_fulfilled u
  end.

(** The closure state of a unit that has just been built: the title is
    in the buffer and the body has not been called yet. *)
Definition fresh (offset : nat) (description : string) (spec : body) (elapsed : nat)
  : instance :=
  mkInstance offset [IEvent (mkEvent (Title description) (Some offset))]
             (Result.mk 0 true description None) false (Pending spec) elapsed None.

(** Running a body against the closure state [u] of its unit.  Without
    [flush] the body runs up to its first suspension (what happens inside
    the call [spec(assertFn)] and the calls it makes); with [flush] it
    runs to its end, every wait being over in turn.  The answer is the new
    state and what is left of the body: [Return] or [Throw _ _] when the
    body is over.

    A sub test is built by [tester] with the collector of [u] and one
    more level of offset: its own body is started, then the parent's
    collector receives it.  A parent that awaits the sub test goes on
    only once the promise of the sub test is resolved. *)
Fixpoint run (flush : bool) (spec : body) (u : instance) : instance * body :=
  match spec with
  | Return => (u, Return)
  | Throw err rest => (u, Throw err rest)
  | Collect a rest => run flush rest (collector (inl a) u)
  | Await rest => if flush then run flush rest u else (u, rest)
  | SubTest d sub el awaited rest =>
      let wait := flush && awaited in
      let (c, left) := run wait sub (fresh (S (unit_offset u)) d sub el) in
      let c := if wait then settle left c else with_coRoutine (Pending left) c in
      let u := collector (inr c) u in
      if awaited && negb flush then (u, rest) else run flush rest u
  end.

(** [tester(collect, {offset})(description, spec)], up to the call of
    [collect], which is the caller's. *)
Definition tester (offset : nat) (description : string) (spec : body) (elapsed : nat)
  : instance :=
  let (u, left) := run false spec (fresh offset description spec elapsed) in
  with_coRoutine (Pending left) u.

(** [await coRoutine]: the caller goes on once the body is over and the
    promise chain has reacted; nothing happens when it already has. *)
Definition await_coRoutine (u : instance) : instance :=
  match coRoutine u with
  | Pending rest => let (u, left) := run true rest u in settle left u
  | Resolved _ => u
  end.

(** The sub test assertion [handleDelegate] puts in the place of an
    exhausted delegate. *)
Definition subTestAssertion (delegate : instance) (value : Result.t) (u : instance)
  : event * instance :=
  let (e, u) :=
    createAssertion
      (mkAssertion (Result.pass value) VUndefined VUndefined
                   (VString (Result.description value)) None
                   (unit_id delegate) (Result.executionTime value) None) u in
  (mkEvent (match data e with Assert a => TestAssert a | d => d end) (offset e), u).

(** [instance.next()], with [handleDelegate] for a sub test at the front
    of the buffer. *)
Fixpoint next (fuel : nat) (u : instance) : step event Result.t * instance :=
  match fuel with
  | O => (Blocked, u)
  | S fuel =>
      match buffer u with
      | [] =>
          if done u then (Done (Some (result u)), u)
          else next fuel (await_coRoutine u)
      | IEvent e :: rest => (Yield e, with_buffer rest u)
      | ISubTest delegate :: rest =>
          match next fuel delegate with
          | (Done (Some value), delegate) =>
              let (e, u) := subTestAssertion delegate value u in
              next fuel (with_buffer (IEvent e :: tl (buffer u)) u)
          | (Done None, delegate) =>
              (Failed (type_error "Cannot destructure 'value'"),
               with_buffer (ISubTest delegate :: rest) u)
          | (Yield value, delegate) =>
              (Yield value, with_buffer (ISubTest delegate :: rest) u)
          | (Failed error, delegate) =>
              (Failed error, with_buffer (ISubTest delegate :: rest) u)
          | (Blocked, delegate) =>
              (Blocked, with_buffer (ISubTest delegate :: rest) u)
          end
      end
  end.

(* ================================================================== *)
(** ** The scheduler *)

(** The module's variables [flatten] and [tests]. *)
Record registry : Type := mkRegistry {
  flatten : bool;
  tests : list instance
}.

(** A call at the top level of a test file. *)
Inductive declaration : Type :=
| Top (description : string) (spec : body) (elapsed : nat)
      (** [test(description, spec)] *)
| Bsd (description : string) (spec : body) (elapsed : nat).
      (** [test.test(description, spec)] *)

(** The module once loaded: [flatten = true] and the root unit, built by
    [test('Root', () => {})], alone in [tests]. *)
Definition loaded (elapsed : nat) : registry :=
  mkRegistry true [tester 0 "Root" Return elapsed].

(** [test] is [tester(t => tests.push(t))]; [test.test] turns [flatten]
    off and calls the [test] property of the root unit, a tester with the
    root's collector and offset 1. *)
Definition declare (m : registry) (d : declaration) : registry :=
  match d with
  | Top description spec el =>
      mkRegistry (flatten m) (tests m ++ [tester 0 description spec el])
  | Bsd description spec el =>
      match tests m with
      | root :: others =>
          mkRegistry false (collector (inr (tester 1 description spec el)) root :: others)
      | [] => mkRegistry false []
      end
  end.

Definition load (elapsed : nat) (file : list declaration) : registry :=
  fold_left declare file (loaded elapsed).

(** The variables [count], [success] and [failure] of [start]. *)
Record counters : Type := mkCounters {
  count : nat;
  success : nat;
  failure : nat
}.

(** The state the output stream of [start] runs in: the closure of
    [combine] and the counters. *)
Definition state : Type := combined instance * counters.

(** [({type}) => type !== 'testAssert'] *)
Definition notTestAssert (item : event) : bool :=
  negb (String.eqb (type item) "testAssert").

(** [item => Object.assign(item, {offset: 0})] *)
Definition resetOffset (item : event) : event := mkEvent (data item) (Some 0).

Definition toKeep : list string := ["assert"; "comment"; "title"; "testAssert"].

(** [item => item.offset > 0 || toKeep.includes(item.type)] *)
Definition keep (item : event) : bool :=
  offset_positive item || includes toKeep (type item).

(** [item.data.id = count] *)
Definition with_data_id (n : nat) (item : event) : event :=
  match data item with
  | Assert a => mkEvent (Assert (set_id n a)) (offset item)
  | TestAssert a => mkEvent (TestAssert (set_id n a)) (offset item)
  | _ => item
  end.

(** [item.data.pass] *)
Definition data_pass (item : event) : bool :=
  match data item with
  | Assert a | TestAssert a => pass a
  | _ => false
  end.

(** The function given to the last [map] of [start]. *)
Definition renumber (item : event) (s : state) : event * state :=
  if offset_positive item
     || (negb (String.eqb (type item) "assert")
         && negb (String.eqb (type item) "testAssert"))
  then (item, s)
  else
    let (c, k) := s in
    let n := S (count k) in
    (with_data_id n item,
     (c, mkCounters n
                    (success k + (if data_pass item then 1 else 0))
                    (failure k + (if data_pass item then 0 else 1)))).

(** [stream(combine(...tests))] *)
Definition merged : iterator state event Result.t := combine_next next.

(** [outputStream], after both reassignments. *)
Definition outputStream (flatten : bool) : iterator state event Result.t :=
  let outputStream :=
    if flatten then map (pure resetOffset) (filter notTestAssert merged)
    else merged in
  map renumber (filter keep outputStream).

(** The decimal text of a number in a template string. *)
Definition decimal (n : nat) : string := NilEmpty.string_of_uint (Nat.to_uint n).

(** [failure > 0 ? `failed ${failure} of ${count} tests` : 'ok'] *)
Definition verdict (k : counters) : string :=
  if Nat.ltb 0 (failure k)
  then "failed " ++ decimal (failure k) ++ " of " ++ decimal (count k) ++ " tests"
  else "ok".

(** How a call of [start] ends: its promise resolves, it rejects, or it
    is still pending when the bound is reached. *)
Inductive outcome : Type :=
| Completed
| Rejected (error : value)
| Unresolved.

(** The [while (true)] loop and what follows it.  [log] is what the
    reporter has been called with so far. *)
Fixpoint pull_loop (flatten : bool) (fuel : nat) (s : state) (log : list event)
  : list event * outcome * state :=
  match fuel with
  | O => (log, Unresolved, s)
  | S fuel =>
      match outputStream flatten fuel s with
      | (Done _, s) =>
          let k := snd s in
          ((log ++ [mkEvent (Plan 1 (count k)) None;
                    mkEvent (Comment (verdict k)) None])%list,
           Completed, s)
      | (Yield value, s) =>
          let log := (log ++ [value])%list in
          match data value with
          | Bailout err => (log, Rejected err, s)
          | _ => pull_loop flatten fuel s log
          end
      | (Failed error, s) => (log, Rejected error, s)
      | (Blocked, s) => (log, Unresolved, s)
      end
  end.

(** [start()] with the default reporter: what the reporter is called
    with, and how the call ends. *)
Definition start (fuel : nat) (m : registry) : list event * outcome :=
  let log := [mkEvent (Version 13) None] in
  match tests m with
  | [] => (log, Rejected (type_error "Cannot read property 'next'"))
  | root :: others =>
      match next fuel root with
      | (Blocked, _) => (log, Unresolved)
      | (Failed error, _) => (log, Rejected error)
      | (_, root) =>
          fst (pull_loop (flatten m) fuel
                         (combine (root :: others), mkCounters 0 0 0) log)
      end
  end.

(* ================================================================== *)
(** ** Observing a sequence *)

(** An iterator answers the same with a larger bound once it answers at
    all. *)
Definition monotone (St V R : Type) (it : iterator St V R) : Prop :=
  forall fuel s r s',
    it fuel s = (r, s') -> r <> Blocked ->
    forall fuel', fuel <= fuel' -> it fuel' s = (r, s').

(** Pulling until the sequence stops: the values yielded, in order, the
    answer that was not a value, and the state then.  [fuel] bounds the
    number of pulls as well as each pull. *)
Fixpoint drain (St V R : Type) (it : iterator St V R) (fuel : nat) (s : St)
  : list V * step V R * St :=
  match fuel with
  | O => ([], Blocked, s)
  | S fuel =>
      match it fuel s with
      | (Yield v, s) => let '(l, e, s) := drain it fuel s in (v :: l, e, s)
      | (r, s) => ([], r, s)
      end
  end.

(** The summary the sequence of a unit ends with, when it ends within
    the bound. *)
Definition final_summary (fuel : nat) (u : instance) : option Result.t :=
  match drain next fuel u with
  | (_, Done r, _) => r
  | _ => None
  end.

(** The state of a unit after [n] pulls. *)
Fixpoint after_pulls (n fuel : nat) (u : instance) : instance :=
  match n with
  | O => u
  | S n => after_pulls n fuel (snd (next fuel u))
  end.

(** An iterator that gives no answer in state [s], whatever the bound. *)
Definition silent (St V R : Type) (it : iterator St V R) (s : St) : Prop :=
  forall fuel, fst (it fuel s) = Blocked.

(** How the [while] loop ends, without the rest. *)
Definition ending (r : list event * outcome * state) : outcome := snd (fst r).

(** The frame of the merged stream is the counters; an iterator leaves
    them alone when every pull does. *)
Definition keeps_counters (V R : Type) (it : iterator state V R) : Prop :=
  forall fuel s r s', it fuel s = (r, s') -> snd s' = snd s.

(** The events [renumber] gives a new id to: assertions and sub test
    assertions whose offset is not positive. *)
Definition numbered (item : event) : bool :=
  negb (offset_positive item)
  && (String.eqb (type item) "assert" || String.eqb (type item) "testAssert").

(** [item.data.id] *)
Definition data_id (item : event) : option nat :=
  match data item with
  | Assert a | TestAssert a => id a
  | _ => None
  end.

(** What is read off an event in the examples. *)
Definition digest (e : event) : string * option nat * option nat :=
  (type e, offset e, data_id e).

(* ================================================================== *)
(** ** The matcher of [throws] *)

(** The matcher of a call [throws(func, expected, description)]: the
    second argument, or the third when the second is a string (which is
    then the description). *)
Definition matcher (expected description : value) : value :=
  if is_string expected then description else expected.

(** What the raised value [err] is checked against: a regular expression
    is tried on the text of [err] and on the text of its message, a
    function is taken as a constructor, and nothing is asked for any
    other matcher. *)
Definition satisfies (m err : value) : bool :=
  match m with
  | VRegExp _ _ => regexp_test m err || regexp_test m (js_and err (message_of err))
  | VFunction _ => instanceof err m
  | _ => true
  end.

(* ================================================================== *)
(** ** What a body amounts to *)

(** The results a body hands to the collector of its own unit. *)
Fixpoint direct_results (b : body) : list assertion :=
  match b with
  | Return | Throw _ _ => []
  | Collect a rest => a :: direct_results rest
  | SubTest _ _ _ _ rest => direct_results rest
  | Await rest => direct_results rest
  end.

(** The sub tests a body registers in its own unit: description, body
    and measured duration of each. *)
Fixpoint sub_tests (b : body) : list (string * body * nat) :=
  match b with
  | Return | Throw _ _ => []
  | Collect _ rest => sub_tests rest
  | SubTest d spec el _ rest => (d, spec, el) :: sub_tests rest
  | Await rest => sub_tests rest
  end.

(** No body of the tree raises. *)
Fixpoint returns (b : body) : bool :=
  match b with
  | Return => true
  | Throw _ _ => false
  | Collect _ rest => returns rest
  | SubTest _ spec _ _ rest => returns spec && returns rest
  | Await rest => returns rest
  end.

(** The conjunction of every result in the tree of a body. *)
Fixpoint all_pass (b : body) : bool :=
  match b with
  | Return | Throw _ _ => true
  | Collect a rest => pass a && all_pass rest
  | SubTest _ spec _ _ rest => all_pass spec && all_pass rest
  | Await rest => all_pass rest
  end.

(** The number of items a body still has to hand to its collector. *)
Fixpoint body_count (b : body) : nat :=
  match b with
  | Return | Throw _ _ => 0
  | Collect _ rest => S (body_count rest)
  | SubTest _ _ _ _ rest => S (body_count rest)
  | Await rest => body_count rest
  end.

(** The number of events a body still has to put in buffers, counting
    for a sub test its title, its plan and time, the pull that finds it
    exhausted and the assertion standing for it. *)
Fixpoint body_work (b : body) : nat :=
  match b with
  | Return | Throw _ _ => 0
  | Collect _ rest => 1 + body_work rest
  | SubTest _ spec _ _ rest => body_work spec + 6 + body_work rest
  | Await rest => body_work rest
  end.

(** The assertion that stands for a sub test with the id [n] and the
    summary [value]. *)
Definition summary_assertion (n : option nat) (value : Result.t) : assertion :=
  mkAssertion (Result.pass value) VUndefined VUndefined
              (VString (Result.description value)) None n
              (Result.executionTime value) None.

(** The events a body that does not raise still has to give, sub tests
    included, for a unit at [offset] that has counted [n] items. *)
Fixpoint body_events (offset n : nat) (b : body) : list event :=
  match b with
  | Return | Throw _ _ => []
  | Collect a rest =>
      mkEvent (Assert (set_id (S n) a)) (Some offset) :: body_events offset (S n) rest
  | SubTest d sub el _ rest =>
      (mkEvent (Title d) (Some (S offset))
         :: body_events (S offset) 0 sub
         ++ [mkEvent (Plan 1 (body_count sub)) (Some (S offset));
             mkEvent (Time el) (Some (S offset))])
      ++ mkEvent (TestAssert
                    (summary_assertion
                       (Some (S n))
                       (Result.mk (body_count sub) (all_pass sub) d (Some el))))
                 (Some offset)
      :: body_events offset (S n) rest
  | Await rest => body_events offset n rest
  end.

(* ================================================================== *)
(** ** What a unit is heading for *)

(** The measures below are read off the state of a unit: its buffer, its
    result and what is left of its body.  They are what the proofs about
    whole sequences follow from one pull to the next. *)

(** [f] on the sub test of a slot, [otherwise] on an event. *)
Definition on_sub (A : Type) (f : instance -> A) (otherwise : A) (x : item instance) : A :=
  match x with
  | IEvent _ => otherwise
  | ISubTest c => f c
  end.

(** The value the [pass] of a unit is heading for: what it is now, and
    what its body and the sub tests still in its buffer will add. *)
Fixpoint owed (u : instance) : bool :=
  Result.pass (result u)
  && forallb (on_sub owed true) (buffer u)
  && match coRoutine u with
     | Pending rest => all_pass rest
     | Resolved _ => true
     end.

(** A bound on the pulls a unit still needs. *)
Fixpoint work (u : instance) : nat :=
  list_sum (List.map (fun x => match x with
                               | IEvent _ => 1
                               | ISubTest c => work c + 2
                               end) (buffer u))
  + match coRoutine u with
    | Pending rest => body_work rest + 3
    | Resolved _ => 0
    end.

(** A unit, and every sub test in its buffer, is either finished with
    its promise resolved with the result, or unfinished with a body that
    does not raise. *)
Fixpoint healthy (u : instance) : bool :=
  match coRoutine u with
  | Pending rest => negb (done u) && returns rest
  | Resolved with_result => with_result && done u
  end
  && forallb (on_sub healthy true) (buffer u).

(** The parts of [owed], [work] and [healthy] that come from the slots
    of a buffer. *)
Definition items_owed (b : list (item instance)) : bool :=
  forallb (on_sub owed true) b.

(** One pull for an event; for a sub test its own pulls, the pull that
    finds it exhausted and the one that gives the assertion standing for
    it. *)
Definition items_work (b : list (item instance)) : nat :=
  list_sum (List.map (fun x => match x with
                               | IEvent _ => 1
                               | ISubTest c => work c + 2
                               end) b).

(** Every sub test of the buffer is healthy. *)
Definition items_healthy (b : list (item instance)) : bool :=
  forallb (on_sub healthy true) b.

(** The result a unit is heading for. *)
Definition final (u : instance) : Result.t :=
  match coRoutine u with
  | Pending rest =>
      Result.mk (Result.count (result u) + body_count rest) (owed u)
                (Result.description (result u)) (Some (elapsed u))
  | Resolved _ =>
      Result.mk (Result.count (result u)) (owed u)
                (Result.description (result u)) (Result.executionTime (result u))
  end.

(** The events a unit still has to give, from its buffer and then from
    what is left of its body. *)
Fixpoint events (u : instance) : list event :=
  List.concat
    (List.map (fun x => match x with
                        | IEvent e => [e]
                        | ISubTest c =>
                            (events c
                             ++ [mkEvent (TestAssert (summary_assertion (unit_id c) (final c)))
                                         (Some (unit_offset u))])%list
                        end) (buffer u))
  ++ match coRoutine u with
     | Pending rest =>
         body_events (unit_offset u) (Result.count (result u)) rest
         ++ [mkEvent (Plan 1 (Result.count (result u) + body_count rest))
                     (Some (unit_offset u));
             mkEvent (Time (elapsed u)) (Some (unit_offset u))]
     | Resolved _ => []
     end.

(** The part of [events] that comes from the slots of a buffer, for a
    unit at [offset]. *)
Definition items_events (offset : nat) (b : list (item instance)) : list event :=
  List.concat
    (List.map (fun x => match x with
                        | IEvent e => [e]
                        | ISubTest c =>
                            (events c
                             ++ [mkEvent (TestAssert (summary_assertion (unit_id c) (final c)))
                                         (Some offset)])%list
                        end) b).

(** A unit that will never answer: nothing in the buffer, not finished,
    and a promise that has already reacted. *)
Definition stuck (u : instance) : Prop :=
  buffer u = [] /\ done u = false /\ exists b, coRoutine u = Resolved b.

(* ================================================================== *)
(** ** Bodies that go on while nobody pulls *)

(** In the program the body of a unit goes on by itself, between the
    pulls and whatever their order; [next] above lets it go on only when
    a pull waits for it.  What follows lets a body go on at any time, so
    that the sequences can be compared. *)

(** The body of [u] goes on up to its next suspension; when it is over,
    its promise reacts. *)
Definition resume (u : instance) : instance :=
  match coRoutine u with
  | Pending Return => on_fulfilled u
  | Pending (Throw err _) => on_rejected err u
  | Pending rest => let (u, left) := run false rest u in with_coRoutine (Pending left) u
  | Resolved _ => u
  end.

(** The same for the sub test found by following [path]: each number
    is a position in the buffer of the unit reached so far. *)
Fixpoint progress (path : list nat) (u : instance) : instance :=
  match path with
  | [] => resume u
  | i :: path =>
      with_buffer
        (firstn i (buffer u)
         ++ match skipn i (buffer u) with
            | ISubTest c :: rest => ISubTest (progress path c) :: rest
            | rest => rest
            end) u
  end.

(** A move of the bodies: the unit at position [fst m] among the
    iterators of [combine] that are not exhausted yet (the current one
    first) makes progress at the path [snd m]. *)
Definition move (m : nat * list nat) (c : combined instance) : combined instance :=
  match fst m, current c with
  | O, Some cur => mkCombined (Some (progress (snd m) cur)) (pending c)
  | S i, _ =>
      mkCombined (current c)
                 (firstn i (pending c)
                  ++ match skipn i (pending c) with
                     | u :: rest => progress (snd m) u :: rest
                     | [] => []
                     end)
  | O, None => c
  end.

(** Pulling the merged stream to its end while the bodies go on: before
    each pull, the moves at the head of [schedule] take place. *)
Fixpoint drain_during (schedule : list (list (nat * list nat))) (fuel : nat) (s : state)
  : list event * step event Result.t * state :=
  match fuel with
  | O => ([], Blocked, s)
  | S fuel =>
      let s := (fold_left (fun c m => move m c) (hd [] schedule) (fst s), snd s) in
      match merged fuel s with
      | (Yield v, s) =>
          let '(l, e, s) := drain_during (tl schedule) fuel s in (v :: l, e, s)
      | (r, s) => ([], r, s)
      end
  end.

(** The iterators of [combine] that are not exhausted yet. *)
Definition remaining (c : combined instance) : list instance :=
  match current c with
  | Some cur => cur :: pending c
  | None => []
  end.

(** The closure of [combine] has no pending iterator once it has no
    current one. *)
Definition tidy (c : combined instance) : Prop :=
  current c = None -> pending c = [].

(** [v] can stand for [u]: it is healthy, needs no more pulls, and has
    the same events to give, the same result ahead, the same id and
    offset. *)
Definition stands_for (u v : instance) : Prop :=
  healthy v = true
  /\ work v <= work u
  /\ owed v = owed u
  /\ events v = events u
  /\ final v = final u
  /\ unit_id v = unit_id u
  /\ unit_offset v = unit_offset u.

(** A bound on the pulls the merged stream of the units [l] needs: those
    of each unit and, for each, the pull that finds it exhausted. *)
Definition units_work (l : list instance) : nat :=
  list_sum (List.map (fun u => work u + 2) l).

(** The events the units [l] still have to give, unit after unit. *)
Definition units_events (l : list instance) : list event :=
  List.concat (List.map events l).

(** [f] applied to the element at position [i], when there is one. *)
Definition at_position (A : Type) (i : nat) (f : A -> A) (l : list A) : list A :=
  (firstn i l ++ match skipn i l with
                 | x :: rest => f x :: rest
                 | [] => []
                 end)%list.

(** The units [test(description, spec)] builds for a list of
    declarations, given by description, body and measured duration. *)
Definition top_units (tops : list (string * body * nat)) : list instance :=
  List.map (fun t => tester 0 (fst (fst t)) (snd (fst t)) (snd t)) tops.

(** A bound on the pulls the units of such a list call for. *)
Definition tops_work (tops : list (string * body * nat)) : nat :=
  list_sum (List.map (fun t => body_work (snd (fst t)) + 6) tops).

(* ================================================================== *)
(** ** Sample bodies and values *)

(** [t.ok(true, d)] *)
Definition passing (d : string) : assertion := Assertion.ok (VBool true) (VString d).

(** [new Error('boom')] *)
Definition boom : value := VObject ["Error"; "Object"] (Some "boom") "Error: boom".

(** A regular expression that looks for the letter e. *)
Definition has_e : value :=
  VRegExp "e" (fix has (s : string) : bool :=
                 match s with
                 | EmptyString => false
                 | String c rest => Ascii.eqb c "e"%char || has rest
                 end).

(** test/samples/async.js *)
Definition async_js : list declaration :=
  [Top "test 1" (Collect (passing "assert1") (Await (Collect (passing "assert2") Return))) 500;
   Top "test 2" (Collect (passing "assert3") (Await (Collect (passing "assert4") Return))) 300].

(** The two tests of test/samples/async.js as description, body and
    measured duration. *)
Definition async_tops : list (string * body * nat) :=
  [("test 1", Collect (passing "assert1") (Await (Collect (passing "assert2") Return)), 500);
   ("test 2", Collect (passing "assert3") (Await (Collect (passing "assert4") Return)), 300)].

(** A schedule in which the body of the second test goes on to its end
    (its wait is over, then its promise reacts) before anything is
    pulled, the body of the first going on only when a pull waits for
    it. *)
Definition second_first : list (list (nat * list nat)) :=
  [[(1, []); (1, [])]].

(** One sub test with two passing assertions, then one passing
    assertion. *)
Definition nested : body :=
  SubTest "child" (Collect (passing "c1") (Collect (passing "c2") Return)) 3 false
          (Collect (passing "p1") Return).

(** A passing assertion and a sub test whose only assertion fails. *)
Definition failing_inside : body :=
  Collect (passing "p1")
    (SubTest "child" (Collect (Assertion.fail VUndefined) Return) 3 true Return).

(** A sub test that raises, a sibling sub test, and an assertion. *)
Definition failing_child : body :=
  SubTest "c" (Throw boom Return) 1 false
    (SubTest "d" (Collect (passing "x") Return) 1 false
       (Collect (passing "y") Return)).

(** A top-level test that raises, followed by another test. *)
Definition failing_top : list declaration :=
  [Top "boom" (Throw boom Return) 5; Top "after" (Collect (passing "x") Return) 1].

(* ================================================================== *)
(** ** The TAP reporter *)

(** The reporter [start] uses by default: [tap$1(print)] with the
    [print] that writes to the console.  What the reporter writes is
    given as the list of the texts [console.log] is called with. *)

(** [message.padStart(message.length + n)]: [n] blanks, then the
    message. *)
Fixpoint padStart (n : nat) (message : string) : string :=
  match n with
  | O => message
  | S n => String " " (padStart n message)
  end.

(** [print(message, offset)]: the text [console.log] is called with.
    The offset is a whole number of levels, or a whole number and a
    half; [halves] is twice the offset, so that [offset * 4] is
    [2 * halves]. *)
Definition print (message : string) (halves : nat) : string :=
  padStart (2 * halves) message.

(** The text of [id] in a template string. *)
Definition id_text (n : option nat) : string :=
  match n with
  | Some n => decimal n
  | None => "undefined"
  end.

(** The default [''] of a property that is missing. *)
Definition text_or_empty (s : option string) : value :=
  match s with
  | Some s => VString s
  | None => VString ""
  end.

Module tap.
Section Methods.

(** The text of [JSON.stringify(value)] in a template string. *)
Variable stringify : value -> string.

(** [toYaml(print)(obj, offset)]: one call of [print] for each entry. *)
Definition toYaml (obj : list (string * value)) (offset : nat) : list string :=
  List.map (fun entry => print (fst entry ++ ": " ++ stringify (snd entry)) (2 * offset + 1))
           obj.

(** [version(version = 13)] *)
Definition version (number : nat) : list string :=
  [print ("TAP version " ++ decimal number) 0].

(** [comment(value, offset = 0)] *)
Definition comment (value : string) (offset : nat) : list string :=
  [print ("# " ++ value) (2 * offset)].

(** [title(value, offset = 0)] *)
Definition title (value : string) (offset : nat) : list string :=
  let message := if Nat.ltb 0 offset then "Subtest: " ++ value else value in
  comment message offset.

(** [assert(value, offset = 0)]: the line of the test point, and for
    a failing result that has an operator the block between [---] and
    [...]. *)
Definition assert (value : assertion) (offset : nat) : list string :=
  let label := if pass value then "ok" else "not ok" in
  print (label ++ " " ++ id_text (id value) ++ " - " ++ to_string (description value)
         ++ match executionTime value with
            | Some (S n) => " # time=" ++ decimal (S n) ++ "ms"
            | _ => ""
            end)
        (2 * offset)
  :: if negb (pass value)
        && match operator value with
           | Some op => negb (String.eqb op "")
           | None => false
           end
     then
       (print "---" (2 * offset + 1)
          :: toYaml [("expected", default "" (expected value));
                     ("actual", default "" (actual value));
                     ("at", text_or_empty (at_ value));
                     ("operator", text_or_empty (operator value))] offset
          ++ [print "..." (2 * offset + 1)])%list
     else [].

(** [plan(value, offset = 0)], given the [end] of the plan. *)
Definition plan (end_ : nat) (offset : nat) : list string :=
  [print ("1.." ++ decimal end_) (2 * offset)].

(** [time(value, offset = 0)] *)
Definition time (value : nat) (offset : nat) : list string :=
  comment ("time=" ++ decimal value ++ "ms") offset.

(** [bailout(value = 'Unhandled exception')] *)
Definition bailout (error : value) : list string :=
  [print ("Bail out! " ++ to_string (default "Unhandled exception" error)) 0].

(** [testAssert(value, offset = 0)] *)
Definition testAssert (value : assertion) (offset : nat) : list string :=
  assert value offset.

End Methods.
End tap.

(** [offset = 0]: the level of an event, 0 when it has no offset. *)
Definition level (e : event) : nat :=
  match offset e with
  | Some n => n
  | None => 0
  end.

(** The function [tap$1()] returns: what is printed for one event, one
    text for each call of [print].  Every type of event has its method
    in [tap]. *)
Definition tap_1 (stringify : value -> string) (toPrint : event) : list string :=
  let offset := level toPrint in
  match data toPrint with
  | Version n => tap.version n
  | Title t => tap.title t offset
  | Assert a => tap.assert stringify a offset
  | TestAssert a => tap.testAssert stringify a offset
  | Plan _ end_ => tap.plan end_ offset
  | Time ms => tap.time ms offset
  | Comment t => tap.comment t offset
  | Bailout err => tap.bailout err
  end.

(** What the reporter prints when it is called with the events of [log],
    one after the other. *)
Definition printed (stringify : value -> string) (log : list event) : list string :=
  List.concat (List.map (tap_1 stringify) log).

(* ================================================================== *)
(** ** More about bodies *)

(** The same calls in the same order, without the waits: no [await]
    of a timer, and no sub test awaited. *)
Fixpoint without_waits (b : body) : body :=
  match b with
  | Return => Return
  | Throw err rest => Throw err rest
  | Collect a rest => Collect a (without_waits rest)
  | SubTest d sub el _ rest => SubTest d (without_waits sub) el false (without_waits rest)
  | Await rest => without_waits rest
  end.

(** How a body that is let run to its end ends: [Return], or the
    [Throw] it reaches.  A sub test that raises does not make the body
    that registered it raise. *)
Fixpoint ending_of (b : body) : body :=
  match b with
  | Return => Return
  | Throw err rest => Throw err rest
  | Collect _ rest => ending_of rest
  | SubTest _ _ _ _ rest => ending_of rest
  | Await rest => ending_of rest
  end.

(** The results of all the assertions a body and its sub tests make, in
    the order of the program. *)
Fixpoint assertions_in (b : body) : list assertion :=
  match b with
  | Return | Throw _ _ => []
  | Collect a rest => a :: assertions_in rest
  | SubTest _ sub _ _ rest => (assertions_in sub ++ assertions_in rest)%list
  | Await rest => assertions_in rest
  end.

(** For each item a body hands to the collector of its own unit,
    whether it passes: the result of an assertion, and for a sub test
    the conjunction of all the results in it. *)
Fixpoint entries_pass (b : body) : list bool :=
  match b with
  | Return | Throw _ _ => []
  | Collect a rest => pass a :: entries_pass rest
  | SubTest _ sub _ _ rest => all_pass sub :: entries_pass rest
  | Await rest => entries_pass rest
  end.

(* ================================================================== *)
(** ** More about events and units *)

(** An assertion or the assertion that stands for a sub test. *)
Definition test_point (e : event) : bool :=
  String.eqb (type e) "assert" || String.eqb (type e) "testAssert".

(** [item.type === 'assert'] *)
Definition is_assert (e : event) : bool := String.eqb (type e) "assert".

(** [value.type === 'bailout'] *)
Definition is_bailout (e : event) : bool := String.eqb (type e) "bailout".

(** The event has the offset [o]. *)
Definition at_level (o : nat) (e : event) : bool :=
  match offset e with
  | Some k => Nat.eqb k o
  | None => false
  end.

(** The event has an offset, which is [o] or more. *)
Definition at_least (o : nat) (e : event) : bool :=
  match offset e with
  | Some k => Nat.leb o k
  | None => false
  end.

(** The events of one test: its title, the events of its body, its
    plan and its time. *)
Definition test_events (o : nat) (t : string * body * nat) : list event :=
  (mkEvent (Title (fst (fst t))) (Some o)
     :: body_events o 0 (snd (fst t))
     ++ [mkEvent (Plan 1 (body_count (snd (fst t)))) (Some o);
         mkEvent (Time (snd t)) (Some o)])%list.

(** A unit that is not finished and whose body, if it is not over yet,
    is going to raise. *)
Definition doomed (u : instance) : Prop :=
  done u = false
  /\ match coRoutine u with
     | Pending rest => exists err after, ending_of rest = Throw err after
     | Resolved _ => True
     end.

(** One of the iterators [combine] has not exhausted yet is a doomed
    unit. *)
Definition has_doomed (c : combined instance) : Prop :=
  exists u, In u (remaining c) /\ doomed u.

(** The results the assertion methods [ok], [notOk], [fail], [throws]
    and [doesNotThrow] return. *)
Definition method_result (a : assertion) : Prop :=
  (exists val d, a = Assertion.ok val d)
  \/ (exists val d, a = Assertion.notOk val d)
  \/ (exists d, a = Assertion.fail d)
  \/ (exists func expected d, Assertion.throws func expected d = Returns a)
  \/ (exists func expected d, Assertion.doesNotThrow func expected d = Returns a).

(* ================================================================== *)
(** ** The declarations of a file *)

(** The declaration is a call of [test.test]. *)
Definition is_bsd (d : declaration) : bool :=
  match d with Bsd _ _ _ => true | Top _ _ _ => false end.

(** The body a declaration gives. *)
Definition declared_body (d : declaration) : body :=
  match d with Top _ spec _ | Bsd _ spec _ => spec end.

(** What the calls of [test.test] of a file amount to for the root unit:
    the body of Root registers one sub test for each of them, in order,
    and awaits none. *)
Fixpoint root_body (file : list declaration) : body :=
  match file with
  | [] => Return
  | Top _ _ _ :: file => root_body file
  | Bsd description spec el :: file => SubTest description spec el false (root_body file)
  end.

(** The tests of a file declared with [test]: description, body and
    measured duration. *)
Fixpoint tops_of (file : list declaration) : list (string * body * nat) :=
  match file with
  | [] => []
  | Top description spec el :: file => (description, spec, el) :: tops_of file
  | Bsd _ _ _ :: file => tops_of file
  end.

(** The events the units of a file give to the merged stream once the
    title of the root unit has been pulled: what is left of the root
    unit, then the tests declared with [test], in the order of the
    declarations. *)
Definition file_events (el : nat) (file : list declaration) : list event :=
  (tl (test_events 0 ("Root", root_body file, el))
   ++ List.concat (List.map (test_events 0) (tops_of file)))%list.

(** The test points of a file that [start] counts, by whether they
    pass.  Without [test.test] they are all the assertions of the file,
    those of sub tests included; with it they are the tests declared
    with [test.test], then the items of the tests declared with
    [test]. *)
Definition top_points (file : list declaration) : list bool :=
  if existsb is_bsd file
  then (entries_pass (root_body file)
        ++ flat_map (fun t => entries_pass (snd (fst t))) (tops_of file))%list
  else flat_map (fun t => List.map pass (assertions_in (snd (fst t)))) (tops_of file).

(* ================================================================== *)
(** ** The output stream on lists *)

(** What the first reassignment of [outputStream] does to the events
    that go through it. *)
Definition flattened (flatten : bool) (l : list event) : list event :=
  if flatten then List.map resetOffset (List.filter notTestAssert l) else l.

(** The events of [l] after the last [map] of [start], one after the
    other from the counters [k], and the counters then. *)
Fixpoint renumber_all (l : list event) (k : counters) : list event * counters :=
  match l with
  | [] => ([], k)
  | item :: l =>
      let (item, s) := renumber item (combine [], k) in
      let (l, k) := renumber_all l (snd s) in
      (item :: l, k)
  end.

(** An iterator on the state of [start] that neither reads nor writes
    the counters. *)
Definition counter_free (V R : Type) (it : iterator state V R) : Prop :=
  forall fuel c k k',
    it fuel (c, k') = (fst (it fuel (c, k)), (fst (snd (it fuel (c, k))), k')).

(* ================================================================== *)
(** ** Reading what is printed *)

(** A printed text that reads as a test point at the margin. *)
Definition test_line (line : string) : bool :=
  String.prefix "ok " line || String.prefix "not ok " line.

(** A printed text that reads as a failing test point at the margin. *)
Definition failing_line (line : string) : bool := String.prefix "not ok " line.

(* ================================================================== *)
(** ** Units in which a body raises *)

(** The measures of a healthy unit say nothing of a unit in which a
    body raises.  What follows describes every unit: what it gives up to
    the point where its sequence ends or stops for ever. *)

(** The events a unit at offset [o] that has counted [n] items, with the
    duration [el] and the description [d], gives for what is left of
    its body [b], up to the point where its sequence ends or stops for
    ever.  A sub test whose bodies return is given whole and is followed
    by the assertion that stands for it; a sub test in which a body
    raises is given up to its [bailout] event, and nothing comes after
    it.  A body that returns ends with the plan and the time; a body
    that raises ends with the three events of the handler for
    rejections. *)
Fixpoint body_trace (o n el : nat) (d : string) (b : body) : list event :=
  match b with
  | Return => [mkEvent (Plan 1 n) (Some o); mkEvent (Time el) (Some o)]
  | Throw err _ =>
      [mkEvent (Assert (mkAssertion false VUndefined VUndefined (VString d)
                                    None None None None)) None;
       mkEvent (Comment "Unhandled exception") None;
       mkEvent (Bailout err) (Some o)]
  | Collect a rest =>
      mkEvent (Assert (set_id (S n) a)) (Some o) :: body_trace o (S n) el d rest
  | SubTest d' sub el' _ rest =>
      if returns sub
      then ((mkEvent (Title d') (Some (S o))
               :: body_events (S o) 0 sub
               ++ [mkEvent (Plan 1 (body_count sub)) (Some (S o));
                   mkEvent (Time el') (Some (S o))])
            ++ mkEvent (TestAssert
                          (summary_assertion
                             (Some (S n))
                             (Result.mk (body_count sub) (all_pass sub) d' (Some el'))))
                       (Some o)
            :: body_trace o (S n) el d rest)%list
      else mkEvent (Title d') (Some (S o)) :: body_trace (S o) 0 el' d' sub
  | Await rest => body_trace o n el d rest
  end.

(** A bound on the pulls a body calls for, whether it returns or
    raises. *)
Fixpoint body_effort (b : body) : nat :=
  match b with
  | Return | Throw _ _ => 0
  | Collect _ rest => 1 + body_effort rest
  | SubTest _ spec _ _ rest => body_effort spec + 8 + body_effort rest
  | Await rest => body_effort rest
  end.

(** The events a unit that is not healthy gives before its sequence
    stops for ever: the events of its buffer up to the first sub test
    that is not healthy, which is followed to where it stops; and, when
    the buffer holds no such sub test, the events of what is left of
    the body. *)
Fixpoint trace (u : instance) : list event :=
  fold_right
    (fun x acc =>
       match x with
       | IEvent e => e :: acc
       | ISubTest c =>
           if healthy c
           then (events c
                 ++ mkEvent (TestAssert (summary_assertion (unit_id c) (final c)))
                            (Some (unit_offset u))
                 :: acc)%list
           else trace c
       end)
    match coRoutine u with
    | Pending rest =>
        body_trace (unit_offset u) (Result.count (result u)) (elapsed u)
                   (Result.description (result u)) rest
    | Resolved _ => []
    end
    (buffer u).

(** The part of [trace] that comes from the slots of a buffer, for a
    unit at offset [o], before the events [tail]. *)
Definition items_trace (o : nat) (b : list (item instance)) (tail : list event)
  : list event :=
  fold_right
    (fun x acc =>
       match x with
       | IEvent e => e :: acc
       | ISubTest c =>
           if healthy c
           then (events c
                 ++ mkEvent (TestAssert (summary_assertion (unit_id c) (final c))) (Some o)
                 :: acc)%list
           else trace c
       end)
    tail b.

(** A bound on the pulls a unit that is not healthy answers to. *)
Fixpoint effort (u : instance) : nat :=
  list_sum (List.map (fun x => match x with
                               | IEvent _ => 1
                               | ISubTest c => (if healthy c then work c else effort c) + 2
                               end) (buffer u))
  + match coRoutine u with
    | Pending rest => body_effort rest + 4
    | Resolved _ => 0
    end.

Definition items_effort (b : list (item instance)) : nat :=
  list_sum (List.map (fun x => match x with
                               | IEvent _ => 1
                               | ISubTest c => (if healthy c then work c else effort c) + 2
                               end) b).

(** The states a unit goes through, whatever its bodies do: while the
    promise is pending the unit is not finished, and once it has reacted
    the unit is finished exactly when the promise was resolved with the
    result; and so for the sub tests in the buffer. *)
Fixpoint sane (u : instance) : bool :=
  match coRoutine u with
  | Pending _ => negb (done u)
  | Resolved with_result => Bool.eqb with_result (done u)
  end
  && forallb (on_sub (fun c => healthy c || sane c) true) (buffer u).

Definition items_sane (b : list (item instance)) : bool :=
  forallb (on_sub (fun c => healthy c || sane c) true) b.

(** Pulls on an iterator in the state [s] give the items [l], one after
    the other, and leave it in the state [s']. *)
Inductive gives (St V R : Type) (it : iterator St V R) : St -> list V -> St -> Prop :=
| gives_nil (s : St) : gives it s [] s
| gives_cons (fuel : nat) (s s1 s' : St) (v : V) (l : list V) :
    it fuel s = (Yield v, s1) -> gives it s1 l s' -> gives it s (v :: l) s'.

(** What a test gives at offset [o], whether its bodies return or not:
    its title, then [body_trace]. *)
Definition test_trace (o : nat) (t : string * body * nat) : list event :=
  mkEvent (Title (fst (fst t))) (Some o)
    :: body_trace o 0 (snd t) (fst (fst t)) (snd (fst t)).

(** Tests in turn, up to and with the first in which a body raises. *)
Fixpoint tests_trace (ts : list (string * body * nat)) : list event :=
  match ts with
  | [] => []
  | t :: ts => (test_trace 0 t ++ if returns (snd (fst t)) then tests_trace ts else [])%list
  end.

(** The events the units of a file give to the merged stream once the
    title of the root unit has been pulled, up to the first [bailout]
    event: what is left of the root unit, whose sub tests are the tests
    declared with [test.test]; then, when no body raised so far, the
    tests declared with [test] in turn. *)
Definition file_trace (el : nat) (file : list declaration) : list event :=
  tl (tests_trace (("Root", root_body file, el) :: tops_of file)).

(** What a unit still has to give, healthy or not. *)
Definition unit_trace (u : instance) : list event :=
  if healthy u then events u else trace u.

(** Units in turn, up to and with the first that is not healthy. *)
Fixpoint units_trace (us : list instance) : list event :=
  match us with
  | [] => []
  | u :: us => (unit_trace u ++ if healthy u then units_trace us else [])%list
  end.

(** A sequence of events holds no [bailout] event, or holds one only,
    at its end. *)
Definition bailout_last (l : list event) : Prop :=
  existsb is_bailout l = false
  \/ exists front err k,
      l = (front ++ [mkEvent (Bailout err) (Some k)])%list
      /\ existsb is_bailout front = false.

(** What running a body, whether it returns or raises, keeps. *)
Definition run_keeps (b : body) : Prop :=
  forall (flush : bool) (u u' : instance) (left : body),
    run flush b u = (u', left) ->
    returns left && items_healthy (buffer u') = returns b && items_healthy (buffer u)
    /\ (items_sane (buffer u) = true -> items_sane (buffer u') = true)
    /\ items_trace (unit_offset u) (buffer u')
                   (body_trace (unit_offset u) (Result.count (result u')) (elapsed u)
                               (Result.description (result u)) left)
       = items_trace (unit_offset u) (buffer u)
                     (body_trace (unit_offset u) (Result.count (result u)) (elapsed u)
                                 (Result.description (result u)) b)
    /\ items_effort (buffer u') + body_effort left <= items_effort (buffer u) + body_effort b
    /\ Result.description (result u') = Result.description (result u).

(* ================================================================== *)
(** * Properties *)

(** ** The combinators *)

Section CombinatorFacts.

Variables St V W R : Type.

Lemma filter_monotone (predicate : V -> bool) (it : iterator St V R) :
  monotone it -> monotone (filter predicate it).
Proof.
  intros Hit fuel.
  induction fuel as [|fuel IH]; intros s r s' H Hr fuel' Hle; simpl in H.
  - inversion H; subst; congruence.
  - destruct fuel' as [|fuel']; [lia|]. simpl.
    destruct (it fuel s) as [r0 s0] eqn:E.
    assert (Hne : r0 <> Blocked) by (intro; subst; inversion H; subst; congruence).
    rewrite (Hit _ _ _ _ E Hne fuel') by lia.
    destruct r0 as [v| | |]; try exact H.
    destruct (negb (predicate v)); [|exact H].
    apply (IH _ _ _ H Hr). lia.
Qed.

Lemma map_monotone (mapFn : V -> St -> W * St) (it : iterator St V R) :
  monotone it -> monotone (map mapFn it).
Proof.
  intros Hit fuel s r s' H Hr fuel' Hle.
  destruct fuel as [|fuel]; simpl in H.
  - inversion H; subst; congruence.
  - destruct fuel' as [|fuel']; [lia|]. simpl.
    destruct (it fuel s) as [r0 s0] eqn:E.
    assert (Hne : r0 <> Blocked).
    { intro; subst. inversion H; subst; congruence. }
    rewrite (Hit _ _ _ _ E Hne fuel') by lia. exact H.
Qed.

(** A value that comes out of [filter] passed the predicate and came
    out of the underlying iterator. *)
Lemma filter_yield (predicate : V -> bool) (it : iterator St V R) :
  forall fuel s v s',
    filter predicate it fuel s = (Yield v, s') ->
    predicate v = true /\ exists fuel0 s0, it fuel0 s0 = (Yield v, s').
Proof.
  induction fuel as [|fuel IH]; intros s v s' H; simpl in H; [discriminate|].
  destruct (it fuel s) as [[v0| | |] s0] eqn:E; try discriminate.
  destruct (predicate v0) eqn:P; simpl in H.
  - inversion H; subst. split; [exact P|]. eauto.
  - eapply IH; eauto.
Qed.

(** A value that comes out of [map] is the image of the one the
    underlying iterator gave at that pull. *)
Lemma map_yield (mapFn : V -> St -> W * St) (it : iterator St V R) :
  forall fuel s w s',
    map mapFn it fuel s = (Yield w, s') ->
    exists fuel0 v s0, fuel = S fuel0 /\ it fuel0 s = (Yield v, s0)
                       /\ mapFn v s0 = (w, s').
Proof.
  intros [|fuel] s w s' H; simpl in H; [discriminate|].
  destruct (it fuel s) as [[v0| | |] s0] eqn:E; try discriminate.
  destruct (mapFn v0 s0) as [w0 s1] eqn:M. inversion H; subst.
  exists fuel, v0, s0. auto.
Qed.

Lemma filter_done (predicate : V -> bool) (it : iterator St V R) :
  forall fuel s r s', filter predicate it fuel s = (Done r, s') -> r = None.
Proof.
  induction fuel as [|fuel IH]; intros s r s' H; simpl in H; [discriminate|].
  destruct (it fuel s) as [[v0| | |] s0] eqn:E; try discriminate.
  - destruct (negb (predicate v0)); [eauto|discriminate].
  - inversion H; reflexivity.
Qed.

Lemma map_done (mapFn : V -> St -> W * St) (it : iterator St V R) :
  forall fuel s r s', map mapFn it fuel s = (Done r, s') -> r = None.
Proof.
  intros [|fuel] s r s' H; simpl in H; [discriminate|].
  destruct (it fuel s) as [[v0| | |] s0] eqn:E; try discriminate.
  - destruct (mapFn v0 s0); discriminate.
  - inversion H; reflexivity.
Qed.

(** The end of the underlying sequence is passed on, without its
    value. *)
Lemma filter_end (predicate : V -> bool) (it : iterator St V R) :
  forall fuel s r s',
    it fuel s = (Done r, s') -> filter predicate it (S fuel) s = (Done None, s').
Proof. intros fuel s r s' H. simpl. rewrite H. reflexivity. Qed.

Lemma map_end (mapFn : V -> St -> W * St) (it : iterator St V R) :
  forall fuel s r s',
    it fuel s = (Done r, s') -> map mapFn it (S fuel) s = (Done None, s').
Proof. intros fuel s r s' H. simpl. rewrite H. reflexivity. Qed.

Lemma drain_monotone (it : iterator St V R) :
  monotone it ->
  forall fuel s l r s',
    drain it fuel s = (l, r, s') -> r <> Blocked ->
    forall fuel', fuel <= fuel' -> drain it fuel' s = (l, r, s').
Proof.
  intros Hit fuel.
  induction fuel as [|fuel IH]; intros s l r s' H Hr fuel' Hle; simpl in H.
  - inversion H; subst; congruence.
  - destruct fuel' as [|fuel']; [lia|]. simpl.
    destruct (it fuel s) as [r0 s0] eqn:E.
    assert (Hne : r0 <> Blocked).
    { intro; subst. inversion H; subst; congruence. }
    rewrite (Hit _ _ _ _ E Hne fuel') by lia.
    destruct r0 as [v| | |]; try exact H.
    destruct (drain it fuel s0) as [[l0 e0] s1] eqn:D.
    inversion H; subst.
    rewrite (IH _ _ _ _ D Hr fuel') by lia. reflexivity.
Qed.

End CombinatorFacts.

Section CombineFacts.

Variables I F V R : Type.
Variable inext : nat -> I -> step V R * I.

Lemma combine_monotone :
  monotone inext -> monotone (combine_next (F := F) inext).
Proof.
  intros Hit fuel.
  induction fuel as [|fuel IH]; intros s r s' H Hr fuel' Hle; simpl in H.
  - inversion H; subst; congruence.
  - destruct fuel' as [|fuel']; [lia|]. simpl.
    destruct s as [c frame]. destruct (current c) as [cur|]; [|exact H].
    destruct (inext fuel cur) as [r0 cur'] eqn:E.
    assert (Hne : r0 <> Blocked).
    { intro; subst. inversion H; subst; congruence. }
    rewrite (Hit _ _ _ _ E Hne fuel') by lia.
    destruct r0 as [v| | |]; try exact H.
    apply (IH _ _ _ H Hr). lia.
Qed.

Lemma combine_done :
  forall fuel s r s', combine_next (F := F) inext fuel s = (Done r, s') -> r = None.
Proof.
  induction fuel as [|fuel IH]; intros s r s' H; simpl in H; [discriminate|].
  destruct s as [c frame]. destruct (current c) as [cur|].
  - destruct (inext fuel cur) as [[v0| | |] cur'] eqn:E; try discriminate. eauto.
  - inversion H; reflexivity.
Qed.

(** [combine] never writes to the rest of the state. *)
Lemma combine_frame :
  forall fuel s r s', combine_next (F := F) inext fuel s = (r, s') -> snd s' = snd s.
Proof.
  induction fuel as [|fuel IH]; intros s r s' H; simpl in H.
  - inversion H; reflexivity.
  - destruct s as [c frame]. destruct (current c) as [cur|].
    + destruct (inext fuel cur) as [[v0| | |] cur'] eqn:E;
        try (inversion H; reflexivity).
      apply IH in H. exact H.
    + inversion H; reflexivity.
Qed.

(** A value that comes out of [combine] was yielded by the iterator
    that was [current] at some point. *)
Lemma combine_yield :
  forall fuel s v s',
    combine_next (F := F) inext fuel s = (Yield v, s') ->
    exists fuel0 cur cur', inext fuel0 cur = (Yield v, cur')
                           /\ current (fst s') = Some cur'.
Proof.
  induction fuel as [|fuel IH]; intros s v s' H; simpl in H; [discriminate|].
  destruct s as [c frame]. destruct (current c) as [cur|]; [|discriminate].
  destruct (inext fuel cur) as [[v0| | |] cur'] eqn:E; try discriminate.
  - inversion H; subst. exists fuel, cur, cur'. auto.
  - eauto.
Qed.

End CombineFacts.

(** ** The pull operation of a unit *)

Lemma next_monotone : monotone next.
Proof.
  intros fuel.
  induction fuel as [|fuel IH]; intros u r u' H Hr fuel' Hle; simpl in H.
  - inversion H; subst; congruence.
  - destruct fuel' as [|fuel']; [lia|]. simpl.
    destruct (buffer u) as [|[e|delegate] rest].
    + destruct (done u); [exact H|]. apply (IH _ _ _ H Hr). lia.
    + exact H.
    + destruct (next fuel delegate) as [r0 d0] eqn:E.
      assert (Hne : r0 <> Blocked).
      { intro; subst. inversion H; subst; congruence. }
      rewrite (IH _ _ _ E Hne fuel') by lia.
      destruct r0 as [v|[value|]| |]; try exact H.
      destruct (subTestAssertion d0 value u) as [e0 u0].
      apply (IH _ _ _ H Hr). lia.
Qed.

Lemma merged_monotone : monotone merged.
Proof. apply combine_monotone, next_monotone. Qed.

Lemma outputStream_monotone (flatten : bool) : monotone (outputStream flatten).
Proof.
  unfold outputStream. apply map_monotone, filter_monotone.
  destruct flatten.
  - apply map_monotone, filter_monotone, merged_monotone.
  - apply merged_monotone.
Qed.

(** A unit whose promise has reacted without setting [done] and whose
    buffer is empty does not answer, whatever the bound. *)
Lemma stuck_blocked (u : instance) :
  stuck u -> forall fuel, next fuel u = (Blocked, u).
Proof.
  intros (Hb & Hd & b & Hc) fuel.
  induction fuel as [|fuel IH]; simpl; [reflexivity|].
  rewrite Hb, Hd. unfold await_coRoutine. rewrite Hc. exact IH.
Qed.

Lemma next_unfold (fuel : nat) (u : instance) :
  next (S fuel) u =
  match buffer u with
  | [] =>
      if done u then (Done (Some (result u)), u)
      else next fuel (await_coRoutine u)
  | IEvent e :: rest => (Yield e, with_buffer rest u)
  | ISubTest delegate :: rest =>
      match next fuel delegate with
      | (Done (Some value), delegate) =>
          let (e, u) := subTestAssertion delegate value u in
          next fuel (with_buffer (IEvent e :: tl (buffer u)) u)
      | (Done None, delegate) =>
          (Failed (type_error "Cannot destructure 'value'"),
           with_buffer (ISubTest delegate :: rest) u)
      | (Yield value, delegate) =>
          (Yield value, with_buffer (ISubTest delegate :: rest) u)
      | (Failed error, delegate) =>
          (Failed error, with_buffer (ISubTest delegate :: rest) u)
      | (Blocked, delegate) =>
          (Blocked, with_buffer (ISubTest delegate :: rest) u)
      end
  end.
Proof. reflexivity. Qed.

(** [C4] The four cases of a pull, in their order of priority.  With the
    buffer [front :: rest]:
    - (1) an event at the front is removed and returned, whatever the
      state of the body, within the first call;
    - (2) a sub test at the front is pulled: an item it yields is
      returned and the sub test, as the pull left it, keeps its slot;
      when it is exhausted the slot receives the [testAssert] event made
      from its summary (same offset as the unit, id of the sub test, the
      [pass] folded into the result of the unit) and the retry returns
      that event;
    With an empty buffer:
    - (3) an unfinished unit waits for its promise, which is resolved
      afterwards, and retries;
    - (4) a finished unit signals the end, with its result as value. *)
Theorem next_four_cases (fuel : nat) (u : instance) :
  (forall e rest,
      buffer u = IEvent e :: rest ->
      next (S fuel) u = (Yield e, with_buffer rest u))
  /\ (forall delegate rest v delegate',
         buffer u = ISubTest delegate :: rest ->
         next fuel delegate = (Yield v, delegate') ->
         next (S fuel) u = (Yield v, with_buffer (ISubTest delegate' :: rest) u))
  /\ (forall delegate rest value delegate',
         buffer u = ISubTest delegate :: rest ->
         next (S fuel) delegate = (Done (Some value), delegate') ->
         let summary :=
           mkAssertion (Result.pass value) VUndefined VUndefined
                       (VString (Result.description value)) None
                       (unit_id delegate') (Result.executionTime value) None in
         let e := mkEvent (TestAssert summary) (Some (unit_offset u)) in
         let r := result u in
         let folded :=
           with_result (Result.mk (Result.count r) (Result.pass r && Result.pass value)
                                  (Result.description r) (Result.executionTime r)) u in
         next (S (S fuel)) u = next (S fuel) (with_buffer (IEvent e :: rest) folded)
         /\ next (S (S fuel)) u = (Yield e, with_buffer rest folded))
  /\ (buffer u = [] -> done u = false ->
      next (S fuel) u = next fuel (await_coRoutine u)
      /\ exists b, coRoutine (await_coRoutine u) = Resolved b)
  /\ (buffer u = [] -> done u = true ->
      next (S fuel) u = (Done (Some (result u)), u)).
Proof.
  split; [|split; [|split; [|split]]].
  - intros e rest Hb. simpl. rewrite Hb. reflexivity.
  - intros delegate rest v delegate' Hb Hd. simpl. rewrite Hb, Hd. reflexivity.
  - intros delegate rest value delegate' Hb Hd. cbv zeta.
    assert (Hretry :
              next (S (S fuel)) u
              = next (S fuel)
                  (with_buffer
                     (IEvent (mkEvent
                                (TestAssert
                                   (mkAssertion (Result.pass value) VUndefined VUndefined
                                      (VString (Result.description value)) None
                                      (unit_id delegate') (Result.executionTime value) None))
                                (Some (unit_offset u))) :: rest)
                     (with_result
                        (Result.mk (Result.count (result u))
                                   (Result.pass (result u) && Result.pass value)
                                   (Result.description (result u))
                                   (Result.executionTime (result u))) u))).
    { rewrite (next_unfold (S fuel) u). rewrite Hb, Hd.
      unfold subTestAssertion, createAssertion. simpl. rewrite Hb. reflexivity. }
    split; [exact Hretry|]. rewrite Hretry. reflexivity.
  - intros Hb Hd. split.
    + simpl. rewrite Hb, Hd. reflexivity.
    + unfold await_coRoutine. destruct (coRoutine u) as [rest|b] eqn:Hc.
      * destruct (run true rest u) as [u1 left].
        destruct left; simpl; eauto.
      * exists b. exact Hc.
  - intros Hb Hd. simpl. rewrite Hb, Hd. reflexivity.
Qed.

Lemma next_four_cases_witness :
  let parent := tester 0 "parent" nested 5 in
  (exists e rest, next 1 parent = (Yield e, with_buffer rest parent))
  /\ (exists v rest, next 2 (after_pulls 1 9 parent)
                     = (Yield v, with_buffer rest (after_pulls 1 9 parent)))
  /\ (exists e rest folded,
         type e = "testAssert"
         /\ next 2 (after_pulls 6 9 parent) = (Yield e, with_buffer rest folded))
  /\ (exists b, coRoutine (await_coRoutine (after_pulls 8 9 parent)) = Resolved b)
  /\ next 1 (after_pulls 10 9 parent)
     = (Done (Some (result (after_pulls 10 9 parent))), after_pulls 10 9 parent).
Proof.
  intro parent.
  split; [|split; [|split; [|split]]].
  - destruct (next_four_cases 0 parent) as (H & _).
    eexists; eexists. apply H. vm_compute; reflexivity.
  - destruct (next_four_cases 1 (after_pulls 1 9 parent)) as (_ & H & _).
    eexists; eexists. eapply H; vm_compute; reflexivity.
  - destruct (next_four_cases 0 (after_pulls 6 9 parent)) as (_ & _ & H & _).
    eexists; eexists; eexists. split; cycle 1.
    + eapply H; vm_compute; reflexivity.
    + vm_compute; reflexivity.
  - destruct (next_four_cases 0 (after_pulls 8 9 parent)) as (_ & _ & _ & H & _).
    apply H; vm_compute; reflexivity.
  - destruct (next_four_cases 0 (after_pulls 10 9 parent)) as (_ & _ & _ & _ & H).
    apply H; vm_compute; reflexivity.
Defined.

(** ** A body that raises *)

Lemma collector_shape (x : assertion + instance) (u : instance) :
  unit_offset (collector x u) = unit_offset u
  /\ done (collector x u) = done u
  /\ coRoutine (collector x u) = coRoutine u
  /\ elapsed (collector x u) = elapsed u
  /\ unit_id (collector x u) = unit_id u.
Proof. destruct x; repeat split; reflexivity. Qed.

(** Running a body touches neither the offset of its unit nor its
    [done] flag, its promise or its id. *)
Lemma run_shape (flush : bool) (b : body) :
  forall u u' left,
    run flush b u = (u', left) ->
    unit_offset u' = unit_offset u
    /\ done u' = done u
    /\ coRoutine u' = coRoutine u
    /\ elapsed u' = elapsed u
    /\ unit_id u' = unit_id u.
Proof.
  revert flush.
  induction b as [|err rest _|a rest IH|d sub IHsub el awaited rest IH|rest IH];
    intros flush u u' left H; cbn [run] in H.
  - inversion H; subst; auto.
  - inversion H; subst; auto.
  - apply IH in H. destruct (collector_shape (inl a) u) as (E1 & E2 & E3 & E4 & E5).
    rewrite E1, E2, E3, E4, E5 in H. exact H.
  - destruct (run (flush && awaited) sub (fresh (S (unit_offset u)) d sub el)) as [c left0].
    set (c' := if flush && awaited then settle left0 c
               else with_coRoutine (Pending left0) c) in H.
    destruct (collector_shape (inr c') u) as (E1 & E2 & E3 & E4 & E5).
    destruct (awaited && negb flush).
    + inversion H; subst. auto.
    + apply IH in H. rewrite E1, E2, E3, E4, E5 in H. exact H.
  - destruct flush.
    + eauto.
    + inversion H; subst; auto.
Qed.

(** [C1, as amended] When the body of a unit raises [err], the wait for
    its promise ends with three events appended to the buffer, in this
    order: a failing [assert] event without offset that carries the
    description of the unit, the comment 'Unhandled exception' without
    offset, and a [bailout] event with [err] at the offset of the unit.
    The result of the unit (its count and its aggregate [pass]) and its
    [done] flag are as the body left them, and the promise is resolved
    with no value. *)
Theorem uncaught_failure (u : instance) (rest : body) (u1 : instance)
        (err : value) (after : body) :
  coRoutine u = Pending rest ->
  run true rest u = (u1, Throw err after) ->
  let failing :=
    mkAssertion false VUndefined VUndefined
                (VString (Result.description (result u1))) None None None None in
  buffer (await_coRoutine u)
  = (buffer u1 ++ [IEvent (mkEvent (Assert failing) None);
                   IEvent (mkEvent (Comment "Unhandled exception") None);
                   IEvent (mkEvent (Bailout err) (Some (unit_offset u)))])%list
  /\ result (await_coRoutine u) = result u1
  /\ done (await_coRoutine u) = done u
  /\ coRoutine (await_coRoutine u) = Resolved false.
Proof.
  intros Hc Hrun. unfold await_coRoutine. rewrite Hc, Hrun.
  destruct (run_shape _ _ _ Hrun) as (Eo & Ed & _).
  cbn [settle]. unfold on_rejected, push. cbn.
  rewrite <- !app_assoc. cbn. rewrite Eo, Ed. auto.
Qed.

Lemma uncaught_failure_witness :
  let u := tester 0 "boom" (Collect (passing "before") (Throw boom Return)) 5 in
  List.map (on_sub (fun _ => "sub test") "event") (buffer (await_coRoutine u))
  = ["event"; "event"; "event"; "event"; "event"]
  /\ Result.pass (result (await_coRoutine u)) = true
  /\ done (await_coRoutine u) = false
  /\ coRoutine (await_coRoutine u) = Resolved false.
Proof.
  intro u.
  assert (H1 : coRoutine u = Pending (Throw boom Return)) by (vm_compute; reflexivity).
  assert (H2 : run true (Throw boom Return) u = (u, Throw boom Return))
    by (vm_compute; reflexivity).
  destruct (uncaught_failure u H1 H2) as (Hb & Hr & Hd & Hc).
  split; [|split; [|split]].
  - rewrite Hb. vm_compute. reflexivity.
  - rewrite Hr. vm_compute. reflexivity.
  - rewrite Hd. vm_compute. reflexivity.
  - exact Hc.
Defined.

Lemma drain_event (fuel : nat) (u : instance) (e : event) (rest : list (item instance)) :
  buffer u = IEvent e :: rest ->
  drain next (S (S fuel)) u
  = (let '(l, r, s) := drain next (S fuel) (with_buffer rest u) in (e :: l, r, s)).
Proof. intro Hb. cbn [drain]. rewrite next_unfold, Hb. reflexivity. Qed.

Lemma drain_stuck (fuel : nat) (u : instance) :
  stuck u -> drain next fuel u = ([], Blocked, u).
Proof.
  intro H. destruct fuel as [|fuel]; [reflexivity|].
  cbn [drain]. rewrite (stuck_blocked H). reflexivity.
Qed.

(** [C1, as stated, fails] A unit whose body raises keeps its aggregate
    [pass] at [true], is not marked as finished, and its promise resolves
    with [undefined] instead of a failing summary; once the events of the
    buffer have been pulled its sequence never signals its end. *)
Lemma uncaught_failure_counterexample :
  let u := await_coRoutine (tester 0 "boom" (Throw boom Return) 5) in
  Result.pass (result u) = true
  /\ done u = false
  /\ coRoutine u = Resolved false
  /\ forall fuel, exists l u', drain next fuel u = (l, Blocked, u').
Proof.
  intro u.
  split; [|split; [|split]]; try (vm_compute; reflexivity).
  intro fuel.
  do 5 (destruct fuel as [|fuel]; [vm_compute; eauto|]).
  do 4 (erewrite drain_event by (vm_compute; reflexivity)).
  rewrite drain_stuck by (vm_compute; eauto).
  eauto.
Qed.

(** ** Pulls that never answer *)

Section Silence.

Variables St V W R : Type.

Lemma filter_silent (predicate : V -> bool) (it : iterator St V R) (s : St) :
  silent it s -> silent (filter predicate it) s.
Proof.
  intros H [|fuel]; simpl; [reflexivity|].
  specialize (H fuel). destruct (it fuel s) as [r s0]. simpl in H. subst. reflexivity.
Qed.

Lemma map_silent (mapFn : V -> St -> W * St) (it : iterator St V R) (s : St) :
  silent it s -> silent (map mapFn it) s.
Proof.
  intros H [|fuel]; simpl; [reflexivity|].
  specialize (H fuel). destruct (it fuel s) as [r s0]. simpl in H. subst. reflexivity.
Qed.

(** A value that the predicate refuses, followed by silence, is
    silence. *)
Lemma filter_silent_after (predicate : V -> bool) (it : iterator St V R)
      (fuel0 : nat) (s s' : St) (v : V) :
  monotone it ->
  it fuel0 s = (Yield v, s') ->
  predicate v = false ->
  silent (filter predicate it) s' ->
  silent (filter predicate it) s.
Proof.
  intros Hmono Hy Hp Hs [|fuel]; simpl; [reflexivity|].
  destruct (it fuel s) as [r s0] eqn:E.
  destruct r as [v0| | |]; try reflexivity.
  - assert (Hv : (Yield v0, s0) = (Yield (R := R) v, s')).
    { rewrite <- (Hmono _ _ _ _ E ltac:(discriminate) (Nat.max fuel fuel0) ltac:(lia)).
      rewrite <- (Hmono _ _ _ _ Hy ltac:(discriminate) (Nat.max fuel fuel0) ltac:(lia)).
      reflexivity. }
    inversion Hv; subst. rewrite Hp. simpl. apply Hs.
  - exfalso.
    pose proof (Hmono _ _ _ _ E ltac:(discriminate) (Nat.max fuel fuel0) ltac:(lia)) as E1.
    pose proof (Hmono _ _ _ _ Hy ltac:(discriminate) (Nat.max fuel fuel0) ltac:(lia)) as E2.
    congruence.
  - exfalso.
    pose proof (Hmono _ _ _ _ E ltac:(discriminate) (Nat.max fuel fuel0) ltac:(lia)) as E1.
    pose proof (Hmono _ _ _ _ Hy ltac:(discriminate) (Nat.max fuel fuel0) ltac:(lia)) as E2.
    congruence.
Qed.

End Silence.

Lemma merged_silent (cur : instance) (c : combined instance) (k : counters) :
  current c = Some cur ->
  (exists delegate rest, buffer cur = ISubTest delegate :: rest /\ stuck delegate)
  \/ stuck cur ->
  silent merged (c, k).
Proof.
  intros Hc H [|fuel]; unfold merged; simpl; [reflexivity|].
  rewrite Hc.
  assert (Hb : exists cur', next fuel cur = (Blocked, cur')).
  { destruct H as [(delegate & rest & Hb & Hs)|Hs].
    - destruct fuel as [|fuel]; [simpl; eauto|].
      rewrite next_unfold, Hb, (stuck_blocked Hs). eauto.
    - rewrite (stuck_blocked Hs). eauto. }
  destruct Hb as [cur' ->]. reflexivity.
Qed.

Lemma pull_loop_silent (flatten : bool) (s : state) :
  silent (outputStream flatten) s ->
  forall fuel log, ending (pull_loop flatten fuel s log) = Unresolved.
Proof.
  intros H [|fuel] log; simpl; [reflexivity|].
  specialize (H fuel). destruct (outputStream flatten fuel s) as [r s0].
  simpl in H. subst. reflexivity.
Qed.

(** One more event reported, other than a bailout, does not end a loop
    that does not end afterwards. *)
Lemma pull_loop_never (flatten : bool) (fuel0 : nat) (s s' : state) (ev : event) :
  outputStream flatten fuel0 s = (Yield ev, s') ->
  (forall err, data ev <> Bailout err) ->
  (forall fuel log, ending (pull_loop flatten fuel s' log) = Unresolved) ->
  forall fuel log, ending (pull_loop flatten fuel s log) = Unresolved.
Proof.
  intros Hy Hb Hs [|fuel] log; simpl; [reflexivity|].
  destruct (outputStream flatten fuel s) as [r s0] eqn:E.
  destruct r as [v0| | |]; try reflexivity.
  - assert (Hv : (Yield v0, s0) = (Yield (R := Result.t) ev, s')).
    { rewrite <- (@outputStream_monotone flatten _ _ _ _ E ltac:(discriminate)
                    (Nat.max fuel fuel0) ltac:(lia)).
      rewrite <- (@outputStream_monotone flatten _ _ _ _ Hy ltac:(discriminate)
                    (Nat.max fuel fuel0) ltac:(lia)).
      reflexivity. }
    inversion Hv; subst.
    destruct (data ev) eqn:D; try apply Hs. exfalso. eapply Hb; eauto.
  - exfalso.
    pose proof (@outputStream_monotone flatten _ _ _ _ E ltac:(discriminate)
                  (Nat.max fuel fuel0) ltac:(lia)) as E1.
    pose proof (@outputStream_monotone flatten _ _ _ _ Hy ltac:(discriminate)
                  (Nat.max fuel fuel0) ltac:(lia)) as E2.
    congruence.
  - exfalso.
    pose proof (@outputStream_monotone flatten _ _ _ _ E ltac:(discriminate)
                  (Nat.max fuel fuel0) ltac:(lia)) as E1.
    pose proof (@outputStream_monotone flatten _ _ _ _ Hy ltac:(discriminate)
                  (Nat.max fuel fuel0) ltac:(lia)) as E2.
    congruence.
Qed.

(** ** Failures and the scheduler *)

Lemma pull_loop_unfold (flatten : bool) (fuel : nat) (s : state) (log : list event) :
  pull_loop flatten (S fuel) s log =
  match outputStream flatten fuel s with
  | (Done _, s) =>
      ((log ++ [mkEvent (Plan 1 (count (snd s))) None;
                mkEvent (Comment (verdict (snd s))) None])%list,
       Completed, s)
  | (Yield value, s) =>
      match data value with
      | Bailout err => ((log ++ [value])%list, Rejected err, s)
      | _ => pull_loop flatten fuel s (log ++ [value])%list
      end
  | (Failed error, s) => (log, Rejected error, s)
  | (Blocked, s) => (log, Unresolved, s)
  end.
Proof. reflexivity. Qed.

(** Without flattening, an event with a positive offset goes through the
    output stream as it is, and the state with it. *)
Lemma hierarchical_forward (fuel : nat) (s s' : state) (ev : event) :
  merged fuel s = (Yield ev, s') ->
  offset_positive ev = true ->
  outputStream false (S (S fuel)) s = (Yield ev, s').
Proof.
  intros Hm Hp. unfold outputStream. cbn [map filter]. rewrite Hm.
  unfold keep, renumber. rewrite Hp. cbn [orb negb]. rewrite Hp. reflexivity.
Qed.

Lemma monotone_agree (St V R : Type) (it : iterator St V R) (Hmono : monotone it)
      (fuel1 fuel2 : nat) (s : St) (r1 r2 : step V R) (s1 s2 : St) :
  it fuel1 s = (r1, s1) -> r1 <> Blocked ->
  it fuel2 s = (r2, s2) -> r2 <> Blocked ->
  (r1, s1) = (r2, s2).
Proof.
  intros H1 N1 H2 N2.
  rewrite <- (Hmono _ _ _ _ H1 N1 (Nat.max fuel1 fuel2)) by lia.
  rewrite <- (Hmono _ _ _ _ H2 N2 (Nat.max fuel1 fuel2)) by lia.
  reflexivity.
Qed.

(** When the first pull on the root unit yields and the loop does not
    end afterwards, the call of [start] stays pending. *)
Lemma start_never (m : registry) (root root' : instance) (others : list instance)
      (fuel0 : nat) (ev : event) :
  tests m = root :: others ->
  next fuel0 root = (Yield ev, root') ->
  (forall fuel log,
      ending (pull_loop (flatten m) fuel
                        (combine (root' :: others), mkCounters 0 0 0) log)
      = Unresolved) ->
  forall fuel, snd (start fuel m) = Unresolved.
Proof.
  intros Ht Hy Hloop fuel. unfold start. rewrite Ht.
  destruct (next fuel root) as [r root1] eqn:E.
  destruct r as [v|r| |]; try reflexivity.
  - pose proof (monotone_agree next_monotone fuel fuel0 root E ltac:(discriminate)
                  Hy ltac:(discriminate)) as A.
    inversion A; subst. apply Hloop.
  - pose proof (monotone_agree next_monotone fuel fuel0 root E ltac:(discriminate)
                  Hy ltac:(discriminate)) as A.
    discriminate A.
  - pose proof (monotone_agree next_monotone fuel fuel0 root E ltac:(discriminate)
                  Hy ltac:(discriminate)) as A.
    discriminate A.
Qed.

(** [C2, as stated, fails] Without flattening, a sub test that raises
    is not summarized to its parent: its [bailout] event is reported,
    [start] rejects with the error, and neither a [testAssert] for it nor
    anything of the sub test declared after it is reported.  A top-level
    test that raises does not end the run: its [bailout] event, at offset
    0, is filtered out and the call of [start] stays pending. *)
Lemma nested_failure_counterexample :
  (let r := start 30 (load 0 [Bsd "parent" failing_child 5]) in
   snd r = Rejected boom
   /\ List.map digest (fst r)
      = [("version", None, None);
         ("title", Some 1, None);
         ("title", Some 2, None);
         ("assert", None, Some 1);
         ("comment", None, None);
         ("bailout", Some 2, None)])
  /\ forall fuel, snd (start fuel (load 0 failing_top)) = Unresolved.
Proof.
  split; [vm_compute; split; reflexivity|].
  eapply (start_never (load 0 failing_top) 1); [vm_compute; reflexivity|vm_compute; reflexivity|].
  change (flatten (load 0 failing_top)) with true.
  do 3 (eapply (pull_loop_never true 12);
        [vm_compute; reflexivity | intros err H; discriminate H |]).
  apply pull_loop_silent. unfold outputStream.
  apply map_silent.
  eapply filter_silent_after with (fuel0 := 12).
  - apply map_monotone, filter_monotone, merged_monotone.
  - vm_compute. reflexivity.
  - reflexivity.
  - apply filter_silent, map_silent, filter_silent.
    eapply merged_silent; [reflexivity|].
    right. split; [|split]; [reflexivity|reflexivity|eexists; reflexivity].
Qed.

(** ** The presentation policies *)

Lemma renumber_shape (v ev : event) (s s' : state) :
  renumber v s = (ev, s') ->
  type ev = type v /\ offset ev = offset v /\ fst s' = fst s.
Proof.
  unfold renumber. intro H.
  destruct (offset_positive v
            || negb (type v =? "assert") && negb (type v =? "testAssert")).
  - inversion H; subst; auto.
  - destruct s as [c k]. inversion H; subst.
    unfold with_data_id, type. destruct (data v) eqn:D; simpl; rewrite ?D; auto.
Qed.

Lemma includes_In (array : list string) (s : string) :
  includes array s = true <-> In s array.
Proof.
  unfold includes. rewrite existsb_exists. split.
  - intros (x & Hin & Heq). apply String.eqb_eq in Heq. subst. exact Hin.
  - intro Hin. exists s. split; [exact Hin|apply String.eqb_refl].
Qed.

(** What goes through the flattened stream has offset 0 and is not a
    sub test assertion. *)
Lemma flattened_yield (fuel : nat) (s s' : state) (ev : event) :
  outputStream true fuel s = (Yield ev, s') ->
  offset ev = Some 0 /\ type ev <> "testAssert".
Proof.
  unfold outputStream. intro H.
  apply map_yield in H. destruct H as (f1 & v & s1 & _ & Hf & Hr).
  apply renumber_shape in Hr. destruct Hr as (Ht & Ho & _).
  apply filter_yield in Hf. destruct Hf as (_ & f2 & s2 & Hm).
  apply map_yield in Hm. destruct Hm as (f3 & v0 & s3 & _ & Hf0 & Hp).
  unfold pure in Hp. inversion Hp; subst.
  apply filter_yield in Hf0. destruct Hf0 as (Hn & _).
  rewrite Ht, Ho. split; [reflexivity|].
  unfold notTestAssert in Hn. apply negb_true_iff in Hn.
  apply String.eqb_neq in Hn. exact Hn.
Qed.

(** [C6] With flattening, the first filter refuses every [testAssert]
    event, and every event that reaches the reporter through the output
    stream has offset 0 and is not a [testAssert].  A top-level test with
    one sub test of two passing assertions and one passing assertion of
    its own is reported with exactly three [assert] events, numbered 1
    to 3, all at offset 0 and passing, and no [testAssert]; the run
    completes. *)
Theorem flattened_policy :
  (forall ev : event, type ev = "testAssert" -> notTestAssert ev = false)
  /\ (forall (fuel : nat) (s s' : state) (ev : event),
         outputStream true fuel s = (Yield ev, s') ->
         offset ev = Some 0 /\ type ev <> "testAssert")
  /\ (let r := start 30 (load 0 [Top "parent" nested 5]) in
      snd r = Completed
      /\ List.map digest (List.filter (fun e => type e =? "assert") (fst r))
         = [("assert", Some 0, Some 1); ("assert", Some 0, Some 2);
            ("assert", Some 0, Some 3)]
      /\ forallb data_pass (List.filter (fun e => type e =? "assert") (fst r)) = true
      /\ existsb (fun e => type e =? "testAssert") (fst r) = false).
Proof.
  split; [|split].
  - intros ev H. unfold notTestAssert. rewrite H. reflexivity.
  - intros fuel s s' ev. apply flattened_yield.
  - vm_compute. repeat split.
Qed.

Lemma flattened_policy_witness :
  let ev := mkEvent (TestAssert (passing "child")) (Some 0) in
  let s : state :=
    (combine [after_pulls 3 9 (tester 0 "parent" nested 5)], mkCounters 0 0 0) in
  notTestAssert ev = false
  /\ exists ev' s', outputStream true 9 s = (Yield ev', s')
                    /\ offset ev' = Some 0 /\ type ev' <> "testAssert".
Proof.
  intros ev s. destruct flattened_policy as (H1 & H2 & _). split.
  - apply H1. reflexivity.
  - assert (H : exists ev' s', outputStream true 9 s = (Yield ev', s')).
    { eexists; eexists. vm_compute. reflexivity. }
    destruct H as (ev' & s' & H). exists ev', s'. split; [exact H|].
    exact (H2 9 s s' ev' H).
Defined.

(** Without flattening, what goes through the output stream at offset 0
    has one of the types to keep. *)
Lemma hierarchical_yield (fuel : nat) (s s' : state) (ev : event) :
  outputStream false fuel s = (Yield ev, s') ->
  offset ev = Some 0 ->
  In (type ev) toKeep.
Proof.
  unfold outputStream. intros H Ho.
  apply map_yield in H. destruct H as (f1 & v & s1 & _ & Hf & Hr).
  apply renumber_shape in Hr. destruct Hr as (Ht & Ho' & _).
  apply filter_yield in Hf. destruct Hf as (Hk & _).
  unfold keep, offset_positive in Hk. rewrite <- Ho', Ho in Hk. simpl in Hk.
  rewrite Ht. apply includes_In. exact Hk.
Qed.

(** [C5, as amended] Without flattening, an event at offset 0 reaches
    the reporter through the output stream only if its type is [title],
    [assert], [testAssert] or [comment]; the filter refuses [plan] and
    [time] events at offset 0.  An event at a positive offset goes
    through unchanged and leaves the counters alone.  Once the merged
    sequence has ended, [start] reports a plan from 1 to the count and a
    comment with the verdict, and completes. *)
Theorem hierarchical_policy :
  (forall (fuel : nat) (s s' : state) (ev : event),
      outputStream false fuel s = (Yield ev, s') ->
      offset ev = Some 0 ->
      In (type ev) ["title"; "assert"; "testAssert"; "comment"])
  /\ (forall ev : event,
         offset ev = Some 0 ->
         type ev = "plan" \/ type ev = "time" ->
         keep ev = false)
  /\ (forall (fuel : nat) (s s' : state) (ev : event) (n : nat),
         merged fuel s = (Yield ev, s') ->
         offset ev = Some (S n) ->
         outputStream false (S (S fuel)) s = (Yield ev, s'))
  /\ (forall (fuel : nat) (s s' : state) (r : option Result.t) (log : list event),
         outputStream false fuel s = (Done r, s') ->
         pull_loop false (S fuel) s log
         = ((log ++ [mkEvent (Plan 1 (count (snd s'))) None;
                     mkEvent (Comment (verdict (snd s'))) None])%list,
            Completed, s')).
Proof.
  split; [|split; [|split]].
  - intros fuel s s' ev H Ho.
    pose proof (hierarchical_yield _ _ H Ho) as Hin.
    unfold toKeep in Hin. simpl in *. intuition.
  - intros ev Ho Ht. unfold keep, offset_positive. rewrite Ho.
    destruct Ht as [-> | ->]; reflexivity.
  - intros fuel s s' ev n Hm Ho. eapply hierarchical_forward; [exact Hm|].
    unfold offset_positive. rewrite Ho. reflexivity.
  - intros fuel s s' r log H. rewrite pull_loop_unfold, H. reflexivity.
Qed.

Lemma hierarchical_policy_witness :
  let top : state := (combine [tester 0 "t" Return 1], mkCounters 0 0 0) in
  let sub : state := (combine [tester 1 "t" Return 1], mkCounters 0 0 0) in
  let over : state := (combine [], mkCounters 2 1 1) in
  (exists ev s', outputStream false 4 top = (Yield ev, s')
                 /\ In (type ev) ["title"; "assert"; "testAssert"; "comment"])
  /\ keep (mkEvent (Plan 1 2) (Some 0)) = false
  /\ keep (mkEvent (Time 7) (Some 0)) = false
  /\ (exists s', outputStream false 4 sub
                 = (Yield (mkEvent (Title "t") (Some 1)), s'))
  /\ pull_loop false 4 over []
     = ([mkEvent (Plan 1 2) None; mkEvent (Comment "failed 1 of 2 tests") None],
        Completed, over).
Proof.
  intros top sub over.
  destruct hierarchical_policy as (H1 & H2 & H3 & H4).
  split; [|split; [|split; [|split]]].
  - assert (H : exists ev s', outputStream false 4 top = (Yield ev, s')
                              /\ offset ev = Some 0).
    { eexists; eexists. vm_compute. split; reflexivity. }
    destruct H as (ev & s' & H & Ho). exists ev, s'. split; [exact H|].
    exact (H1 4 top s' ev H Ho).
  - apply H2; [reflexivity|left; reflexivity].
  - apply H2; [reflexivity|right; reflexivity].
  - eexists. apply (H3 2 sub _ (mkEvent (Title "t") (Some 1)) 0).
    + vm_compute. reflexivity.
    + reflexivity.
  - apply (H4 3 over over None []). vm_compute. reflexivity.
Defined.

(** [C5, as stated, fails] In a run without flattening, what [start]
    reports after the merged sequence has ended is a plan and a comment:
    it reports no [time] event of its own, and no [time] event is
    reported at all outside the sub tests. *)
Lemma hierarchical_policy_counterexample :
  let r := start 30 (load 0 [Bsd "parent" nested 5]) in
  snd r = Completed
  /\ List.map digest (skipn (List.length (fst r) - 2) (fst r))
     = [("plan", None, None); ("comment", None, None)]
  /\ existsb (fun e => (type e =? "time") && negb (offset_positive e)) (fst r) = false.
Proof. vm_compute. repeat split. Qed.

(** ** Renumbering *)

Lemma filter_keeps_counters (V R : Type) (predicate : V -> bool)
      (it : iterator state V R) :
  keeps_counters it -> keeps_counters (filter predicate it).
Proof.
  intros Hit fuel.
  induction fuel as [|fuel IH]; intros s r s' H; simpl in H.
  - inversion H; reflexivity.
  - destruct (it fuel s) as [r0 s0] eqn:E. apply Hit in E.
    destruct r0 as [v| | |]; try (inversion H; subst; exact E).
    destruct (negb (predicate v)).
    + apply IH in H. congruence.
    + inversion H; subst; exact E.
Qed.

Lemma map_pure_keeps_counters (V W R : Type) (f : V -> W) (it : iterator state V R) :
  keeps_counters it -> keeps_counters (map (pure f) it).
Proof.
  intros Hit [|fuel] s r s' H; simpl in H.
  - inversion H; reflexivity.
  - destruct (it fuel s) as [r0 s0] eqn:E. apply Hit in E.
    destruct r0 as [v| | |]; inversion H; subst; exact E.
Qed.

Lemma merged_keeps_counters : keeps_counters merged.
Proof. intros fuel s r s' H. exact (combine_frame _ _ _ H). Qed.

Lemma renumber_pull (inner : iterator state event Result.t) (fuel : nat)
      (s s' : state) (r : step event Result.t) :
  keeps_counters inner ->
  map renumber inner fuel s = (r, s') ->
  match r with
  | Yield ev =>
      if numbered ev
      then data_id ev = Some (S (count (snd s)))
           /\ count (snd s') = S (count (snd s))
           /\ success (snd s') = success (snd s) + (if data_pass ev then 1 else 0)
           /\ failure (snd s') = failure (snd s) + (if data_pass ev then 0 else 1)
      else snd s' = snd s
  | _ => snd s' = snd s
  end.
Proof.
  intros Hin H. destruct fuel as [|fuel]; simpl in H.
  - inversion H; subst; reflexivity.
  - destruct (inner fuel s) as [r0 s0] eqn:E. apply Hin in E.
    destruct r0 as [v| | |]; try (inversion H; subst; exact E).
    destruct (renumber v s0) as [ev s1] eqn:Hr. inversion H; subst.
    unfold renumber in Hr. unfold numbered.
    destruct (offset_positive v) eqn:Hp; simpl in Hr.
    + inversion Hr; subst. rewrite Hp. exact E.
    + destruct (type v =? "assert") eqn:Ta; simpl in Hr.
      * destruct s0 as [c k]. inversion Hr; subst. simpl in E. subst k.
        unfold type in Ta.
        destruct (data v) eqn:D; try discriminate Ta.
        unfold offset_positive, with_data_id, type, data_id, data_pass in *.
        rewrite D. simpl. rewrite Hp. simpl. auto.
      * destruct (type v =? "testAssert") eqn:Tt; simpl in Hr.
        -- destruct s0 as [c k]. inversion Hr; subst. simpl in E. subst k.
           unfold type in Tt.
           destruct (data v) eqn:D; try discriminate Tt.
           unfold offset_positive, with_data_id, type, data_id, data_pass in *.
           rewrite D. simpl. rewrite Hp. simpl. auto.
        -- inversion Hr; subst. rewrite Hp, Ta, Tt. exact E.
Qed.

(** One pull on the output stream: an event that is numbered carries the
    count that follows, and the counters take it in; anything else
    leaves the counters as they were. *)
Lemma outputStream_pull (flatten : bool) (fuel : nat) (s s' : state)
      (r : step event Result.t) :
  outputStream flatten fuel s = (r, s') ->
  match r with
  | Yield ev =>
      if numbered ev
      then data_id ev = Some (S (count (snd s)))
           /\ count (snd s') = S (count (snd s))
           /\ success (snd s') = success (snd s) + (if data_pass ev then 1 else 0)
           /\ failure (snd s') = failure (snd s) + (if data_pass ev then 0 else 1)
      else snd s' = snd s
  | _ => snd s' = snd s
  end.
Proof.
  unfold outputStream. apply renumber_pull.
  apply filter_keeps_counters. destruct flatten.
  - apply map_pure_keeps_counters, filter_keeps_counters, merged_keeps_counters.
  - apply merged_keeps_counters.
Qed.

Lemma drain_numbering (flatten : bool) (fuel : nat) :
  forall (s s' : state) (l : list event) (e : step event Result.t),
    drain (outputStream flatten) fuel s = (l, e, s') ->
    List.map data_id (List.filter numbered l)
    = List.map Some (seq (S (count (snd s))) (List.length (List.filter numbered l)))
    /\ count (snd s') = count (snd s) + List.length (List.filter numbered l)
    /\ success (snd s')
       = success (snd s)
         + List.length (List.filter data_pass (List.filter numbered l))
    /\ failure (snd s')
       = failure (snd s)
         + List.length (List.filter (fun ev => negb (data_pass ev))
                                    (List.filter numbered l)).
Proof.
  induction fuel as [|fuel IH]; intros s s' l e H; simpl in H.
  - inversion H; subst. simpl. repeat split; lia.
  - destruct (outputStream flatten fuel s) as [r s1] eqn:E.
    pose proof (outputStream_pull _ _ _ E) as P.
    destruct r as [ev| | |];
      try (inversion H; subst; simpl; rewrite P; repeat split; lia).
    destruct (drain (outputStream flatten) fuel s1) as [[l0 e0] s2] eqn:D.
    inversion H; subst. apply IH in D. destruct D as (D1 & D2 & D3 & D4).
    simpl. destruct (numbered ev) eqn:N.
    + destruct P as (P1 & P2 & P3 & P4). simpl.
      rewrite P1, D1, P2. split; [reflexivity|].
      rewrite D2, D3, D4, P2, P3, P4.
      destruct (data_pass ev); simpl; repeat split; lia.
    + rewrite P in *. auto.
Qed.

(** [C7] An [assert] or [testAssert] event at offset 0 that goes through
    the last [map] of [start] receives the count that follows as its id,
    and its [pass] goes to the [success] or the [failure] counter; an
    event at a positive offset comes out as it went in, with the id its
    unit gave it, and the counters are not touched.  Over a whole run of
    the output stream the numbered events (assertions and sub test
    assertions whose offset is not positive) carry, in the order they
    are forwarded, the ids that follow the initial count one by one, and
    the three counters end with the initial values plus the number of
    numbered events, of passing ones and of failing ones. *)
Theorem renumbering :
  (forall (ev : event) (s : state),
      offset ev = Some 0 ->
      type ev = "assert" \/ type ev = "testAssert" ->
      data_id (fst (renumber ev s)) = Some (S (count (snd s)))
      /\ type (fst (renumber ev s)) = type ev
      /\ offset (fst (renumber ev s)) = Some 0
      /\ fst (snd (renumber ev s)) = fst s
      /\ count (snd (snd (renumber ev s))) = S (count (snd s))
      /\ success (snd (snd (renumber ev s)))
         = success (snd s) + (if data_pass ev then 1 else 0)
      /\ failure (snd (snd (renumber ev s)))
         = failure (snd s) + (if data_pass ev then 0 else 1))
  /\ (forall (ev : event) (s : state) (n : nat),
         offset ev = Some (S n) -> renumber ev s = (ev, s))
  /\ (forall (flatten : bool) (fuel : nat) (s s' : state) (l : list event)
             (e : step event Result.t),
         drain (outputStream flatten) fuel s = (l, e, s') ->
         List.map data_id (List.filter numbered l)
         = List.map Some (seq (S (count (snd s))) (List.length (List.filter numbered l)))
         /\ count (snd s') = count (snd s) + List.length (List.filter numbered l)
         /\ success (snd s')
            = success (snd s)
              + List.length (List.filter data_pass (List.filter numbered l))
         /\ failure (snd s')
            = failure (snd s)
              + List.length (List.filter (fun ev => negb (data_pass ev))
                                         (List.filter numbered l))).
Proof.
  split; [|split].
  - intros ev [c k] Ho Ht. unfold renumber, offset_positive. rewrite Ho.
    unfold type in *. unfold with_data_id, data_id, data_pass.
    destruct Ht as [Ht|Ht]; destruct (data ev) eqn:D; try discriminate Ht;
      simpl; rewrite ?D; simpl; auto 10.
  - intros ev s n Ho. unfold renumber, offset_positive. rewrite Ho. reflexivity.
  - intros flatten fuel s s' l e. apply drain_numbering.
Qed.

Lemma renumbering_witness :
  let ev := mkEvent (Assert (set_id 7 (passing "a"))) (Some 0) in
  let deep := mkEvent (Assert (set_id 7 (passing "a"))) (Some 2) in
  let s : state := (combine [], mkCounters 4 3 1) in
  let run := drain (outputStream false) 30
                   (combine (tests (load 0 [Bsd "parent" nested 5])), mkCounters 0 0 0) in
  (data_id (fst (renumber ev s)) = Some 5
   /\ count (snd (snd (renumber ev s))) = 5
   /\ success (snd (snd (renumber ev s))) = 4
   /\ failure (snd (snd (renumber ev s))) = 1)
  /\ renumber deep s = (deep, s)
  /\ List.map data_id (List.filter numbered (fst (fst run))) = [Some 1]
  /\ count (snd (snd run)) = 1.
Proof.
  intros ev deep s run.
  destruct renumbering as (H1 & H2 & H3).
  split; [|split].
  - destruct (H1 ev s eq_refl (or_introl eq_refl)) as (A & _ & _ & _ & B & C & D).
    repeat split; assumption.
  - exact (H2 deep s 1 eq_refl).
  - destruct (drain (outputStream false) 30
                    (combine (tests (load 0 [Bsd "parent" nested 5])),
                     mkCounters 0 0 0)) as [[l e] s'] eqn:E.
    destruct (H3 _ _ _ _ _ _ E) as (A & B & _).
    assert (L : List.length (List.filter numbered l) = 1).
    { revert E. vm_compute. intro E. inversion E. reflexivity. }
    subst run. cbn [fst snd]. rewrite A, B, L. split; reflexivity.
Defined.

(** ** The end of a sequence through the combinators *)

(** [C10] When the underlying sequence ends with a summary as its
    terminal value, the sequences made by [filter], [map] and [combine]
    signal their end with no value; they never end with a value, and so
    neither the merged stream nor the output stream of [start] does. *)
Theorem combinators_discard_summary :
  (forall (St V W R F : Type) (it : iterator St V R) (predicate : V -> bool)
          (mapFn : V -> St -> W * St) (frame : F) (fuel : nat) (s s' : St)
          (summary : R),
      it (S fuel) s = (Done (Some summary), s') ->
      filter predicate it (S (S fuel)) s = (Done None, s')
      /\ map mapFn it (S (S fuel)) s = (Done None, s')
      /\ combine_next it (S (S fuel)) (combine [s], frame)
         = (Done None, (combine [], frame)))
  /\ (forall (St V W R F : Type) (it : iterator St V R) (predicate : V -> bool)
             (mapFn : V -> St -> W * St) (fuel : nat),
         (forall s r s', filter predicate it fuel s = (Done r, s') -> r = None)
         /\ (forall s r s', map mapFn it fuel s = (Done r, s') -> r = None)
         /\ (forall (s : combined St * F) r s',
                combine_next it fuel s = (Done r, s') -> r = None))
  /\ (forall (flatten : bool) (fuel : nat) (s s' : state) (r : option Result.t),
         (merged fuel s = (Done r, s') -> r = None)
         /\ (outputStream flatten fuel s = (Done r, s') -> r = None)).
Proof.
  split; [|split].
  - intros St V W R F it predicate mapFn frame fuel s s' summary H.
    split; [|split].
    + eapply filter_end; eassumption.
    + eapply map_end; eassumption.
    + cbn [combine_next combine hd_error tl current pending]. rewrite H.
      reflexivity.
  - intros St V W R F it predicate mapFn fuel. split; [|split].
    + intros s r s'. apply filter_done.
    + intros s r s'. apply map_done.
    + intros s r s'. apply combine_done.
  - intros flatten fuel s s' r. split.
    + apply combine_done.
    + apply map_done.
Qed.

Lemma combinators_discard_summary_witness :
  let u := after_pulls 3 9 (tester 0 "t" Return 1) in
  next 1 u = (Done (Some (result u)), u)
  /\ filter keep next 2 u = (Done None, u)
  /\ map (pure resetOffset) next 2 u = (Done None, u)
  /\ merged 2 (combine [u], mkCounters 0 0 0)
     = (Done None, (combine [], mkCounters 0 0 0))
  /\ forall r s', outputStream true 6 (combine [u], mkCounters 0 0 0) = (Done r, s')
                  -> r = None.
Proof.
  intro u.
  destruct combinators_discard_summary as (H1 & _ & H3).
  assert (E : next 1 u = (Done (Some (result u)), u)) by (vm_compute; reflexivity).
  destruct (H1 instance event event Result.t counters next keep (pure resetOffset)
               (mkCounters 0 0 0) 0 u u (result u) E) as (A & B & C).
  split; [exact E|]. split; [exact A|]. split; [exact B|]. split; [exact C|].
  intros r s'. apply (H3 true 6).
Defined.

(** ** [throws] and [doesNotThrow] *)

(** [C9, as amended] [throws] gives [pass = true] exactly when the
    function raises and the raised value is accepted by the matcher: a
    regular expression must match the text of the raised value or of its
    message, a function must be a constructor the raised value is an
    instance of, and a matcher of any other kind accepts every raised
    value (it is not compared with it).  The matcher is the second
    argument, or the third when the second is a string.  The case of a
    regular expression with a function that does not raise is left out.
    [doesNotThrow] always answers, with [pass = true] exactly when the
    function does not raise. *)
Theorem throws_pass :
  (forall (func : completion value) (expected description : value) (a : assertion),
      Assertion.throws func expected description = Returns a ->
      (is_regexp (matcher expected description) = true -> exists err, func = Raises err) ->
      (pass a = true <->
       exists err, func = Raises err
                   /\ satisfies (matcher expected description) err = true))
  /\ (forall (func : completion value) (expected description : value),
         exists a, Assertion.doesNotThrow func expected description = Returns a
                   /\ (pass a = true <-> exists v, func = Returns v)).
Proof.
  split.
  - intros func expected description a H Hre.
    unfold Assertion.throws in H. unfold matcher in *.
    destruct (is_string expected);
      [set (m := description) in *|set (m := expected) in *]; clearbody m.
    all: destruct func as [v|err]; cbn iota beta in H.
    all: destruct m; cbn in H; cbn in Hre.
    all: try solve [destruct Hre as [e He]; [reflexivity|discriminate He]].
    all: try solve [inversion H; subst; cbn; split;
                    [intro P; try discriminate P; eauto
                    |intros (e & He & Hs); try discriminate He;
                     inversion He; subst; auto]].
    all: destruct (constructor_of err); inversion H; subst; cbn; split;
      [intro P; eauto|intros (e & He & Hs); inversion He; subst; auto].
  - intros func expected description. unfold Assertion.doesNotThrow.
    destruct (is_string expected); destruct func as [v|err]; cbn;
      eexists; (split; [reflexivity|]); cbn; split; intro P;
      first [discriminate P | reflexivity | solve [eauto]
            | destruct P as [? P]; discriminate P].
Qed.

Lemma throws_pass_witness :
  (exists a, Assertion.throws (Raises boom) (VFunction "Error") VUndefined = Returns a
             /\ pass a = true)
  /\ (exists a, Assertion.doesNotThrow (Returns VUndefined) VUndefined VUndefined
                = Returns a
                /\ pass a = true).
Proof.
  destruct throws_pass as [H1 H2]. split.
  - assert (E : exists a, Assertion.throws (Raises boom) (VFunction "Error") VUndefined
                          = Returns a) by (eexists; reflexivity).
    destruct E as [a E]. exists a. split; [exact E|].
    apply (H1 _ _ _ _ E).
    + intro N. discriminate N.
    + exists boom. split; reflexivity.
  - destruct (H2 (Returns VUndefined) VUndefined VUndefined) as (a & E & P).
    exists a. split; [exact E|]. apply P. eauto.
Defined.

(** [C9, as stated, fails] A function that raises 1 passes [throws]
    with 2 given as the value to expect: the raised value is not compared
    with it.  A function that does not raise passes [throws] with a
    regular expression that matches the text 'undefined'. *)
Lemma throws_counterexample :
  (exists a, Assertion.throws (Raises (VNumber 1)) (VNumber 2) VUndefined = Returns a
             /\ pass a = true
             /\ actual a = VNumber 1 /\ expected a = VNumber 2)
  /\ (exists a, Assertion.throws (Returns VUndefined) has_e VUndefined = Returns a
                /\ pass a = true).
Proof.
  split; eexists; repeat split.
Qed.

(** ** Concatenation *)

Section Concatenation.

Variables I F V R : Type.
Variable inext : nat -> I -> step V R * I.
Hypothesis inext_monotone : monotone inext.

Lemma drain_unfold (St : Type) (it : iterator St V R) (fuel : nat) (s : St) :
  drain it (S fuel) s =
  match it fuel s with
  | (Yield v, s) => let '(l, e, s) := drain it fuel s in (v :: l, e, s)
  | (r, s) => ([], r, s)
  end.
Proof. reflexivity. Qed.

Lemma combine_next_unfold (fuel : nat) (c : combined I) (frame : F) :
  combine_next inext (S fuel) (c, frame) =
  match current c with
  | None => (Done None, (c, frame))
  | Some cur =>
      match inext fuel cur with
      | (Done _, _) =>
          combine_next inext fuel
                       (mkCombined (hd_error (pending c)) (tl (pending c)), frame)
      | (Yield value, cur) => (Yield value, (mkCombined (Some cur) (pending c), frame))
      | (Failed error, cur) => (Failed error, (mkCombined (Some cur) (pending c), frame))
      | (Blocked, cur) => (Blocked, (mkCombined (Some cur) (pending c), frame))
      end
  end.
Proof. reflexivity. Qed.

(** With [cur] as the current iterator, the combined sequence gives what
    is left of [cur] and then what the pending iterators give. *)
Lemma combine_drain_current (fuel1 : nat) :
  forall (cur cur' : I) (l : list V) (r : option R),
    drain inext fuel1 cur = (l, Done r, cur') ->
    forall (fuel2 : nat) (rest : list I) (frame : F) (l2 : list V)
           (e : step V R) (s2 : combined I * F),
      drain (combine_next inext) fuel2 (combine rest, frame) = (l2, e, s2) ->
      e <> Blocked ->
      drain (combine_next inext) (S (fuel1 + fuel2)) (mkCombined (Some cur) rest, frame)
      = ((l ++ l2)%list, e, s2).
Proof.
  induction fuel1 as [|fuel1 IH]; intros cur cur' l r H fuel2 rest frame l2 e s2 H2 He.
  - simpl in H. discriminate H.
  - cbn [drain] in H.
    destruct (inext fuel1 cur) as [r0 cur1] eqn:E.
    destruct r0 as [v|r0| |]; try discriminate H.
    + destruct (drain inext fuel1 cur1) as [[l0 e0] cur2] eqn:D.
      inversion H; subst.
      change (S (S fuel1 + fuel2)) with (S (S (fuel1 + fuel2))).
      rewrite drain_unfold, combine_next_unfold. cbn [current pending].
      rewrite (@inext_monotone _ _ _ _ E ltac:(discriminate) (fuel1 + fuel2))
        by lia.
      rewrite (IH _ _ _ _ D _ _ _ _ _ _ H2 He). reflexivity.
    + inversion H; subst. clear H.
      destruct fuel2 as [|fuel2]; [simpl in H2; inversion H2; subst; congruence|].
      cbn [drain] in H2.
      destruct (combine_next inext fuel2 (combine rest, frame)) as [r1 s1] eqn:C.
      assert (N1 : r1 <> Blocked).
      { intro; subst. inversion H2; subst. congruence. }
      rewrite drain_unfold.
      assert (C' : combine_next inext (S fuel1 + S fuel2)
                                (mkCombined (Some cur) rest, frame) = (r1, s1)).
      { replace (S fuel1 + S fuel2) with (S (S (fuel1 + fuel2))) by lia.
        rewrite combine_next_unfold. cbn [current pending].
        rewrite (@inext_monotone _ _ _ _ E ltac:(discriminate) (S (fuel1 + fuel2)))
          by lia.
        eapply combine_monotone; [exact inext_monotone|exact C|exact N1|lia]. }
      rewrite C'.
      destruct r1 as [v1| | |]; try exact H2.
      destruct (drain (combine_next inext) fuel2 s1) as [[l3 e3] s3] eqn:D3.
      inversion H2; subst.
      assert (D3' : drain (combine_next inext) (S fuel1 + S fuel2) s1 = (l3, e, s2)).
      { eapply drain_monotone;
          [apply combine_monotone, inext_monotone|exact D3|exact He|lia]. }
      rewrite D3'. reflexivity.
Qed.

End Concatenation.

(** For iterators that each give their items and then end, the
    sequence made by [combine] gives the items of the first, then the
    items of the second, and so on, and then ends. *)
Lemma combine_order
        (I F V R : Type) (inext : nat -> I -> step V R * I)
        (iterators : list I) (items : list (list V)) (frame : F) :
  monotone inext ->
  Forall2 (fun i l => exists fuel r i', drain inext fuel i = (l, Done r, i'))
          iterators items ->
  exists fuel,
    forall fuel', fuel <= fuel' ->
      drain (combine_next inext) fuel' (combine iterators, frame)
      = (List.concat items, Done None, (combine [], frame)).
Proof.
  intros Hmono Hall.
  assert (H : exists fuel,
             drain (combine_next inext) fuel (combine iterators, frame)
             = (List.concat items, Done None, (combine [], frame))).
  { induction Hall as [|i l iterators items (fuel1 & r & i' & Hi) _ (fuel2 & IH)].
    - exists 2. reflexivity.
    - exists (S (fuel1 + fuel2)). simpl List.concat.
      change (combine (i :: iterators)) with (mkCombined (Some i) iterators).
      eapply combine_drain_current; [exact Hmono|exact Hi|exact IH|discriminate]. }
  destruct H as [fuel H]. exists fuel. intros fuel' Hle.
  eapply drain_monotone; [apply combine_monotone, Hmono|exact H|discriminate|exact Hle].
Qed.

(** The same for the merged stream of [start]: the events of the units
    of [tests], unit after unit in the order of [tests]. *)
Lemma merged_in_declared_order (units : list instance) (items : list (list event))
      (k : counters) :
  Forall2 (fun u l => exists fuel r u', drain next fuel u = (l, Done r, u')) units items ->
  exists fuel,
    forall fuel', fuel <= fuel' ->
      drain merged fuel' (combine units, k) = (List.concat items, Done None, (combine [], k)).
Proof. apply combine_order, next_monotone. Qed.


(** ** The aggregate result of a unit *)

Arguments items_owed : simpl never.
Arguments items_work : simpl never.
Arguments items_healthy : simpl never.
Arguments owed : simpl never.
Arguments work : simpl never.
Arguments healthy : simpl never.

Lemma owed_eq (u : instance) :
  owed u = Result.pass (result u) && items_owed (buffer u)
           && match coRoutine u with
              | Pending rest => all_pass rest
              | Resolved _ => true
              end.
Proof. destruct u; reflexivity. Qed.

Lemma work_eq (u : instance) :
  work u = items_work (buffer u)
           + match coRoutine u with
             | Pending rest => body_work rest + 3
             | Resolved _ => 0
             end.
Proof. destruct u; reflexivity. Qed.

Lemma healthy_eq (u : instance) :
  healthy u = match coRoutine u with
              | Pending rest => negb (done u) && returns rest
              | Resolved with_result => with_result && done u
              end
              && items_healthy (buffer u).
Proof. destruct u; reflexivity. Qed.

Lemma items_owed_app (b1 b2 : list (item instance)) :
  items_owed (b1 ++ b2) = items_owed b1 && items_owed b2.
Proof. apply forallb_app. Qed.

Lemma items_healthy_app (b1 b2 : list (item instance)) :
  items_healthy (b1 ++ b2) = items_healthy b1 && items_healthy b2.
Proof. apply forallb_app. Qed.

Lemma items_work_app (b1 b2 : list (item instance)) :
  items_work (b1 ++ b2) = items_work b1 + items_work b2.
Proof. unfold items_work. rewrite map_app, list_sum_app. reflexivity. Qed.

Lemma with_id_facts (n : nat) (u : instance) :
  owed (with_id n u) = owed u
  /\ work (with_id n u) = work u
  /\ healthy (with_id n u) = healthy u.
Proof. rewrite !owed_eq, !work_eq, !healthy_eq. auto. Qed.

(** What the collector does to the three measures. *)
Lemma collector_assertion_facts (a : assertion) (u : instance) :
  Result.pass (result (collector (inl a) u)) = Result.pass (result u) && pass a
  /\ items_owed (buffer (collector (inl a) u)) = items_owed (buffer u)
  /\ items_work (buffer (collector (inl a) u)) = items_work (buffer u) + 1
  /\ items_healthy (buffer (collector (inl a) u)) = items_healthy (buffer u).
Proof.
  unfold collector, createAssertion, push. cbn.
  rewrite items_owed_app, items_work_app, items_healthy_app.
  unfold items_owed, items_work, items_healthy. cbn.
  rewrite !andb_true_r. auto.
Qed.

Lemma collector_subtest_facts (c : instance) (u : instance) :
  Result.pass (result (collector (inr c) u)) = Result.pass (result u)
  /\ items_owed (buffer (collector (inr c) u)) = items_owed (buffer u) && owed c
  /\ items_work (buffer (collector (inr c) u)) = items_work (buffer u) + (work c + 2)
  /\ items_healthy (buffer (collector (inr c) u)) = items_healthy (buffer u) && healthy c.
Proof.
  destruct (with_id_facts (S (Result.count (result u))) c) as (E1 & E2 & E3).
  unfold collector, push. cbn.
  rewrite items_owed_app, items_work_app, items_healthy_app.
  unfold items_owed at 2, items_work at 2, items_healthy at 2. cbn.
  rewrite E1, E2, E3, !andb_true_r. repeat split; lia.
Qed.

Lemma on_fulfilled_facts (u : instance) :
  Result.pass (result (on_fulfilled u)) = Result.pass (result u)
  /\ items_owed (buffer (on_fulfilled u)) = items_owed (buffer u)
  /\ items_work (buffer (on_fulfilled u)) = items_work (buffer u) + 2
  /\ items_healthy (buffer (on_fulfilled u)) = items_healthy (buffer u)
  /\ done (on_fulfilled u) = true
  /\ coRoutine (on_fulfilled u) = Resolved true.
Proof.
  unfold on_fulfilled, push. cbn.
  rewrite !items_owed_app, !items_work_app, !items_healthy_app.
  unfold items_owed at 2 3, items_work at 2 3, items_healthy at 2 3. cbn.
  rewrite !andb_true_r. repeat split; lia.
Qed.

Lemma fresh_facts (offset : nat) (d : string) (spec : body) (el : nat) :
  Result.pass (result (fresh offset d spec el)) = true
  /\ items_owed (buffer (fresh offset d spec el)) = true
  /\ items_work (buffer (fresh offset d spec el)) = 1
  /\ items_healthy (buffer (fresh offset d spec el)) = true
  /\ done (fresh offset d spec el) = false.
Proof. repeat split. Qed.

(** Running a body that does not raise: what is left does not raise
    either, the conjunction the unit is heading for is kept, the pulls
    still needed do not grow, and the sub tests it registers are
    healthy. *)
Lemma run_facts (b : body) :
  forall (flush : bool) (u u' : instance) (left : body),
    returns b = true ->
    run flush b u = (u', left) ->
    returns left = true
    /\ (flush = true -> left = Return)
    /\ Result.pass (result u') && items_owed (buffer u') && all_pass left
       = Result.pass (result u) && items_owed (buffer u) && all_pass b
    /\ items_work (buffer u') + body_work left <= items_work (buffer u) + body_work b
    /\ (items_healthy (buffer u) = true -> items_healthy (buffer u') = true).
Proof.
  induction b as [|err rest _|a rest IH|d sub IHsub el awaited rest IH|rest IH];
    intros flush u u' left Hret H; cbn [run] in H; cbn [returns] in Hret.
  - inversion H; subst. auto.
  - discriminate Hret.
  - destruct (IH _ _ _ _ Hret H) as (R1 & R2 & R3 & R4 & R5).
    destruct (collector_assertion_facts a u) as (C1 & C2 & C3 & C4).
    rewrite C1, C2 in R3. rewrite C3 in R4. rewrite C4 in R5.
    split; [exact R1|]. split; [exact R2|]. split; [|split; [|exact R5]].
    + rewrite R3. cbn [all_pass].
      btauto.
    + cbn [body_work]. lia.
  - apply andb_true_iff in Hret. destruct Hret as [Hsub Hrest].
    destruct (run (flush && awaited) sub (fresh (S (unit_offset u)) d sub el))
      as [c left0] eqn:Hc.
    destruct (IHsub _ _ _ _ Hsub Hc) as (S1 & S2 & S3 & S4 & S5).
    destruct (run_shape _ _ _ Hc) as (_ & Sd & _).
    destruct (fresh_facts (S (unit_offset u)) d sub el) as (F1 & F2 & F3 & F4 & F5).
    rewrite F1, F2 in S3. cbn [andb] in S3.
    rewrite F3 in S4. specialize (S5 F4). rewrite F5 in Sd.
    remember (if flush && awaited then settle left0 c
              else with_coRoutine (Pending left0) c) as c' eqn:Ec'.
    assert (Hc' : owed c' = all_pass sub /\ work c' <= body_work sub + 4
                  /\ healthy c' = true).
    { rewrite Ec'. clear Ec' H. destruct (flush && awaited) eqn:W.
      - rewrite (S2 eq_refl) in *. cbn [settle].
        destruct (on_fulfilled_facts c) as (O1 & O2 & O3 & O4 & O5 & O6).
        rewrite owed_eq, work_eq, healthy_eq, O1, O2, O3, O4, O5, O6, S5.
        cbn [all_pass body_work] in S3, S4.
        split; [|split; [lia|reflexivity]].
        rewrite <- S3. rewrite !andb_true_r. reflexivity.
      - rewrite owed_eq, work_eq, healthy_eq. cbn.
        rewrite Sd, S1, S5. split; [exact S3|]. split; [lia|reflexivity]. }
    destruct Hc' as (K1 & K2 & K3). clear Ec'.
    destruct (collector_subtest_facts c' u) as (C1 & C2 & C3 & C4).
    rewrite K1 in C2. rewrite K3 in C4.
    destruct (awaited && negb flush) eqn:Stop.
    + assert (Hu : u' = collector (inr c') u) by congruence.
      assert (Hl : left = rest) by congruence.
      clear H. subst u' left. rewrite C1, C2, C3, C4.
      split; [exact Hrest|]. split.
      * intro Hf. subst flush. rewrite andb_false_r in Stop. discriminate Stop.
      * split; [|split].
        -- cbn [all_pass].
           btauto.
        -- cbn [body_work]. lia.
        -- intro Hh. rewrite Hh. reflexivity.
    + destruct (IH _ _ _ _ Hrest H) as (R1 & R2 & R3 & R4 & R5).
      rewrite C1, C2 in R3. rewrite C3 in R4. rewrite C4 in R5.
      split; [exact R1|]. split; [exact R2|]. split; [|split].
      * rewrite R3. cbn [all_pass].
        btauto.
      * cbn [body_work]. lia.
      * intro Hh. apply R5. rewrite Hh. reflexivity.
  - destruct flush.
    + destruct (IH _ _ _ _ Hret H) as (R1 & R2 & R3 & R4 & R5). auto.
    + inversion H; subst. cbn [all_pass body_work].
      split; [exact Hret|]. split; [discriminate|]. auto.
Qed.

(** Waiting for the promise of a healthy unfinished unit finishes it:
    the conjunction it is heading for is kept and fewer pulls are
    needed. *)
Lemma await_facts (u : instance) :
  healthy u = true ->
  done u = false ->
  healthy (await_coRoutine u) = true
  /\ owed (await_coRoutine u) = owed u
  /\ work (await_coRoutine u) < work u.
Proof.
  intros Hh Hd. rewrite healthy_eq in Hh. rewrite (owed_eq u), (work_eq u).
  unfold await_coRoutine.
  destruct (coRoutine u) as [rest|b] eqn:Hc.
  - rewrite Hd in Hh. cbn [negb andb] in Hh.
    apply andb_true_iff in Hh. destruct Hh as [Hret Hit].
    destruct (run true rest u) as [u1 left] eqn:Hrun.
    destruct (run_facts _ _ _ Hret Hrun) as (R1 & R2 & R3 & R4 & R5).
    rewrite (R2 eq_refl) in *. cbn [settle all_pass body_work] in *.
    destruct (on_fulfilled_facts u1) as (O1 & O2 & O3 & O4 & O5 & O6).
    rewrite (healthy_eq (on_fulfilled u1)), (owed_eq (on_fulfilled u1)),
      (work_eq (on_fulfilled u1)), O1, O2, O3, O4, O5, O6.
    rewrite (R5 Hit). split; [reflexivity|]. split; [|lia].
    rewrite <- R3. btauto.
  - rewrite Hd, andb_false_r in Hh. discriminate Hh.
Qed.

Lemma items_cons_event (e : event) (b : list (item instance)) :
  items_owed (IEvent e :: b) = items_owed b
  /\ items_work (IEvent e :: b) = S (items_work b)
  /\ items_healthy (IEvent e :: b) = items_healthy b.
Proof. repeat split. Qed.

Lemma items_cons_sub (c : instance) (b : list (item instance)) :
  items_owed (ISubTest c :: b) = owed c && items_owed b
  /\ items_work (ISubTest c :: b) = work c + 2 + items_work b
  /\ items_healthy (ISubTest c :: b) = healthy c && items_healthy b.
Proof. repeat split. Qed.

(** One pull on a healthy unit, with a bound above the pulls it still
    needs: either an event comes out and the unit is healthy still, heads
    for the same conjunction and needs fewer pulls, or the unit is over
    and its result has the conjunction it was heading for. *)
Lemma next_facts (fuel : nat) :
  forall u : instance,
    healthy u = true ->
    work u < fuel ->
    (exists e u', next fuel u = (Yield e, u')
                  /\ healthy u' = true /\ owed u' = owed u /\ work u' < work u)
    \/ (exists u', next fuel u = (Done (Some (result u')), u')
                   /\ Result.pass (result u') = owed u).
Proof.
  induction fuel as [|fuel IH]; intros u Hh Hw; [lia|].
  rewrite next_unfold.
  pose proof Hh as Hh'. rewrite healthy_eq in Hh'.
  pose proof (owed_eq u) as Ho. pose proof (work_eq u) as Hk.
  destruct (buffer u) as [|[e|delegate] rest] eqn:Hb.
  - destruct (done u) eqn:Hd.
    + right. exists u. split; [reflexivity|]. rewrite Ho.
      destruct (coRoutine u) as [left|b].
      * cbn in Hh'. discriminate Hh'.
      * unfold items_owed. cbn. rewrite !andb_true_r. reflexivity.
    + destruct (await_facts u Hh Hd) as (A1 & A2 & A3).
      destruct (IH (await_coRoutine u) A1 ltac:(lia))
        as [(e & u' & N & N1 & N2 & N3)|(u' & N & N1)].
      * left. exists e, u'. rewrite N.
        split; [reflexivity|]. split; [exact N1|]. split; [congruence|lia].
      * right. exists u'. split; [exact N|congruence].
  - destruct (items_cons_event e rest) as (E1 & E2 & E3).
    rewrite E1 in Ho. rewrite E2 in Hk. rewrite E3 in Hh'.
    left. exists e, (with_buffer rest u).
    split; [reflexivity|].
    rewrite healthy_eq, owed_eq, work_eq. cbn [with_buffer coRoutine done buffer result].
    split; [exact Hh'|]. split; [symmetry; exact Ho|lia].
  - destruct (items_cons_sub delegate rest) as (E1 & E2 & E3).
    rewrite E1 in Ho. rewrite E2 in Hk. rewrite E3 in Hh'.
    apply andb_true_iff in Hh'. destruct Hh' as [Hco Hh'].
    apply andb_true_iff in Hh'. destruct Hh' as [Hhd Hhr].
    destruct (IH delegate Hhd ltac:(lia))
      as [(e & d' & N & N1 & N2 & N3)|(d' & N & N1)]; rewrite N.
    + left. exists e, (with_buffer (ISubTest d' :: rest) u).
      split; [reflexivity|].
      destruct (items_cons_sub d' rest) as (D1 & D2 & D3).
      rewrite healthy_eq, owed_eq, work_eq.
      cbn [with_buffer coRoutine done buffer result].
      rewrite D1, D2, D3, N1, N2, Hco, Hhr, Ho, Hk.
      split; [reflexivity|]. split; [reflexivity|lia].
    + unfold subTestAssertion, createAssertion.
      cbn [with_result with_buffer coRoutine done buffer result data offset
           unit_offset elapsed unit_id tl].
      rewrite Hb. cbn [tl].
      destruct fuel as [|fuel]; [lia|].
      rewrite next_unfold. cbn [with_result with_buffer coRoutine done buffer result].
      left. eexists; eexists. split; [reflexivity|].
      rewrite healthy_eq, owed_eq, work_eq.
      cbn [with_result with_buffer coRoutine done buffer result Result.pass].
      rewrite Ho, Hk, N1, Hco, Hhr. cbn [pass].
      split; [reflexivity|]. split; [btauto|lia].
Qed.

(** Pulling a healthy unit to its end, with a bound above the pulls it
    needs: the sequence ends with the result of the unit, whose [pass] is
    the conjunction the unit was heading for. *)
Lemma drain_facts (fuel : nat) :
  forall u : instance,
    healthy u = true ->
    work u + 1 < fuel ->
    exists l u', drain next fuel u = (l, Done (Some (result u')), u')
                 /\ Result.pass (result u') = owed u.
Proof.
  induction fuel as [|fuel IH]; intros u Hh Hw; [lia|].
  cbn [drain].
  destruct (next_facts (fuel := fuel) u Hh ltac:(lia))
    as [(e & u' & N & N1 & N2 & N3)|(u' & N & N1)]; rewrite N.
  - destruct (IH u' N1 ltac:(lia)) as (l & u'' & D & D1).
    rewrite D. exists (e :: l), u''. split; [reflexivity|congruence].
  - exists [], u'. split; [reflexivity|exact N1].
Qed.

Lemma tester_facts (offset : nat) (d : string) (spec : body) (el : nat) :
  returns spec = true ->
  healthy (tester offset d spec el) = true
  /\ owed (tester offset d spec el) = all_pass spec
  /\ work (tester offset d spec el) <= body_work spec + 4.
Proof.
  intro Hret. unfold tester.
  destruct (run false spec (fresh offset d spec el)) as [u left] eqn:Hrun.
  destruct (run_facts _ _ _ Hret Hrun) as (R1 & _ & R3 & R4 & R5).
  destruct (run_shape _ _ _ Hrun) as (_ & Rd & _).
  destruct (fresh_facts offset d spec el) as (F1 & F2 & F3 & F4 & F5).
  rewrite F1, F2 in R3. cbn [andb] in R3. rewrite F3 in R4. specialize (R5 F4).
  rewrite F5 in Rd.
  rewrite healthy_eq, owed_eq, work_eq.
  cbn [with_coRoutine coRoutine done buffer result].
  rewrite Rd, R1, R5, R3. split; [reflexivity|]. split; [reflexivity|lia].
Qed.

(** The summary a unit ends with, when no body of its tree raises. *)
Lemma summary_of_tester (offset : nat) (d : string) (spec : body) (el : nat)
      (fuel : nat) :
  returns spec = true ->
  body_work spec + 6 <= fuel ->
  exists summary,
    final_summary fuel (tester offset d spec el) = Some summary
    /\ Result.pass summary = all_pass spec.
Proof.
  intros Hret Hfuel.
  destruct (tester_facts offset d spec el Hret) as (T1 & T2 & T3).
  destruct (drain_facts (fuel := fuel) _ T1 ltac:(lia)) as (l & u' & D & D1).
  exists (result u'). unfold final_summary. rewrite D.
  split; [reflexivity|congruence].
Qed.

Lemma all_pass_split (b : body) :
  all_pass b
  = forallb pass (direct_results b)
    && forallb (fun sub => all_pass (snd (fst sub))) (sub_tests b).
Proof.
  induction b as [|err rest _|a rest IH|d sub _ el awaited rest IH|rest IH];
    cbn [all_pass direct_results sub_tests forallb fst snd]; try reflexivity;
    try exact IH.
  - rewrite IH. btauto.
  - rewrite IH. btauto.
Qed.

Lemma sub_tests_facts (b : body) (sub : string * body * nat) :
  returns b = true ->
  In sub (sub_tests b) ->
  returns (snd (fst sub)) = true /\ body_work (snd (fst sub)) + 6 <= body_work b.
Proof.
  induction b as [|err rest _|a rest IH|d spec _ el awaited rest IH|rest IH];
    cbn [returns sub_tests body_work In]; intros Hret Hin.
  - contradiction.
  - contradiction.
  - destruct (IH Hret Hin). split; [assumption|lia].
  - apply andb_true_iff in Hret. destruct Hret as [Hs Hr].
    destruct Hin as [<-|Hin].
    + cbn [fst snd]. split; [exact Hs|lia].
    + destruct (IH Hr Hin). split; [assumption|lia].
  - destruct (IH Hret Hin). split; [assumption|lia].
Qed.

Lemma forallb_agree (A : Type) (f g : A -> bool) (l : list A) :
  (forall x, In x l -> f x = g x) -> forallb f l = forallb g l.
Proof.
  induction l as [|x l IH]; intro H; cbn [forallb]; [reflexivity|].
  rewrite (H x (or_introl eq_refl)), IH; [reflexivity|].
  intros y Hy. apply H. right. exact Hy.
Qed.

(** [C8] For a unit no body of which raises (the units that end with a
    summary), the sequence of the unit ends, for every bound above the
    pulls its body calls for, with a summary whose [pass] is the
    conjunction of the [pass] of every result its body hands to its
    collector and of the [pass] of the summary every sub test it
    registers ends with. *)
Theorem aggregate_pass (offset : nat) (d : string) (spec : body) (el : nat)
        (fuel : nat) :
  returns spec = true ->
  body_work spec + 6 <= fuel ->
  exists summary,
    final_summary fuel (tester offset d spec el) = Some summary
    /\ Result.pass summary
       = forallb pass (direct_results spec)
         && forallb
              (fun sub =>
                 match final_summary fuel
                         (tester (S offset) (fst (fst sub)) (snd (fst sub)) (snd sub))
                 with
                 | Some s => Result.pass s
                 | None => false
                 end)
              (sub_tests spec).
Proof.
  intros Hret Hfuel.
  destruct (@summary_of_tester offset d spec el fuel Hret Hfuel) as (summary & Hs & Hp).
  exists summary. split; [exact Hs|]. rewrite Hp, all_pass_split. f_equal.
  apply forallb_agree. intros sub Hin. symmetry.
  destruct (sub_tests_facts _ _ Hret Hin) as (Hr & Hw).
  destruct (@summary_of_tester (S offset) (fst (fst sub)) (snd (fst sub)) (snd sub)
                               fuel Hr ltac:(lia))
    as (s & Hs' & Hp').
  rewrite Hs'. exact Hp'.
Qed.

Lemma aggregate_pass_witness :
  (exists summary,
      final_summary 20 (tester 0 "parent" nested 5) = Some summary
      /\ Result.pass summary = true)
  /\ (exists summary,
         final_summary 20 (tester 0 "parent" failing_inside 5) = Some summary
         /\ Result.pass summary = false).
Proof.
  split.
  - destruct (@aggregate_pass 0 "parent" nested 5 20 eq_refl) as (summary & Hs & Hp).
    + vm_compute. repeat constructor.
    + exists summary. split; [exact Hs|]. rewrite Hp. vm_compute. reflexivity.
  - destruct (@aggregate_pass 0 "parent" failing_inside 5 20 eq_refl)
      as (summary & Hs & Hp).
    + vm_compute. repeat constructor.
    + exists summary. split; [exact Hs|]. rewrite Hp. vm_compute. reflexivity.
Defined.

(** ** The sequence of a unit, whenever its body goes on *)

Arguments items_events : simpl never.
Arguments events : simpl never.

Lemma events_eq (u : instance) :
  events u
  = (items_events (unit_offset u) (buffer u)
     ++ match coRoutine u with
        | Pending rest =>
            body_events (unit_offset u) (Result.count (result u)) rest
            ++ [mkEvent (Plan 1 (Result.count (result u) + body_count rest))
                        (Some (unit_offset u));
                mkEvent (Time (elapsed u)) (Some (unit_offset u))]
        | Resolved _ => []
        end)%list.
Proof. destruct u; reflexivity. Qed.

Lemma items_events_app (offset : nat) (b1 b2 : list (item instance)) :
  items_events offset (b1 ++ b2)
  = (items_events offset b1 ++ items_events offset b2)%list.
Proof. unfold items_events. rewrite map_app, concat_app. reflexivity. Qed.

Lemma items_events_event (offset : nat) (e : event) (b : list (item instance)) :
  items_events offset (IEvent e :: b) = e :: items_events offset b.
Proof. reflexivity. Qed.

Lemma items_events_sub (offset : nat) (c : instance) (b : list (item instance)) :
  items_events offset (ISubTest c :: b)
  = ((events c
      ++ [mkEvent (TestAssert (summary_assertion (unit_id c) (final c))) (Some offset)])
     ++ items_events offset b)%list.
Proof. reflexivity. Qed.

Lemma items_events_single (offset : nat) (e : event) :
  items_events offset [IEvent e] = [e].
Proof. reflexivity. Qed.

Lemma items_owed_single (e : event) : items_owed [IEvent e] = true.
Proof. reflexivity. Qed.

Lemma with_id_events (n : nat) (u : instance) :
  events (with_id n u) = events u
  /\ final (with_id n u) = final u
  /\ unit_id (with_id n u) = Some n
  /\ unit_offset (with_id n u) = unit_offset u.
Proof.
  rewrite !events_eq. unfold final.
  destruct (with_id_facts n u) as (E & _). rewrite E. auto.
Qed.

Lemma result_eta (r : Result.t) :
  Result.mk (Result.count r) (Result.pass r) (Result.description r)
            (Result.executionTime r) = r.
Proof. destruct r; reflexivity. Qed.

(** Running a body that does not raise gives nothing that was not
    expected from it: what is in the buffer afterwards and what is left
    of the body amount to the same events, the same count, the same
    description. *)
Lemma run_events (b : body) :
  forall (flush : bool) (u u' : instance) (left : body),
    returns b = true ->
    run flush b u = (u', left) ->
    (items_events (unit_offset u) (buffer u')
     ++ body_events (unit_offset u) (Result.count (result u')) left
     = items_events (unit_offset u) (buffer u)
       ++ body_events (unit_offset u) (Result.count (result u)) b)%list
    /\ Result.count (result u') + body_count left
       = Result.count (result u) + body_count b
    /\ Result.description (result u') = Result.description (result u)
    /\ Result.executionTime (result u') = Result.executionTime (result u).
Proof.
  induction b as [|err rest _|a rest IH|d sub IHsub el awaited rest IH|rest IH];
    intros flush u u' left Hret H; cbn [run] in H; cbn [returns] in Hret.
  - inversion H; subst. auto.
  - discriminate Hret.
  - destruct (IH _ _ _ _ Hret H) as (R1 & R2 & R3 & R4).
    destruct (collector_shape (inl a) u) as (Eo & _).
    rewrite Eo in R1. rewrite R1, R2, R3, R4.
    unfold collector, createAssertion, push.
    cbn [with_result with_buffer buffer result unit_offset Result.count
         Result.description Result.executionTime].
    rewrite items_events_app. cbn [body_events body_count].
    rewrite <- app_assoc. split; [reflexivity|]. split; [lia|]. auto.
  - apply andb_true_iff in Hret. destruct Hret as [Hsub Hrest].
    destruct (run (flush && awaited) sub (fresh (S (unit_offset u)) d sub el))
      as [c left0] eqn:Hc.
    destruct (IHsub _ _ _ _ Hsub Hc) as (S1 & S2 & S3 & S4).
    destruct (run_facts _ _ _ Hsub Hc) as (T1 & T2 & T3 & _ & _).
    destruct (run_shape _ _ _ Hc) as (So & Sd & _ & Se & _).
    cbn [fresh unit_offset buffer result Result.count Result.description
         Result.pass done elapsed] in S1, S2, S3, So, Sd, Se, T3.
    rewrite items_events_single in S1. rewrite items_owed_single in T3.
    cbn [andb Nat.add app] in S1, S2, T3.
    remember (if flush && awaited then settle left0 c
              else with_coRoutine (Pending left0) c) as c' eqn:Ec'.
    assert (Hc' : events c'
                  = (mkEvent (Title d) (Some (S (unit_offset u)))
                       :: body_events (S (unit_offset u)) 0 sub
                       ++ [mkEvent (Plan 1 (body_count sub)) (Some (S (unit_offset u)));
                           mkEvent (Time el) (Some (S (unit_offset u)))])%list
                  /\ final c' = Result.mk (body_count sub) (all_pass sub) d (Some el)).
    { rewrite Ec'. clear Ec' H. destruct (flush && awaited) eqn:W.
      - rewrite (T2 eq_refl) in *. cbn [settle body_events body_count all_pass] in *.
        rewrite app_nil_r in S1. rewrite Nat.add_0_r in S2.
        rewrite events_eq. unfold final. rewrite owed_eq.
        unfold on_fulfilled, push.
        cbn [with_result with_buffer with_done with_coRoutine buffer result
             unit_offset coRoutine elapsed Result.count Result.pass
             Result.description Result.executionTime].
        rewrite !items_events_app, !items_owed_app, !items_events_single,
          !items_owed_single, So, Se, S1, S2, S3.
        rewrite !andb_true_r. rewrite andb_true_r in T3. rewrite T3.
        rewrite app_nil_r, <- !app_assoc. split; reflexivity.
      - rewrite events_eq. unfold final. rewrite owed_eq.
        cbn [with_coRoutine buffer result unit_offset coRoutine elapsed].
        rewrite So, Se, S2, S3, T3. rewrite app_assoc, S1.
        split; reflexivity. }
    destruct Hc' as (K1 & K2). clear Ec'.
    destruct (with_id_events (S (Result.count (result u))) c') as (W1 & W2 & W3 & _).
    assert (Hcol :
              (items_events (unit_offset u) (buffer (collector (inr c') u))
               ++ body_events (unit_offset u)
                              (Result.count (result (collector (inr c') u))) rest
               = items_events (unit_offset u) (buffer u)
                 ++ body_events (unit_offset u) (Result.count (result u))
                                (SubTest d sub el awaited rest))%list
              /\ Result.count (result (collector (inr c') u)) + body_count rest
                 = Result.count (result u) + body_count (SubTest d sub el awaited rest)
              /\ Result.description (result (collector (inr c') u))
                 = Result.description (result u)
              /\ Result.executionTime (result (collector (inr c') u))
                 = Result.executionTime (result u)).
    { unfold collector, push.
      cbn [with_result with_buffer buffer result unit_offset Result.count
           Result.description Result.executionTime].
      rewrite items_events_app, items_events_sub, W1, W2, W3, K1, K2.
      cbn [body_events body_count]. unfold items_events at 2. cbn [List.map List.concat].
      rewrite app_nil_r, <- !app_assoc. split; [reflexivity|]. split; [lia|]. auto. }
    destruct Hcol as (C1 & C2 & C3 & C4).
    destruct (collector_shape (inr c') u) as (Eo & _).
    destruct (awaited && negb flush).
    + assert (Hu : u' = collector (inr c') u) by congruence.
      assert (Hl : left = rest) by congruence.
      clear H. subst u' left. auto.
    + destruct (IH _ _ _ _ Hrest H) as (R1 & R2 & R3 & R4).
      rewrite Eo in R1. rewrite R1, R2, R3, R4. auto.
  - destruct flush.
    + destruct (IH _ _ _ _ Hret H) as (R1 & R2 & R3 & R4). auto.
    + inversion H; subst. cbn [body_events body_count]. auto.
Qed.

Lemma on_fulfilled_events (u : instance) :
  coRoutine u = Pending Return ->
  events (on_fulfilled u) = events u
  /\ final (on_fulfilled u) = final u
  /\ owed (on_fulfilled u) = owed u
  /\ unit_id (on_fulfilled u) = unit_id u
  /\ unit_offset (on_fulfilled u) = unit_offset u.
Proof.
  intro Hc.
  assert (Ho : owed (on_fulfilled u) = owed u).
  { destruct (on_fulfilled_facts u) as (O1 & O2 & _ & _ & _ & O6).
    rewrite !owed_eq, O1, O2, O6, Hc. reflexivity. }
  rewrite !events_eq. unfold final. rewrite Ho, Hc.
  unfold on_fulfilled, push.
  cbn [with_result with_buffer with_done with_coRoutine buffer result
       unit_offset unit_id coRoutine elapsed Result.count Result.pass
       Result.description Result.executionTime body_events body_count].
  rewrite !items_events_app, !items_events_single, Nat.add_0_r, app_nil_r,
    <- !app_assoc.
  auto.
Qed.

(** Waiting for the promise of a healthy unfinished unit changes neither
    the events it still has to give nor the result it is heading for. *)
Lemma await_events (u : instance) :
  healthy u = true ->
  done u = false ->
  events (await_coRoutine u) = events u
  /\ final (await_coRoutine u) = final u
  /\ unit_id (await_coRoutine u) = unit_id u
  /\ unit_offset (await_coRoutine u) = unit_offset u.
Proof.
  intros Hh Hd. pose proof Hh as Hh'. rewrite healthy_eq in Hh'.
  destruct (await_facts u Hh Hd) as (_ & Ho & _). revert Ho.
  unfold await_coRoutine.
  destruct (coRoutine u) as [rest|b] eqn:Hc.
  - rewrite Hd in Hh'. cbn [negb andb] in Hh'.
    apply andb_true_iff in Hh'. destruct Hh' as [Hret _].
    destruct (run true rest u) as [u1 left] eqn:Hrun.
    destruct (run_facts _ _ _ Hret Hrun) as (_ & R2 & _).
    destruct (run_events _ _ _ Hret Hrun) as (E1 & E2 & E3 & E4).
    destruct (run_shape _ _ _ Hrun) as (So & _ & Sc & Se & Si).
    rewrite (R2 eq_refl) in *. cbn [settle body_events body_count] in *.
    rewrite app_nil_r in E1. rewrite Nat.add_0_r in E2.
    intro Ho.
    assert (Hc1 : coRoutine (with_coRoutine (Pending Return) u1) = Pending Return)
      by reflexivity.
    destruct (on_fulfilled_events _ Hc1) as (F1 & F2 & F3 & F4 & F5).
    change (on_fulfilled (with_coRoutine (Pending Return) u1))
      with (on_fulfilled u1) in *.
    rewrite F1, F4, F5. cbn [with_coRoutine unit_id unit_offset].
    split; [|split; [|auto]].
    + rewrite !events_eq.
      cbn [with_coRoutine buffer result unit_offset coRoutine elapsed
           body_events body_count].
      rewrite Hc, So, Se, E1, E2, Nat.add_0_r. cbn [app].
      rewrite <- app_assoc. reflexivity.
    + unfold final. rewrite Ho, Hc.
      unfold on_fulfilled, push.
      cbn [with_result with_buffer with_done with_coRoutine buffer result
           coRoutine elapsed Result.count Result.description
           Result.executionTime].
      rewrite E2, E3, Se. reflexivity.
  - rewrite Hd, andb_false_r in Hh'. discriminate Hh'.
Qed.

Lemma final_pass (u : instance) : Result.pass (final u) = owed u.
Proof. unfold final. destruct (coRoutine u); reflexivity. Qed.

(** One pull on a healthy unit gives the first of the events it still
    has to give and leaves the others, and the result it is heading for;
    at the end nothing is left and the result is the one it was heading
    for. *)
Lemma next_events (fuel : nat) :
  forall u : instance,
    healthy u = true ->
    work u < fuel ->
    (exists e u', next fuel u = (Yield e, u')
                  /\ events u = e :: events u'
                  /\ final u' = final u
                  /\ unit_id u' = unit_id u
                  /\ unit_offset u' = unit_offset u)
    \/ (exists u', next fuel u = (Done (Some (result u')), u')
                   /\ events u = []
                   /\ result u' = final u
                   /\ unit_id u' = unit_id u).
Proof.
  induction fuel as [|fuel IH]; intros u Hh Hw; [lia|].
  rewrite next_unfold.
  pose proof Hh as Hh'. rewrite healthy_eq in Hh'.
  pose proof (owed_eq u) as Ho. pose proof (work_eq u) as Hk.
  pose proof (events_eq u) as He.
  destruct (buffer u) as [|[e|delegate] rest] eqn:Hb.
  - destruct (done u) eqn:Hd.
    + right. exists u. split; [reflexivity|].
      destruct (coRoutine u) as [left|b] eqn:Hc.
      * cbn in Hh'. discriminate Hh'.
      * split; [exact He|]. split; [|reflexivity].
        unfold final. rewrite Hc, Ho.
        unfold items_owed. cbn [forallb]. rewrite !andb_true_r.
        symmetry. apply result_eta.
    + destruct (await_facts u Hh Hd) as (A1 & A2 & A3).
      destruct (await_events u Hh Hd) as (B1 & B2 & B3 & B4).
      destruct (IH (await_coRoutine u) A1 ltac:(lia))
        as [(e & u' & N & N1 & N2 & N3 & N4)|(u' & N & N1 & N2 & N3)].
      * left. exists e, u'. rewrite N.
        split; [reflexivity|]. repeat split; congruence.
      * right. exists u'. rewrite N.
        split; [reflexivity|]. repeat split; congruence.
  - destruct (items_cons_event e rest) as (E1 & E2 & E3).
    rewrite E1 in Ho. rewrite E2 in Hk. rewrite E3 in Hh'.
    rewrite items_events_event in He.
    left. exists e, (with_buffer rest u).
    split; [reflexivity|].
    rewrite (events_eq (with_buffer rest u)). unfold final.
    rewrite (owed_eq (with_buffer rest u)).
    cbn [with_buffer coRoutine done buffer result unit_offset unit_id elapsed].
    rewrite He, Ho. auto.
  - destruct (items_cons_sub delegate rest) as (E1 & E2 & E3).
    rewrite E1 in Ho. rewrite E2 in Hk. rewrite E3 in Hh'.
    rewrite items_events_sub in He.
    apply andb_true_iff in Hh'. destruct Hh' as [Hco Hh'].
    apply andb_true_iff in Hh'. destruct Hh' as [Hhd Hhr].
    destruct (IH delegate Hhd ltac:(lia))
      as [(e & d' & N & N1 & N2 & N3 & N4)|(d' & N & N1 & N2 & N3)]; rewrite N.
    + left. exists e, (with_buffer (ISubTest d' :: rest) u).
      split; [reflexivity|].
      rewrite (events_eq (with_buffer (ISubTest d' :: rest) u)). unfold final.
      rewrite (owed_eq (with_buffer (ISubTest d' :: rest) u)).
      cbn [with_buffer coRoutine done buffer result unit_offset unit_id elapsed].
      destruct (items_cons_sub d' rest) as (D1 & _ & _).
      rewrite items_events_sub, D1, N2, N3, He, Ho, N1.
      rewrite <- (final_pass d'), N2, final_pass.
      rewrite <- !app_assoc. cbn [app]. auto.
    + unfold subTestAssertion, createAssertion.
      cbn [with_result with_buffer coRoutine done buffer result data offset
           unit_offset elapsed unit_id tl].
      rewrite Hb. cbn [tl].
      destruct fuel as [|fuel]; [lia|].
      rewrite next_unfold. cbn [with_result with_buffer coRoutine done buffer result].
      left. eexists; eexists. split; [reflexivity|].
      match goal with
      | |- events u = _ :: events ?v /\ _ =>
          rewrite (events_eq v); unfold final; rewrite (owed_eq v)
      end.
      cbn [with_result with_buffer coRoutine done buffer result unit_offset
           unit_id elapsed Result.count Result.pass Result.description
           Result.executionTime].
      rewrite He, Ho, N1, N2, N3. cbn [app].
      unfold summary_assertion. rewrite final_pass.
      split; [reflexivity|]. split; [|auto].
      cbn [pass].
      destruct (coRoutine u);
        (f_equal; [btauto]).
Qed.

Lemma stands_for_refl (u : instance) : healthy u = true -> stands_for u u.
Proof. intro H. repeat split; auto. Qed.

Lemma stands_for_trans (u v w : instance) :
  stands_for u v -> stands_for v w -> stands_for u w.
Proof.
  intros (A1 & A2 & A3 & A4 & A5 & A6 & A7) (B1 & B2 & B3 & B4 & B5 & B6 & B7).
  repeat split; try congruence. lia.
Qed.

Lemma with_buffer_same (u : instance) : with_buffer (buffer u) u = u.
Proof. destruct u; reflexivity. Qed.

(** A body that goes on by one stretch leaves a unit that can stand for
    the one it was. *)
Lemma resume_run (u : instance) (rest : body) :
  healthy u = true ->
  coRoutine u = Pending rest ->
  stands_for u (let (u1, left) := run false rest u in with_coRoutine (Pending left) u1).
Proof.
  intros Hh Hc. pose proof Hh as Hh'. rewrite healthy_eq, Hc in Hh'.
  apply andb_true_iff in Hh'. destruct Hh' as [Hh' Hit].
  apply andb_true_iff in Hh'. destruct Hh' as [Hd Hret].
  apply negb_true_iff in Hd.
  destruct (run false rest u) as [u1 left] eqn:Hrun.
  destruct (run_facts _ _ _ Hret Hrun) as (R1 & _ & R3 & R4 & R5).
  destruct (run_events _ _ _ Hret Hrun) as (E1 & E2 & E3 & E4).
  destruct (run_shape _ _ _ Hrun) as (So & Sd & _ & Se & Si).
  assert (Ho : owed (with_coRoutine (Pending left) u1) = owed u).
  { rewrite !owed_eq, Hc. exact R3. }
  unfold stands_for. rewrite Ho.
  rewrite healthy_eq, !work_eq, !events_eq. unfold final. rewrite Ho, Hc.
  cbn [with_coRoutine coRoutine done buffer result unit_offset unit_id elapsed].
  rewrite Sd, Hd, R1, (R5 Hit), So, Se, Si, E2, E3.
  rewrite app_assoc, E1, <- app_assoc.
  repeat split; try reflexivity. lia.
Qed.

Lemma resume_stands (u : instance) : healthy u = true -> stands_for u (resume u).
Proof.
  intro Hh. unfold resume.
  destruct (coRoutine u) as [rest|b] eqn:Hc; [|apply stands_for_refl; exact Hh].
  destruct rest as [|err rest|a rest|d sub el awaited rest|rest];
    try (apply resume_run; [exact Hh|exact Hc]).
  - destruct (on_fulfilled_events u Hc) as (F1 & F2 & F3 & F4 & F5).
    destruct (on_fulfilled_facts u) as (O1 & O2 & O3 & O4 & O5 & O6).
    pose proof Hh as Hh'. rewrite healthy_eq, Hc in Hh'.
    apply andb_true_iff in Hh'. destruct Hh' as [_ Hit].
    unfold stands_for. rewrite F1, F2, F3, F4, F5.
    rewrite healthy_eq, !work_eq, O3, O4, O5, O6, Hc, Hit.
    cbn [body_work]. repeat split; try reflexivity. lia.
  - rewrite healthy_eq, Hc in Hh. cbn [returns] in Hh.
    rewrite andb_false_r in Hh. discriminate Hh.
Qed.

(** A sub test replaced in a buffer by one that can stand for it. *)
Lemma items_replace (offset : nat) (b1 b2 : list (item instance)) (c c' : instance) :
  stands_for c c' ->
  items_healthy (b1 ++ ISubTest c :: b2) = true ->
  items_healthy (b1 ++ ISubTest c' :: b2) = true
  /\ items_work (b1 ++ ISubTest c' :: b2) <= items_work (b1 ++ ISubTest c :: b2)
  /\ items_owed (b1 ++ ISubTest c' :: b2) = items_owed (b1 ++ ISubTest c :: b2)
  /\ items_events offset (b1 ++ ISubTest c' :: b2)
     = items_events offset (b1 ++ ISubTest c :: b2).
Proof.
  intros (A1 & A2 & A3 & A4 & A5 & A6 & A7) Hh.
  destruct (items_cons_sub c b2) as (C1 & C2 & C3).
  destruct (items_cons_sub c' b2) as (D1 & D2 & D3).
  rewrite items_healthy_app, C3 in Hh.
  apply andb_true_iff in Hh. destruct Hh as [H1 Hh].
  apply andb_true_iff in Hh. destruct Hh as [_ H2].
  rewrite !items_healthy_app, !items_work_app, !items_owed_app, !items_events_app,
    !items_events_sub, C1, C2, D1, D2, D3, A1, A3, A4, A5, A6, H1, H2.
  repeat split; try reflexivity. lia.
Qed.

(** Whatever sub test goes on, and however far, the unit that results
    can stand for the one it was. *)
Lemma progress_stands (path : list nat) :
  forall u : instance, healthy u = true -> stands_for u (progress path u).
Proof.
  induction path as [|i path IH]; intros u Hh; cbn [progress].
  - apply resume_stands. exact Hh.
  - pose proof (firstn_skipn i (buffer u)) as Hsplit.
    destruct (skipn i (buffer u)) as [|[e|c] rest] eqn:Hs;
      try (rewrite Hsplit, with_buffer_same; apply stands_for_refl; exact Hh).
    remember (firstn i (buffer u)) as b1 eqn:Hb1. clear Hb1 Hs.
    pose proof Hh as Hh'. rewrite healthy_eq, <- Hsplit in Hh'.
    apply andb_true_iff in Hh'. destruct Hh' as [Hco Hit].
    assert (Hc : healthy c = true).
    { rewrite items_healthy_app in Hit.
      apply andb_true_iff in Hit. destruct Hit as [_ Hit].
      destruct (items_cons_sub c rest) as (_ & _ & C3). rewrite C3 in Hit.
      apply andb_true_iff in Hit. destruct Hit as [Hit _]. exact Hit. }
    destruct (items_replace (unit_offset u) b1 rest (IH c Hc) Hit)
      as (R1 & R2 & R3 & R4).
    unfold stands_for.
    rewrite healthy_eq, !work_eq, !owed_eq, !events_eq. unfold final.
    rewrite !owed_eq.
    cbn [with_buffer coRoutine done buffer result unit_offset unit_id elapsed].
    rewrite <- Hsplit, R1, R3, R4, Hco.
    repeat split; try reflexivity. lia.
Qed.

Lemma units_app (l1 l2 : list instance) :
  forallb healthy (l1 ++ l2) = forallb healthy l1 && forallb healthy l2
  /\ units_work (l1 ++ l2) = units_work l1 + units_work l2
  /\ units_events (l1 ++ l2) = (units_events l1 ++ units_events l2)%list.
Proof.
  unfold units_work, units_events.
  rewrite forallb_app, !map_app, list_sum_app, concat_app. auto.
Qed.

Lemma units_cons (u : instance) (l : list instance) :
  forallb healthy (u :: l) = healthy u && forallb healthy l
  /\ units_work (u :: l) = work u + 2 + units_work l
  /\ units_events (u :: l) = (events u ++ units_events l)%list.
Proof. repeat split. Qed.

(** One unit of a list goes on: the list is as healthy, needs no more
    pulls and has the same events to give. *)
Lemma units_at_position (i : nat) (path : list nat) (l : list instance) :
  forallb healthy l = true ->
  forallb healthy (at_position i (progress path) l) = true
  /\ units_work (at_position i (progress path) l) <= units_work l
  /\ units_events (at_position i (progress path) l) = units_events l.
Proof.
  intro Hh. unfold at_position.
  pose proof (firstn_skipn i l) as Hsplit.
  destruct (skipn i l) as [|u rest] eqn:Hs.
  - rewrite Hsplit. auto.
  - remember (firstn i l) as l1 eqn:Hl1. clear Hl1 Hs. subst l.
    destruct (units_app l1 (u :: rest)) as (A1 & A2 & A3).
    destruct (units_app l1 (progress path u :: rest)) as (B1 & B2 & B3).
    destruct (units_cons u rest) as (C1 & C2 & C3).
    destruct (units_cons (progress path u) rest) as (D1 & D2 & D3).
    rewrite A1, C1 in Hh.
    apply andb_true_iff in Hh. destruct Hh as [H1 Hh].
    apply andb_true_iff in Hh. destruct Hh as [Hu H2].
    destruct (progress_stands path u Hu) as (S1 & S2 & _ & S4 & _).
    rewrite A2, A3, B1, B2, B3, C2, C3, D1, D2, D3, S1, S4, H1, H2.
    repeat split; try reflexivity. lia.
Qed.

Lemma remaining_move (m : nat * list nat) (c : combined instance) :
  tidy c ->
  tidy (move m c)
  /\ remaining (move m c) = at_position (fst m) (progress (snd m)) (remaining c).
Proof.
  intro Ht. unfold move, tidy, remaining, at_position in *.
  destruct m as [[|i] path]; cbn [fst snd].
  - destruct (current c) as [cur|] eqn:Hc; cbn [current pending firstn skipn app].
    + split; [discriminate|reflexivity].
    + rewrite Hc. split; [exact Ht|reflexivity].
  - destruct (current c) as [cur|] eqn:Hc; cbn [current pending firstn skipn app].
    + split; [discriminate|reflexivity].
    + rewrite (Ht eq_refl), firstn_nil, skipn_nil. auto.
Qed.

(** The moves of the bodies before a pull. *)
Lemma moves_facts (ms : list (nat * list nat)) :
  forall c : combined instance,
    tidy c ->
    forallb healthy (remaining c) = true ->
    tidy (fold_left (fun c m => move m c) ms c)
    /\ forallb healthy (remaining (fold_left (fun c m => move m c) ms c)) = true
    /\ units_work (remaining (fold_left (fun c m => move m c) ms c))
       <= units_work (remaining c)
    /\ units_events (remaining (fold_left (fun c m => move m c) ms c))
       = units_events (remaining c).
Proof.
  induction ms as [|m ms IH]; intros c Ht Hh; cbn [fold_left].
  - auto.
  - destruct (remaining_move m Ht) as (T1 & T2).
    destruct (units_at_position (fst m) (snd m) _ Hh) as (U1 & U2 & U3).
    rewrite <- T2 in U1, U2, U3.
    destruct (IH (move m c) T1 U1) as (I1 & I2 & I3 & I4).
    split; [exact I1|]. split; [exact I2|]. split; [lia|congruence].
Qed.

(** One pull on the merged stream of healthy units. *)
Lemma merged_events (fuel : nat) :
  forall (c : combined instance) (k : counters),
    tidy c ->
    forallb healthy (remaining c) = true ->
    units_work (remaining c) < fuel ->
    (exists e c', merged fuel (c, k) = (Yield e, (c', k))
                  /\ tidy c'
                  /\ forallb healthy (remaining c') = true
                  /\ units_work (remaining c') < units_work (remaining c)
                  /\ units_events (remaining c) = e :: units_events (remaining c'))
    \/ (merged fuel (c, k) = (Done None, (combine [], k))
        /\ units_events (remaining c) = []).
Proof.
  induction fuel as [|fuel IH]; intros c k Ht Hh Hw; [lia|].
  unfold merged. rewrite combine_next_unfold. fold merged.
  unfold tidy, remaining in *.
  destruct c as [[cur|] pend]; cbn [current pending] in *.
  - destruct (units_cons cur pend) as (C1 & C2 & C3).
    rewrite C1 in Hh. rewrite C2 in Hw. rewrite C2, C3.
    apply andb_true_iff in Hh. destruct Hh as [Hcur Hpend].
    destruct (next_facts (fuel := fuel) cur Hcur ltac:(lia))
      as [(e & cur' & N & N1 & N2 & N3)|(cur' & N & N1)];
      destruct (next_events (fuel := fuel) cur Hcur ltac:(lia))
        as [(e' & cur'' & M & M1 & M2 & M3 & M4)|(cur'' & M & M1 & M2 & M3)];
      rewrite N in M; try discriminate M.
    + inversion M; subst e' cur''. rewrite N.
      left. exists e, (mkCombined (Some cur') pend).
      cbn [current pending].
      destruct (units_cons cur' pend) as (D1 & D2 & D3).
      rewrite D1, D2, D3, N1, Hpend, M1.
      split; [reflexivity|]. split; [discriminate|]. split; [reflexivity|].
      split; [lia|reflexivity].
    + rewrite N. rewrite M1. cbn [app].
      assert (Ht' : current (mkCombined (hd_error pend) (tl pend)) = None ->
                    pending (mkCombined (hd_error pend) (tl pend)) = []).
      { cbn [current pending]. destruct pend; [reflexivity|discriminate]. }
      assert (Hr : match current (mkCombined (hd_error pend) (tl pend)) with
                   | Some cur0 => cur0 :: pending (mkCombined (hd_error pend) (tl pend))
                   | None => []
                   end = pend).
      { destruct pend; reflexivity. }
      destruct (IH (mkCombined (hd_error pend) (tl pend)) k Ht')
        as [(e & c' & I & I1 & I2 & I3 & I4)|(I & I1)];
        try (rewrite Hr; first [exact Hpend|lia]).
      * left. exists e, c'. rewrite Hr in I3, I4.
        split; [exact I|]. split; [exact I1|]. split; [exact I2|].
        split; [lia|exact I4].
      * right. rewrite Hr in I1. split; [exact I|exact I1].
  - right. rewrite (Ht eq_refl). split; reflexivity.
Qed.

(** Pulling the merged stream of healthy units to its end while their
    bodies go on, whatever the schedule: the events of the units, unit
    after unit. *)
Lemma drain_during_events (fuel : nat) :
  forall (schedule : list (list (nat * list nat))) (c : combined instance) (k : counters),
    tidy c ->
    forallb healthy (remaining c) = true ->
    units_work (remaining c) + 1 < fuel ->
    drain_during schedule fuel (c, k)
    = (units_events (remaining c), Done None, (combine [], k)).
Proof.
  induction fuel as [|fuel IH]; intros schedule c k Ht Hh Hw; [lia|].
  cbn [drain_during fst snd].
  destruct (moves_facts (hd [] schedule) Ht Hh) as (M1 & M2 & M3 & M4).
  destruct (merged_events (fuel := fuel) k M1 M2 ltac:(lia))
    as [(e & c' & I & I1 & I2 & I3 & I4)|(I & I1)]; rewrite I.
  - rewrite (IH (tl schedule) c' k I1 I2 ltac:(lia)).
    rewrite <- M4, I4. reflexivity.
  - rewrite <- M4, I1. reflexivity.
Qed.

(** A healthy unit pulled alone gives its events and ends. *)
Lemma drain_events (fuel : nat) :
  forall u : instance,
    healthy u = true ->
    work u + 1 < fuel ->
    exists u', drain next fuel u = (events u, Done (Some (final u)), u').
Proof.
  induction fuel as [|fuel IH]; intros u Hh Hw; [lia|].
  cbn [drain].
  destruct (next_facts (fuel := fuel) u Hh ltac:(lia))
    as [(e & u' & N & N1 & N2 & N3)|(u' & N & N1)];
    destruct (next_events (fuel := fuel) u Hh ltac:(lia))
      as [(e' & u'' & M & M1 & M2 & M3 & M4)|(u'' & M & M1 & M2 & M3)];
    rewrite N in M; try discriminate M.
  - inversion M; subst e' u''. rewrite N.
    destruct (IH u' N1 ltac:(lia)) as (u3 & D). rewrite D.
    exists u3. rewrite M1, M2. reflexivity.
  - inversion M as [[Hr Hu]]. rewrite N. exists u'.
    rewrite M1. rewrite <- M2. rewrite <- Hu. reflexivity.
Qed.

Lemma top_units_facts (tops : list (string * body * nat)) :
  forallb (fun t => returns (snd (fst t))) tops = true ->
  forallb healthy (top_units tops) = true
  /\ units_work (top_units tops) <= tops_work tops.
Proof.
  induction tops as [|t tops IH]; intro H; [split; [reflexivity|apply Nat.le_refl]|].
  cbn [forallb] in H. apply andb_true_iff in H. destruct H as [Ht H].
  destruct (IH H) as (I1 & I2).
  destruct (tester_facts 0 (fst (fst t)) (snd (fst t)) (snd t) Ht) as (T1 & _ & T3).
  change (top_units (t :: tops))
    with (tester 0 (fst (fst t)) (snd (fst t)) (snd t) :: top_units tops).
  change (tops_work (t :: tops))
    with (body_work (snd (fst t)) + 6 + tops_work tops).
  destruct (units_cons (tester 0 (fst (fst t)) (snd (fst t)) (snd t)) (top_units tops))
    as (C1 & C2 & _).
  rewrite C1, C2, T1, I1. split; [reflexivity|lia].
Qed.

Lemma tidy_combine (units : list instance) :
  tidy (combine units) /\ remaining (combine units) = units.
Proof.
  unfold tidy, remaining, combine. destruct units; cbn; split; auto. discriminate.
Qed.

Lemma drain_during_nil (fuel : nat) :
  forall s : state, drain_during [] fuel s = drain merged fuel s.
Proof.
  induction fuel as [|fuel IH]; intros [c k]; [reflexivity|].
  cbn [drain_during drain hd tl fold_left fst snd].
  destruct (merged fuel (c, k)) as [[v| | |] s1]; try reflexivity.
  rewrite IH. reflexivity.
Qed.

Lemma units_events_alone (fuel : nat) (l : list instance) :
  forallb healthy l = true ->
  units_work l + 1 < fuel ->
  units_events l = List.concat (List.map (fun u => fst (fst (drain next fuel u))) l).
Proof.
  induction l as [|u l IH]; intros Hh Hw; [reflexivity|].
  destruct (units_cons u l) as (C1 & C2 & C3).
  rewrite C1 in Hh. rewrite C2 in Hw. rewrite C3.
  apply andb_true_iff in Hh. destruct Hh as [Hu Hl].
  destruct (drain_events (fuel := fuel) u Hu ltac:(lia)) as (u' & D).
  cbn [List.map List.concat]. rewrite D. cbn [fst].
  rewrite (IH Hl ltac:(lia)). reflexivity.
Qed.

(** [C3] For iterators [seq1, seq2, ...] that each give their items and
    then end, the sequence made by [combine] gives all the items of
    [seq1], then all the items of [seq2], and so on in the order of the
    arguments, and then ends; this holds for every large enough bound.
    For the units of top-level tests whose bodies do not raise, the
    merged stream pulled to its end gives the same events whatever the
    schedule on which the bodies go on between the pulls: the events
    each unit gives when pulled alone, unit after unit in the order of
    the declarations. *)
Theorem combine_in_declared_order :
  (forall (I F V R : Type) (inext : nat -> I -> step V R * I)
          (iterators : list I) (items : list (list V)) (frame : F),
      monotone inext ->
      Forall2 (fun i l => exists fuel r i', drain inext fuel i = (l, Done r, i'))
              iterators items ->
      exists fuel,
        forall fuel', fuel <= fuel' ->
          drain (combine_next inext) fuel' (combine iterators, frame)
          = (List.concat items, Done None, (combine [], frame)))
  /\ (forall (tops : list (string * body * nat))
             (schedule : list (list (nat * list nat))) (fuel : nat) (k : counters),
         forallb (fun t => returns (snd (fst t))) tops = true ->
         tops_work tops + 1 < fuel ->
         drain_during schedule fuel (combine (top_units tops), k)
         = drain merged fuel (combine (top_units tops), k)
         /\ drain merged fuel (combine (top_units tops), k)
            = (List.concat (List.map (fun u => fst (fst (drain next fuel u)))
                                     (top_units tops)),
               Done None, (combine [], k))).
Proof.
  split.
  - intros I F V R inext iterators items frame. apply combine_order.
  - intros tops schedule fuel k Hret Hfuel.
    destruct (top_units_facts tops Hret) as (H1 & H2).
    destruct (tidy_combine (top_units tops)) as (T1 & T2).
    assert (E : forall sch,
               drain_during sch fuel (combine (top_units tops), k)
               = (List.concat (List.map (fun u => fst (fst (drain next fuel u)))
                                        (top_units tops)),
                  Done None, (combine [], k))).
    { intro sch.
      rewrite (drain_during_events (fuel := fuel) sch k T1); rewrite T2;
        [|exact H1|lia].
      rewrite (units_events_alone (fuel := fuel) _ H1) by lia. reflexivity. }
    rewrite <- drain_during_nil, !E. split; reflexivity.
Qed.

Lemma combine_in_declared_order_witness :
  (exists fuel,
      List.map digest
               (fst (fst (drain merged fuel
                                (combine (top_units async_tops), mkCounters 0 0 0))))
      = [("title", Some 0, None); ("assert", Some 0, Some 1); ("assert", Some 0, Some 2);
         ("plan", Some 0, None); ("time", Some 0, None);
         ("title", Some 0, None); ("assert", Some 0, Some 1); ("assert", Some 0, Some 2);
         ("plan", Some 0, None); ("time", Some 0, None)])
  /\ drain_during second_first 30 (combine (top_units async_tops), mkCounters 0 0 0)
     = drain merged 30 (combine (top_units async_tops), mkCounters 0 0 0).
Proof.
  destruct combine_in_declared_order as (HA & HB). split.
  - destruct (HA instance counters event Result.t next (top_units async_tops)
                 (List.map (fun u => fst (fst (drain next 9 u))) (top_units async_tops))
                 (mkCounters 0 0 0) next_monotone) as [fuel H].
    + constructor; [|constructor; [|constructor]].
      * exists 9; eexists; eexists. vm_compute. reflexivity.
      * exists 9; eexists; eexists. vm_compute. reflexivity.
    + exists fuel. unfold merged, state. rewrite (H fuel (le_n fuel)).
      vm_compute. reflexivity.
  - assert (H1 : forallb (fun t => returns (snd (fst t))) async_tops = true)
      by reflexivity.
    assert (H2 : tops_work async_tops + 1 < 30) by (vm_compute; repeat constructor).
    destruct (HB async_tops second_first 30 (mkCounters 0 0 0) H1 H2) as [H _].
    exact H.
Defined.

(** ** test/samples/async.js *)

(** With the schedule [second_first] the second test is finished before
    the first pull, and the first is not. *)
Example second_settles_first :
  List.map done
           (remaining (fold_left (fun c m => move m c) (hd [] second_first)
                                 (combine (top_units async_tops))))
  = [false; true].
Proof. reflexivity. Qed.

(** The report of the two tests: the assertions of the first, then the
    assertions of the second, numbered in that order. *)
Example async_js_report :
  let r := start 20 (load 0 async_js) in
  snd r = Completed
  /\ List.map (fun e => (type e, data_id e,
                         match data e with
                         | Assert a => to_string (description a)
                         | Title t | Comment t => t
                         | _ => ""
                         end)) (fst r)
     = [("version", None, "");
        ("title", None, "test 1");
        ("assert", Some 1, "assert1");
        ("assert", Some 2, "assert2");
        ("title", None, "test 2");
        ("assert", Some 3, "assert3");
        ("assert", Some 4, "assert4");
        ("plan", None, "");
        ("comment", None, "ok")].
Proof. vm_compute. split; reflexivity. Qed.

(* ================================================================== *)
(** ** Whole sequences through [filter] and [map] *)

Section DrainThrough.

Variables St V W R : Type.
Variable it : iterator St V R.
Hypothesis it_monotone : monotone it.

Lemma drain_nil_inv (fuel : nat) (s s' : St) (e : step V R) :
  drain it fuel s = ([], e, s') -> e <> Blocked ->
  exists fuel0, fuel = S fuel0 /\ it fuel0 s = (e, s').
Proof.
  intros H N. destruct fuel as [|fuel].
  - cbn in H. inversion H; subst. congruence.
  - exists fuel. split; [reflexivity|]. cbn [drain] in H.
    destruct (it fuel s) as [[v|r|err|] s1].
    + destruct (drain it fuel s1) as [[l e1] s2]. discriminate H.
    + inversion H; subst; reflexivity.
    + inversion H; subst; reflexivity.
    + inversion H; subst; reflexivity.
Qed.

Lemma drain_cons_inv (fuel : nat) (s s' : St) (v : V) (l : list V) (e : step V R) :
  drain it fuel s = (v :: l, e, s') ->
  exists fuel0 s1, fuel = S fuel0 /\ it fuel0 s = (Yield v, s1)
                   /\ drain it fuel0 s1 = (l, e, s').
Proof.
  intros H. destruct fuel as [|fuel]; [discriminate H|].
  exists fuel. cbn [drain] in H.
  destruct (it fuel s) as [[w|r|err|] s1]; try discriminate H.
  destruct (drain it fuel s1) as [[l1 e1] s2] eqn:D.
  inversion H; subst. exists s1. auto.
Qed.

(** Pulled to its end, [filter(predicate)(iterator)] gives the items of
    the iterator that satisfy the predicate, in their order. *)
Lemma filter_drains (predicate : V -> bool) :
  forall (l : list V) (fuel : nat) (s s' : St) (r : option R),
    drain it fuel s = (l, Done r, s') ->
    exists fuel0,
      forall fuel', fuel0 <= fuel' ->
        drain (filter predicate it) fuel' s = (List.filter predicate l, Done None, s').
Proof.
  pose proof (filter_monotone predicate it_monotone) as Hf.
  induction l as [|v l IH]; intros fuel s s' r H.
  - apply drain_nil_inv in H; [|discriminate]. destruct H as (n & -> & H).
    exists (S (S n)). apply (drain_monotone Hf); [|discriminate].
    rewrite drain_unfold. cbn [filter]. rewrite H. reflexivity.
  - apply drain_cons_inv in H. destruct H as (n & s1 & -> & Hv & H).
    destruct (IH _ _ _ _ H) as [fuel0 IH0].
    set (M := Nat.max n fuel0).
    assert (HM : it M s = (Yield v, s1))
      by (eapply it_monotone; [exact Hv|discriminate|unfold M; lia]).
    pose proof (IH0 (S M) ltac:(unfold M; lia)) as D.
    exists (S (S M)). apply (drain_monotone Hf); [|discriminate].
    rewrite drain_unfold. cbn [filter List.filter]. rewrite HM.
    destruct (predicate v); cbn [negb].
    + rewrite D. reflexivity.
    + rewrite drain_unfold in D.
      destruct (filter predicate it M s1) as [[w|r1|err|] s2] eqn:E.
      * destruct (drain (filter predicate it) M s2) as [[l2 e2] s3] eqn:D2.
        inversion D; subst.
        assert (D3 : drain (filter predicate it) (S M) s2 = (l2, Done None, s'))
          by (eapply (drain_monotone Hf); [exact D2|discriminate|lia]).
        rewrite D3. reflexivity.
      * exact D.
      * exact D.
      * exact D.
Qed.

(** Pulled to its end, [map(f)(iterator)] gives the images of the items
    of the iterator, in their order. *)
Lemma map_drains (f : V -> W) :
  forall (l : list V) (fuel : nat) (s s' : St) (r : option R),
    drain it fuel s = (l, Done r, s') ->
    exists fuel0,
      forall fuel', fuel0 <= fuel' ->
        drain (map (pure f) it) fuel' s = (List.map f l, Done None, s').
Proof.
  pose proof (map_monotone (pure (St := St) f) it_monotone) as Hf.
  induction l as [|v l IH]; intros fuel s s' r H.
  - apply drain_nil_inv in H; [|discriminate]. destruct H as (n & -> & H).
    exists (S (S n)). apply (drain_monotone Hf); [|discriminate].
    rewrite drain_unfold. cbn [map]. rewrite H. reflexivity.
  - apply drain_cons_inv in H. destruct H as (n & s1 & -> & Hv & H).
    destruct (IH _ _ _ _ H) as [fuel0 IH0].
    set (M := Nat.max n fuel0).
    assert (HM : it M s = (Yield v, s1))
      by (eapply it_monotone; [exact Hv|discriminate|unfold M; lia]).
    pose proof (IH0 (S M) ltac:(unfold M; lia)) as D.
    exists (S (S M)). apply (drain_monotone Hf); [|discriminate].
    rewrite drain_unfold. cbn [map List.map]. rewrite HM. unfold pure at 1.
    rewrite D. reflexivity.
Qed.

End DrainThrough.

(** [X1] When an iterator that answers the same with a larger bound
    gives the items [l] and then ends, [filter(predicate)] of it gives
    the items of [l] that satisfy the predicate, in the same order, and
    then ends without a value, leaving the iterator in the state in
    which it ended; this holds for every large enough bound. *)
Theorem filter_gives_kept_items
        (St V R : Type) (it : iterator St V R) (predicate : V -> bool)
        (fuel : nat) (s s' : St) (l : list V) (r : option R) :
  monotone it ->
  drain it fuel s = (l, Done r, s') ->
  exists fuel0,
    forall fuel', fuel0 <= fuel' ->
      drain (filter predicate it) fuel' s = (List.filter predicate l, Done None, s').
Proof. intros Hm H. exact (filter_drains Hm predicate _ _ H). Qed.

Lemma filter_gives_kept_items_witness :
  let u := tester 0 "t" (Collect (passing "a") Return) 1 in
  exists fuel0,
    forall fuel', fuel0 <= fuel' ->
      drain (filter keep next) fuel' u
      = (List.filter keep (fst (fst (drain next 9 u))), Done None, snd (drain next 9 u)).
Proof.
  intro u.
  apply (@filter_gives_kept_items _ _ _ next keep 9 u (snd (drain next 9 u))
                                  (fst (fst (drain next 9 u)))
                                  (Some (Result.mk 1 true "t" (Some 1)))).
  - exact next_monotone.
  - vm_compute. reflexivity.
Defined.

(** [X2] When an iterator that answers the same with a larger bound
    gives the items [l] and then ends, [map(f)] of it, for a function [f]
    without side effects, gives the images of the items of [l] in the
    same order, and then ends without a value, leaving the iterator in
    the state in which it ended; this holds for every large enough
    bound. *)
Theorem map_gives_mapped_items
        (St V W R : Type) (it : iterator St V R) (f : V -> W)
        (fuel : nat) (s s' : St) (l : list V) (r : option R) :
  monotone it ->
  drain it fuel s = (l, Done r, s') ->
  exists fuel0,
    forall fuel', fuel0 <= fuel' ->
      drain (map (pure f) it) fuel' s = (List.map f l, Done None, s').
Proof. intros Hm H. exact (map_drains Hm f _ _ H). Qed.

Lemma map_gives_mapped_items_witness :
  let u := tester 2 "t" (Collect (passing "a") Return) 1 in
  exists fuel0,
    forall fuel', fuel0 <= fuel' ->
      drain (map (pure resetOffset) next) fuel' u
      = (List.map resetOffset (fst (fst (drain next 9 u))), Done None, snd (drain next 9 u)).
Proof.
  intro u.
  apply (@map_gives_mapped_items _ _ _ _ next resetOffset 9 u (snd (drain next 9 u))
                                 (fst (fst (drain next 9 u)))
                                 (Some (Result.mk 1 true "t" (Some 1)))).
  - exact next_monotone.
  - vm_compute. reflexivity.
Defined.

(* ================================================================== *)
(** ** The end of a sequence, once signalled *)

Section CombineEnd.
Variables I F V R : Type.
Variable inext : nat -> I -> step V R * I.

Lemma combine_end_state (fuel : nat) :
  forall (s s' : combined I * F) (r : option R),
    combine_next inext fuel s = (Done r, s') -> current (fst s') = None /\ r = None.
Proof.
  induction fuel as [|fuel IH]; intros [c frame] s' r H; [discriminate H|].
  rewrite combine_next_unfold in H.
  destruct (current c) as [cur|] eqn:Hc.
  - destruct (inext fuel cur) as [[v|r1|err|] cur']; try discriminate H.
    exact (IH _ _ _ H).
  - inversion H; subst. auto.
Qed.

Lemma combine_after_end (fuel : nat) (s s' : combined I * F) (r : option R) :
  combine_next inext fuel s = (Done r, s') ->
  forall fuel', combine_next inext (S fuel') s' = (Done None, s').
Proof.
  intros H fuel'. destruct (combine_end_state _ _ H) as [Hc _].
  destruct s' as [c frame]. rewrite combine_next_unfold. cbn in Hc. rewrite Hc.
  reflexivity.
Qed.
End CombineEnd.

(** [X3] [combine()] of no iterator ends at the first pull.  Once the
    sequence made by [combine] has signalled its end, every later pull
    signals the end again, without a value, and changes nothing: no
    iterator is pulled any more. *)
Theorem combine_end_is_final
        (I F V R : Type) (inext : nat -> I -> step V R * I) :
  (forall (fuel : nat) (frame : F),
      combine_next inext (S fuel) (combine [], frame) = (Done None, (combine [], frame)))
  /\ (forall (fuel : nat) (s s' : combined I * F) (r : option R),
         combine_next inext fuel s = (Done r, s') ->
         forall fuel', combine_next inext (S fuel') s' = (Done None, s')).
Proof.
  split.
  - reflexivity.
  - intros fuel s s' r H. exact (combine_after_end _ _ _ H).
Qed.

Lemma combine_end_is_final_witness :
  let u := after_pulls 3 9 (tester 0 "t" Return 1) in
  merged 2 (combine [u], mkCounters 0 0 0) = (Done None, (combine [], mkCounters 0 0 0))
  /\ forall fuel',
       merged (S fuel') (combine [], mkCounters 0 0 0)
       = (Done None, (combine [], mkCounters 0 0 0)).
Proof.
  intro u.
  assert (H0 : merged 2 (combine [u], mkCounters 0 0 0)
               = (Done None, (combine [], mkCounters 0 0 0)))
    by (vm_compute; reflexivity).
  split; [exact H0|].
  destruct (@combine_end_is_final instance counters event Result.t next) as [_ H].
  exact (H 2 _ _ None H0).
Defined.

(** A pull on a unit never rejects and never ends without a summary;
    when it ends, the buffer is empty, the unit is finished and the
    summary is its result. *)
Lemma next_answers (fuel : nat) :
  forall (u u' : instance) (r : step event Result.t),
    next fuel u = (r, u') ->
    match r with
    | Failed _ => False
    | Done None => False
    | Done (Some value) => buffer u' = [] /\ done u' = true /\ value = result u'
    | _ => True
    end.
Proof.
  induction fuel as [|fuel IH]; intros u u' r H.
  - cbn in H. inversion H; subst. exact I.
  - rewrite next_unfold in H.
    destruct (buffer u) as [|[e|delegate] rest] eqn:Hb.
    + destruct (done u) eqn:Hd.
      * inversion H; subst. auto.
      * exact (IH _ _ _ H).
    + inversion H; subst. exact I.
    + destruct (next fuel delegate) as [[v|[value|]|err|] delegate'] eqn:E.
      * inversion H; subst. exact I.
      * destruct (subTestAssertion delegate' value u) as [e u1].
        exact (IH _ _ _ H).
      * destruct (IH _ _ _ E).
      * destruct (IH _ _ _ E).
      * inversion H; subst. exact I.
Qed.

Lemma next_after_end (fuel : nat) (u u' : instance) (r : option Result.t) :
  next fuel u = (Done r, u') ->
  forall fuel', next (S fuel') u' = (Done r, u').
Proof.
  intros H fuel'. pose proof (next_answers _ _ H) as A. cbn in A.
  destruct r as [value|]; [|contradiction].
  destruct A as (Hb & Hd & ->).
  rewrite next_unfold, Hb, Hd. reflexivity.
Qed.

Lemma merged_answers (fuel : nat) :
  forall (s s' : state) (r : step event Result.t),
    merged fuel s = (r, s') ->
    match r with
    | Failed _ => False
    | Done _ => current (fst s') = None
    | _ => True
    end.
Proof.
  unfold merged.
  induction fuel as [|fuel IH]; intros [c k] s' r H.
  - cbn in H. inversion H; subst. exact I.
  - rewrite combine_next_unfold in H.
    destruct (current c) as [cur|] eqn:Hc.
    + destruct (next fuel cur) as [[v|r1|err|] cur'] eqn:E.
      * inversion H; subst. exact I.
      * exact (IH _ _ _ H).
      * destruct (next_answers _ _ E).
      * inversion H; subst. exact I.
    + inversion H; subst. exact Hc.
Qed.

Section NeverFails.
Variables St V W R : Type.
Variable it : iterator St V R.
Hypothesis it_never_fails : forall fuel s err s', it fuel s <> (Failed err, s').

Lemma filter_never_fails (predicate : V -> bool) :
  forall fuel s err s', filter predicate it fuel s <> (Failed err, s').
Proof.
  induction fuel as [|fuel IH]; intros s err s' H; [discriminate H|].
  cbn [filter] in H.
  destruct (it fuel s) as [[v|r1|e|] s1] eqn:E; try discriminate H.
  - destruct (negb (predicate v)); [exact (IH _ _ _ H)|discriminate H].
  - exact (it_never_fails E).
Qed.

Lemma map_never_fails (mapFn : V -> St -> W * St) :
  forall fuel s err s', map mapFn it fuel s <> (Failed err, s').
Proof.
  intros [|fuel] s err s' H; [discriminate H|].
  cbn [map] in H.
  destruct (it fuel s) as [[v|r1|e|] s1] eqn:E; try discriminate H.
  - destruct (mapFn v s1). discriminate H.
  - exact (it_never_fails E).
Qed.
End NeverFails.

Lemma merged_never_fails :
  forall fuel s err s', merged fuel s <> (Failed err, s').
Proof. intros fuel s err s' H. exact (merged_answers _ _ H). Qed.

Lemma outputStream_never_fails (flatten : bool) :
  forall fuel s err s', outputStream flatten fuel s <> (Failed err, s').
Proof.
  unfold outputStream. apply map_never_fails, filter_never_fails.
  destruct flatten.
  - apply map_never_fails, filter_never_fails, merged_never_fails.
  - apply merged_never_fails.
Qed.

(** [X4] A pull on a unit never rejects, and never ends the sequence
    without a summary; so the destructuring of the summary in
    [handleDelegate] never fails.  The merged stream and the output
    stream of [start] never reject either. *)
Theorem next_never_rejects (fuel : nat) (err : value) :
  (forall u : instance,
      fst (next fuel u) <> Failed err /\ fst (next fuel u) <> Done None)
  /\ (forall s : state, fst (merged fuel s) <> Failed err)
  /\ (forall (flatten : bool) (s : state), fst (outputStream flatten fuel s) <> Failed err).
Proof.
  split; [|split].
  - intro u. destruct (next fuel u) as [r u'] eqn:E.
    pose proof (next_answers _ _ E) as A. cbn [fst].
    split; intro H; subst r; exact A.
  - intros s H. destruct (merged fuel s) as [r s'] eqn:E. cbn [fst] in H. subst r.
    exact (merged_never_fails _ _ E).
  - intros flatten s H. destruct (outputStream flatten fuel s) as [r s'] eqn:E.
    cbn [fst] in H. subst r. exact (outputStream_never_fails _ _ _ E).
Qed.

(** [X5] When a pull on a unit ends the sequence, the summary is the
    result of the unit, and every later pull ends the sequence again
    with the same summary and leaves the unit as it is. *)
Theorem next_end_is_final (fuel : nat) (u u' : instance) (r : option Result.t) :
  next fuel u = (Done r, u') ->
  r = Some (result u')
  /\ forall fuel', next (S fuel') u' = (Done r, u').
Proof.
  intro H. split.
  - pose proof (next_answers _ _ H) as A. cbn in A. destruct r as [value|]; [|contradiction].
    destruct A as (_ & _ & ->). reflexivity.
  - intro fuel'. eapply next_after_end. exact H.
Qed.

Lemma next_end_is_final_witness :
  let u := after_pulls 3 9 (tester 0 "t" Return 1) in
  next 1 u = (Done (Some (result u)), u)
  /\ forall fuel', next (S fuel') u = (Done (Some (result u)), u).
Proof.
  intro u.
  assert (H0 : next 1 u = (Done (Some (result u)), u)) by (vm_compute; reflexivity).
  split; [exact H0|].
  destruct (@next_end_is_final 1 u u (Some (result u)) H0) as [_ H]. exact H.
Defined.

(* ================================================================== *)
(** ** The sequence of a unit whose bodies return *)

(** What a unit whose bodies return has to give when it has just been
    built, and the summary it is heading for. *)
Lemma tester_events (offset : nat) (d : string) (spec : body) (el : nat) :
  returns spec = true ->
  events (tester offset d spec el)
  = (mkEvent (Title d) (Some offset)
       :: body_events offset 0 spec
       ++ [mkEvent (Plan 1 (body_count spec)) (Some offset);
           mkEvent (Time el) (Some offset)])%list
  /\ final (tester offset d spec el)
     = Result.mk (body_count spec) (all_pass spec) d (Some el).
Proof.
  intro Hr.
  destruct (tester_facts offset d spec el Hr) as (_ & Ho & _).
  revert Ho. unfold tester.
  destruct (run false spec (fresh offset d spec el)) as [u left] eqn:E.
  intro Ho.
  destruct (run_shape _ _ _ E) as (E1 & E2 & E3 & E4 & E5).
  destruct (run_events _ _ _ Hr E) as (R1 & R2 & R3 & R4).
  cbn [unit_offset fresh buffer result Result.count Result.description] in *.
  split.
  - rewrite events_eq.
    cbn [with_coRoutine unit_offset buffer coRoutine result elapsed].
    rewrite E1, E4. cbn [fresh elapsed].
    rewrite app_assoc, R1, R2. reflexivity.
  - unfold final. rewrite Ho.
    cbn [with_coRoutine unit_offset buffer coRoutine result elapsed].
    rewrite R2, R3, E4. reflexivity.
Qed.

Lemma unit_drain (offset : nat) (d : string) (spec : body) (el : nat) (fuel : nat) :
  returns spec = true ->
  body_work spec + 6 <= fuel ->
  exists u',
    drain next fuel (tester offset d spec el)
    = ((mkEvent (Title d) (Some offset)
          :: body_events offset 0 spec
          ++ [mkEvent (Plan 1 (body_count spec)) (Some offset);
              mkEvent (Time el) (Some offset)])%list,
       Done (Some (Result.mk (body_count spec) (all_pass spec) d (Some el))),
       u').
Proof.
  intros Hr Hf.
  destruct (tester_facts offset d spec el Hr) as (Hh & _ & Hw).
  destruct (tester_events offset d spec el Hr) as (He & Hfin).
  destruct (drain_events (fuel := fuel) _ Hh ltac:(lia)) as (u' & D).
  exists u'. rewrite D, He, Hfin. reflexivity.
Qed.

(** [X6] The sequence of a unit whose bodies, its own and those of its
    sub tests, all return.  It gives the title; then what the body does
    in the order of the program: for an assertion an [assert] event with
    the next id, and for a sub test the whole sequence of the sub test
    one level deeper followed, at the level of the unit, by the
    [testAssert] event that carries the next id, the description of the
    sub test, the conjunction of its results and its duration; then the
    plan from 1 to the number of items and the time.  It ends with the
    summary: the number of items, the conjunction of all the results,
    the description and the duration.  This holds for every bound from
    [body_work spec + 6] on. *)
Theorem unit_sequence (offset : nat) (d : string) (spec : body) (el : nat) (fuel : nat) :
  returns spec = true ->
  body_work spec + 6 <= fuel ->
  exists u',
    drain next fuel (tester offset d spec el)
    = ((mkEvent (Title d) (Some offset)
          :: body_events offset 0 spec
          ++ [mkEvent (Plan 1 (body_count spec)) (Some offset);
              mkEvent (Time el) (Some offset)])%list,
       Done (Some (Result.mk (body_count spec) (all_pass spec) d (Some el))),
       u').
Proof. apply unit_drain. Qed.

Lemma unit_sequence_witness :
  exists u',
    drain next 20 (tester 0 "parent" nested 5)
    = ((mkEvent (Title "parent") (Some 0)
          :: body_events 0 0 nested
          ++ [mkEvent (Plan 1 (body_count nested)) (Some 0);
              mkEvent (Time 5) (Some 0)])%list,
       Done (Some (Result.mk (body_count nested) (all_pass nested) "parent" (Some 5))),
       u').
Proof.
  apply (@unit_sequence 0 "parent" nested 5 20).
  - reflexivity.
  - vm_compute. repeat constructor.
Defined.

Lemma without_waits_facts (b : body) :
  returns (without_waits b) = returns b
  /\ all_pass (without_waits b) = all_pass b
  /\ body_count (without_waits b) = body_count b
  /\ body_work (without_waits b) = body_work b
  /\ forall offset n, body_events offset n (without_waits b) = body_events offset n b.
Proof.
  induction b as [|err rest _|a rest IH|d sub IHsub el awaited rest IH|rest IH];
    cbn [without_waits returns all_pass body_count body_work body_events].
  - auto.
  - auto.
  - destruct IH as (A & B & C & D & E). rewrite A, B, C, D.
    repeat split. intros. rewrite E. reflexivity.
  - destruct IH as (A & B & C & D & E). destruct IHsub as (A' & B' & C' & D' & E').
    rewrite A, B, C, D, A', B', C', D'.
    repeat split. intros. rewrite !E, !E'. reflexivity.
  - exact IH.
Qed.

(** [X7] Two bodies that make the same calls in the same order and
    differ only in where they wait, for a timer or for a sub test, give
    the same sequence of events and the same summary, provided no body
    raises. *)
Theorem waits_do_not_matter (offset : nat) (d : string) (b1 b2 : body) (el : nat)
        (fuel : nat) :
  returns b1 = true ->
  without_waits b1 = without_waits b2 ->
  body_work b1 + 6 <= fuel ->
  fst (drain next fuel (tester offset d b1 el))
  = fst (drain next fuel (tester offset d b2 el)).
Proof.
  intros Hr Hw Hf.
  destruct (without_waits_facts b1) as (A1 & B1 & C1 & D1 & E1).
  destruct (without_waits_facts b2) as (A2 & B2 & C2 & D2 & E2).
  assert (Hr2 : returns b2 = true) by (rewrite <- A2, <- Hw, A1; exact Hr).
  assert (Hf2 : body_work b2 + 6 <= fuel) by (rewrite <- D2, <- Hw, D1; exact Hf).
  destruct (@unit_drain offset d b1 el fuel Hr Hf) as [u1 U1].
  destruct (@unit_drain offset d b2 el fuel Hr2 Hf2) as [u2 U2].
  rewrite U1, U2. cbn [fst].
  rewrite <- E1, <- C1, <- B1, Hw, E2, C2, B2. reflexivity.
Qed.

Lemma waits_do_not_matter_witness :
  fst (drain next 20 (tester 0 "t" (Collect (passing "a")
                                      (Await (SubTest "s" (Await Return) 1 true Return))) 5))
  = fst (drain next 20 (tester 0 "t" (Collect (passing "a")
                                        (SubTest "s" Return 1 false Return)) 5)).
Proof.
  apply waits_do_not_matter.
  - reflexivity.
  - reflexivity.
  - vm_compute. repeat constructor.
Defined.

(** The events of a body are at the offset of its unit or deeper, and
    the test points at the offset of the unit carry the ids that follow
    the count, one by one. *)
Lemma body_events_levels (b : body) :
  forall o n,
    forallb (at_least o) (body_events o n b) = true
    /\ List.map data_id
                (List.filter (fun e => at_level o e && test_point e)
                             (body_events o n b))
       = List.map Some (seq (S n) (body_count b)).
Proof.
  induction b as [|err rest _|a rest IH|d sub IHsub el awaited rest IH|rest IH];
    intros o n; cbn [body_events body_count].
  - auto.
  - auto.
  - destruct (IH o (S n)) as (A & B).
    cbn [forallb List.filter at_least at_level test_point type offset data].
    rewrite Nat.leb_refl, Nat.eqb_refl. cbn.
    rewrite A, B. auto.
  - destruct (IH o (S n)) as (A & B). destruct (IHsub (S o) 0) as (A' & B').
    assert (Deeper : forall l, forallb (at_least (S o)) l = true ->
                               forallb (at_least o) l = true
                               /\ List.filter (fun e => at_level o e && test_point e) l
                                  = []).
    { induction l as [|e l IHl]; [auto|]. cbn [forallb List.filter].
      intro H. apply andb_true_iff in H. destruct H as [He Hl].
      destruct (IHl Hl) as (I1 & I2). rewrite I1, I2.
      unfold at_least in He. unfold at_least, at_level.
      destruct (offset e) as [k|]; [|discriminate He].
      apply Nat.leb_le in He.
      replace (Nat.leb o k) with true by (symmetry; apply Nat.leb_le; lia).
      replace (Nat.eqb k o) with false by (symmetry; apply Nat.eqb_neq; lia).
      auto. }
    set (inner := (mkEvent (Title d) (Some (S o))
                     :: body_events (S o) 0 sub
                     ++ [mkEvent (Plan 1 (body_count sub)) (Some (S o));
                         mkEvent (Time el) (Some (S o))])%list).
    assert (Hin : forallb (at_least (S o)) inner = true).
    { unfold inner. cbn [forallb]. rewrite forallb_app, A'.
      cbn. rewrite Nat.leb_refl. reflexivity. }
    destruct (Deeper _ Hin) as (D1 & D2).
    rewrite forallb_app, filter_app, D1, D2.
    cbn [forallb List.filter at_least at_level test_point type offset data app].
    rewrite Nat.leb_refl, Nat.eqb_refl. cbn.
    rewrite A, B. auto.
  - apply IH.
Qed.

(** [X8] In the sequence of a unit at offset [o] whose bodies return,
    the assertions and the sub test assertions at offset [o] carry the
    ids 1, 2, ... in the order of the sequence; every event has an
    offset, which is [o] or more; and the sequence ends with the plan
    from 1 to the number of these test points, followed by the time. *)
Theorem own_points_are_numbered (o : nat) (d : string) (spec : body) (el : nat)
        (fuel : nat) :
  returns spec = true ->
  body_work spec + 6 <= fuel ->
  let l := fst (fst (drain next fuel (tester o d spec el))) in
  let own := List.filter (fun e => at_level o e && test_point e) l in
  List.map data_id own = List.map Some (seq 1 (List.length own))
  /\ forallb (at_least o) l = true
  /\ exists front,
       l = (front ++ [mkEvent (Plan 1 (List.length own)) (Some o);
                      mkEvent (Time el) (Some o)])%list.
Proof.
  intros Hr Hf. cbv zeta.
  destruct (@unit_drain o d spec el fuel Hr Hf) as [u' D]. rewrite D. cbn [fst].
  destruct (body_events_levels spec o 0) as [A B].
  assert (Own : List.filter (fun e => at_level o e && test_point e)
                            (mkEvent (Title d) (Some o)
                               :: body_events o 0 spec
                               ++ [mkEvent (Plan 1 (body_count spec)) (Some o);
                                   mkEvent (Time el) (Some o)])
                = List.filter (fun e => at_level o e && test_point e)
                              (body_events o 0 spec)).
  { assert (T1 : forall x, test_point (mkEvent (Title d) x) = false) by reflexivity.
    assert (T2 : forall a b x, test_point (mkEvent (Plan a b) x) = false) by reflexivity.
    assert (T3 : forall a x, test_point (mkEvent (Time a) x) = false) by reflexivity.
    cbn [List.filter]. rewrite filter_app. cbn [List.filter].
    rewrite T1, T2, T3, !andb_false_r. apply app_nil_r. }
  rewrite Own.
  assert (Len : List.length (List.filter (fun e => at_level o e && test_point e)
                                         (body_events o 0 spec))
                = body_count spec).
  { apply (f_equal (@List.length _)) in B. rewrite !length_map, length_seq in B. exact B. }
  rewrite Len. split; [exact B|]. split.
  - cbn [forallb]. rewrite forallb_app, A. unfold at_least. cbn [offset forallb].
    rewrite Nat.leb_refl. reflexivity.
  - exists (mkEvent (Title d) (Some o) :: body_events o 0 spec). reflexivity.
Qed.

Lemma own_points_are_numbered_witness :
  let l := fst (fst (drain next 20 (tester 0 "parent" nested 5))) in
  let own := List.filter (fun e => at_level 0 e && test_point e) l in
  List.map data_id own = List.map Some (seq 1 (List.length own))
  /\ forallb (at_least 0) l = true
  /\ exists front,
       l = (front ++ [mkEvent (Plan 1 (List.length own)) (Some 0);
                      mkEvent (Time 5) (Some 0)])%list.
Proof.
  apply (@own_points_are_numbered 0 "parent" nested 5 20).
  - reflexivity.
  - vm_compute. repeat constructor.
Defined.

(* ================================================================== *)
(** ** The sequence of a unit whose body raises *)

Lemma run_ending (b : body) :
  forall (flush : bool) (u : instance),
    ending_of (snd (run flush b u)) = ending_of b
    /\ (flush = true -> snd (run flush b u) = ending_of b).
Proof.
  induction b as [|err rest _|a rest IH|d sub IHsub el awaited rest IH|rest IH];
    intros flush u; cbn [run ending_of].
  - auto.
  - auto.
  - apply IH.
  - destruct (run (flush && awaited) sub (fresh (S (unit_offset u)) d sub el)) as [c left].
    destruct flush, awaited; cbn [andb negb snd]; try apply IH.
    split; [reflexivity|discriminate].
  - destruct flush; [apply IH|]. cbn [snd]. split; [reflexivity|discriminate].
Qed.

Lemma doomed_await (u : instance) : doomed u -> doomed (await_coRoutine u).
Proof.
  intros [Hd Hc]. unfold await_coRoutine.
  destruct (coRoutine u) as [rest|b] eqn:E.
  - destruct Hc as (err & after & Hc).
    destruct (run true rest u) as [u1 left] eqn:R.
    destruct (run_ending rest true u) as [_ L]. rewrite R in L. cbn [snd] in L.
    rewrite (L eq_refl), Hc. cbn [settle].
    destruct (run_shape _ _ _ R) as (_ & Rd & _).
    split; [|exact I]. cbn. rewrite Rd. exact Hd.
  - split; [exact Hd|]. rewrite E. exact I.
Qed.

(** A pull keeps a unit doomed, and does not end its sequence. *)
Lemma doomed_next (fuel : nat) :
  forall (u u' : instance) (r : step event Result.t),
    doomed u ->
    next fuel u = (r, u') ->
    doomed u' /\ forall value, r <> Done value.
Proof.
  induction fuel as [|fuel IH]; intros u u' r Hu H.
  - cbn in H. inversion H; subst. split; [exact Hu|discriminate].
  - rewrite next_unfold in H.
    destruct (buffer u) as [|[e|delegate] rest] eqn:Hb.
    + destruct Hu as [Hd Hc]. rewrite Hd in H.
      apply (IH _ _ _ (doomed_await (conj Hd Hc)) H).
    + inversion H; subst. split; [exact Hu|discriminate].
    + destruct (next fuel delegate) as [[v|[value|]|err|] delegate'] eqn:E.
      * inversion H; subst. split; [exact Hu|discriminate].
      * destruct (subTestAssertion delegate' value u) as [e u1] eqn:Es.
        apply (IH _ _ _) in H; [exact H|].
        unfold subTestAssertion, createAssertion in Es. inversion Es; subst.
        exact Hu.
      * inversion H; subst. split; [exact Hu|discriminate].
      * inversion H; subst. split; [exact Hu|discriminate].
      * inversion H; subst. split; [exact Hu|discriminate].
Qed.

Lemma doomed_drain (fuel : nat) :
  forall u : instance,
    doomed u -> exists l u', drain next fuel u = (l, Blocked, u').
Proof.
  induction fuel as [|fuel IH]; intros u Hu.
  - exists [], u. reflexivity.
  - rewrite drain_unfold. destruct (next fuel u) as [r u1] eqn:E.
    destruct (doomed_next _ Hu E) as [Hu1 Hr].
    pose proof (next_answers _ _ E) as A.
    destruct r as [v|value|err|].
    + destruct (IH u1 Hu1) as (l & u' & D). rewrite D. eauto.
    + destruct (Hr value eq_refl).
    + destruct A.
    + eauto.
Qed.

Lemma doomed_tester (o : nat) (d : string) (spec : body) (el : nat)
      (err : value) (after : body) :
  ending_of spec = Throw err after -> doomed (tester o d spec el).
Proof.
  intro H. unfold tester.
  destruct (run false spec (fresh o d spec el)) as [u left] eqn:R.
  destruct (run_shape _ _ _ R) as (_ & Rd & _).
  destruct (run_ending spec false (fresh o d spec el)) as [L _].
  rewrite R in L. cbn [snd] in L.
  split.
  - cbn. rewrite Rd. reflexivity.
  - cbn. exists err, after. rewrite L. exact H.
Qed.

(** [X9] The sequence of a unit whose body raises never signals its
    end: whatever the bound, pulling it until it stops ends on a pull
    that has no answer. *)
Theorem raising_unit_never_ends (o : nat) (d : string) (spec : body) (el : nat)
        (err : value) (after : body) :
  ending_of spec = Throw err after ->
  forall fuel, exists l u', drain next fuel (tester o d spec el) = (l, Blocked, u').
Proof.
  intros H fuel. apply doomed_drain. exact (@doomed_tester o d spec el err after H).
Qed.

Lemma raising_unit_never_ends_witness :
  exists l u',
    drain next 50
          (tester 0 "t" (Collect (passing "a")
                           (SubTest "s" (Collect (passing "b") Return) 1 true
                              (Throw boom Return))) 5)
    = (l, Blocked, u').
Proof.
  apply (@raising_unit_never_ends
           0 "t"
           (Collect (passing "a")
              (SubTest "s" (Collect (passing "b") Return) 1 true (Throw boom Return)))
           5 boom Return eq_refl 50).
Defined.

(* ================================================================== *)
(** ** What [start] has reported when it stops *)

Lemma bailout_type (ev : event) (err : value) :
  data ev = Bailout err -> is_bailout ev = true /\ numbered ev = false.
Proof.
  intro H. unfold is_bailout, numbered, type. rewrite H. split; [reflexivity|].
  cbn. apply andb_false_r.
Qed.

Lemma not_bailout (ev : event) :
  (forall err, data ev <> Bailout err) -> is_bailout ev = false.
Proof.
  intro H. unfold is_bailout, type. destruct (data ev); try reflexivity.
  destruct (H error eq_refl).
Qed.

Lemma is_bailout_data (ev : event) :
  is_bailout ev = true -> exists err, data ev = Bailout err.
Proof.
  unfold is_bailout, type. destruct (data ev); try discriminate. eauto.
Qed.

Lemma bailout_yield (flatten : bool) (fuel : nat) (s s' : state) (ev : event) :
  outputStream flatten fuel s = (Yield ev, s') ->
  is_bailout ev = true ->
  flatten = false /\ offset_positive ev = true.
Proof.
  intros H Hb. unfold is_bailout in Hb. apply String.eqb_eq in Hb.
  destruct flatten.
  - pose proof H as F. apply flattened_yield in F. destruct F as [Ho _].
    unfold outputStream in H.
    apply map_yield in H. destruct H as (f1 & v & s1 & _ & Hf & Hr).
    apply renumber_shape in Hr. destruct Hr as (Ht & Ho' & _).
    apply filter_yield in Hf. destruct Hf as (Hk & _).
    unfold keep, offset_positive in Hk. rewrite <- Ho', Ho, <- Ht, Hb in Hk.
    discriminate Hk.
  - split; [reflexivity|].
    unfold outputStream in H.
    apply map_yield in H. destruct H as (f1 & v & s1 & _ & Hf & Hr).
    apply renumber_shape in Hr. destruct Hr as (Ht & Ho' & _).
    apply filter_yield in Hf. destruct Hf as (Hk & _).
    unfold keep in Hk. rewrite <- Ht, Hb in Hk. cbn in Hk.
    rewrite orb_false_r in Hk. unfold offset_positive in *. rewrite Ho'. exact Hk.
Qed.

Lemma pull_loop_step (flatten : bool) (fuel : nat) (s s1 : state) (ev : event)
      (log : list event) :
  outputStream flatten fuel s = (Yield ev, s1) ->
  is_bailout ev = false ->
  pull_loop flatten (S fuel) s log = pull_loop flatten fuel s1 (log ++ [ev])%list.
Proof.
  intros E B. rewrite pull_loop_unfold, E.
  unfold is_bailout, type in B. destruct (data ev); try reflexivity.
  discriminate B.
Qed.

(** What the loop of [start] has reported when it stops, and the
    counters then: the log grows by events that are no [bailout], the
    numbered ones carrying the ids that follow the count; the loop
    completes with the plan and the comment, or rejects on a [bailout]
    event, which has a positive offset and comes without flattening. *)
Lemma pull_loop_log (flatten : bool) (fuel : nat) :
  forall (s s' : state) (log log' : list event) (o : outcome),
    pull_loop flatten fuel s log = (log', o, s') ->
    exists l : list event,
      existsb is_bailout l = false
      /\ List.map data_id (List.filter numbered l)
         = List.map Some (seq (S (count (snd s))) (List.length (List.filter numbered l)))
      /\ count (snd s') = count (snd s) + List.length (List.filter numbered l)
      /\ success (snd s')
         = success (snd s) + List.length (List.filter data_pass (List.filter numbered l))
      /\ failure (snd s')
         = failure (snd s)
           + List.length (List.filter (fun ev => negb (data_pass ev))
                                      (List.filter numbered l))
      /\ match o with
         | Completed =>
             log' = (log ++ l ++ [mkEvent (Plan 1 (count (snd s'))) None;
                                  mkEvent (Comment (verdict (snd s'))) None])%list
         | Rejected err =>
             exists ev, log' = (log ++ l ++ [ev])%list
                        /\ data ev = Bailout err
                        /\ offset_positive ev = true
                        /\ flatten = false
         | Unresolved => log' = (log ++ l)%list
         end.
Proof.
  induction fuel as [|fuel IH]; intros s s' log log' o H.
  - cbn in H. inversion H; subst. exists []. cbn. rewrite app_nil_r.
    repeat split; lia.
  - destruct (outputStream flatten fuel s) as [r s1] eqn:E.
    pose proof (outputStream_pull _ _ _ E) as P.
    destruct r as [ev|r|err|].
    + destruct (is_bailout ev) eqn:B.
      * destruct (is_bailout_data _ B) as [err Hd].
        rewrite pull_loop_unfold, E, Hd in H. inversion H; subst.
        destruct (bailout_type _ Hd) as (_ & B2).
        destruct (bailout_yield _ _ _ E B) as (F1 & F2).
        rewrite B2 in P. rewrite P.
        exists []. cbn. repeat split; try lia.
        exists ev. auto.
      * rewrite (@pull_loop_step flatten fuel s s1 ev log E B) in H.
        apply IH in H. destruct H as (l & L1 & L2 & L3 & L4 & L5 & L6).
        exists (ev :: l).
        cbn [existsb List.filter]. rewrite B, L1.
        split; [reflexivity|].
        assert (L6' : match o with
                      | Completed =>
                          log' = (log ++ (ev :: l)
                                  ++ [mkEvent (Plan 1 (count (snd s'))) None;
                                      mkEvent (Comment (verdict (snd s'))) None])%list
                      | Rejected err =>
                          exists ev0, log' = (log ++ (ev :: l) ++ [ev0])%list
                                      /\ data ev0 = Bailout err
                                      /\ offset_positive ev0 = true
                                      /\ flatten = false
                      | Unresolved => log' = (log ++ ev :: l)%list
                      end).
        { destruct o.
          - rewrite L6, <- app_assoc. reflexivity.
          - destruct L6 as (ev0 & X1 & X2). exists ev0. split; [|exact X2].
            rewrite X1, <- app_assoc. reflexivity.
          - rewrite L6, <- app_assoc. reflexivity. }
        refine (conj _ (conj _ (conj _ (conj _ L6')))).
        -- destruct (numbered ev) eqn:N.
           ++ destruct P as (P1 & P2 & P3 & P4).
              cbn [List.map List.length seq]. rewrite P1, L2, P2. reflexivity.
           ++ rewrite P in *. exact L2.
        -- destruct (numbered ev) eqn:N.
           ++ destruct P as (P1 & P2 & P3 & P4). cbn [List.length]. lia.
           ++ rewrite P in *. exact L3.
        -- destruct (numbered ev) eqn:N.
           ++ destruct P as (P1 & P2 & P3 & P4). cbn [List.filter].
              destruct (data_pass ev); cbn [List.length]; lia.
           ++ rewrite P in *. exact L4.
        -- destruct (numbered ev) eqn:N.
           ++ destruct P as (P1 & P2 & P3 & P4). cbn [List.filter].
              destruct (data_pass ev); cbn [negb List.length]; lia.
           ++ rewrite P in *. exact L5.
    + rewrite pull_loop_unfold, E in H. inversion H; subst.
      rewrite P. exists []. cbn. repeat split; lia.
    + destruct (outputStream_never_fails _ _ _ E).
    + rewrite pull_loop_unfold, E in H. inversion H; subst.
      rewrite P. exists []. cbn. rewrite app_nil_r.
      repeat split; lia.
Qed.

(** [X10] [start] rejects only after [test.test] has been used, the
    stream not being flattened, and then with the error carried by a
    [bailout] event of positive offset, which is the last event given to
    the reporter; no [bailout] event is reported before it. *)
Theorem start_rejects_on_bailout (fuel : nat) (m : registry) (err : value) :
  tests m <> [] ->
  snd (start fuel m) = Rejected err ->
  flatten m = false
  /\ exists (front : list event) (ev : event),
       fst (start fuel m) = (front ++ [ev])%list
       /\ data ev = Bailout err
       /\ offset_positive ev = true
       /\ existsb is_bailout front = false.
Proof.
  intros Ht H. unfold start in *.
  destruct (tests m) as [|root others]; [congruence|].
  destruct (next fuel root) as [r root'] eqn:E.
  pose proof (next_answers _ _ E) as A.
  destruct r as [v|r|e|]; try (destruct A; fail); try discriminate H.
  - destruct (pull_loop (flatten m) fuel (combine (root' :: others), mkCounters 0 0 0)
                        [mkEvent (Version 13) None]) as [[log o] s'] eqn:P.
    cbn [fst snd] in *. subst o.
    apply pull_loop_log in P. destruct P as (l & L1 & _ & _ & _ & _ & ev & X1 & X2 & X3 & X4).
    split; [exact X4|].
    exists (mkEvent (Version 13) None :: l), ev.
    rewrite X1. cbn [existsb]. rewrite L1. auto.
  - destruct (pull_loop (flatten m) fuel (combine (root' :: others), mkCounters 0 0 0)
                        [mkEvent (Version 13) None]) as [[log o] s'] eqn:P.
    cbn [fst snd] in *. subst o.
    apply pull_loop_log in P. destruct P as (l & L1 & _ & _ & _ & _ & ev & X1 & X2 & X3 & X4).
    split; [exact X4|].
    exists (mkEvent (Version 13) None :: l), ev.
    rewrite X1. cbn [existsb]. rewrite L1. auto.
Qed.

Lemma start_rejects_on_bailout_witness :
  let m := load 0 [Bsd "parent" failing_child 5] in
  flatten m = false
  /\ exists (front : list event) (ev : event),
       fst (start 30 m) = (front ++ [ev])%list
       /\ data ev = Bailout boom
       /\ offset_positive ev = true
       /\ existsb is_bailout front = false.
Proof.
  intro m. apply (@start_rejects_on_bailout 30 m boom).
  - vm_compute. discriminate.
  - vm_compute. reflexivity.
Defined.

(** The log of a call of [start] that completes. *)
Lemma start_completed (fuel : nat) (m : registry) (log : list event) :
  start fuel m = (log, Completed) ->
  exists reported : list event,
    let points := List.filter numbered reported in
    let k := mkCounters (List.length points)
                        (List.length (List.filter data_pass points))
                        (List.length (List.filter (fun ev => negb (data_pass ev)) points)) in
    log = (mkEvent (Version 13) None
             :: reported
             ++ [mkEvent (Plan 1 (count k)) None; mkEvent (Comment (verdict k)) None])%list
    /\ List.map data_id points = List.map Some (seq 1 (List.length points))
    /\ existsb is_bailout reported = false.
Proof.
  unfold start. intro H.
  destruct (tests m) as [|root others]; [discriminate H|].
  destruct (next fuel root) as [r root'] eqn:E.
  assert (P : fst (pull_loop (flatten m) fuel (combine (root' :: others), mkCounters 0 0 0)
                             [mkEvent (Version 13) None]) = (log, Completed)).
  { destruct r; try discriminate H; exact H. }
  clear H.
  destruct (pull_loop (flatten m) fuel (combine (root' :: others), mkCounters 0 0 0)
                      [mkEvent (Version 13) None]) as [[log0 o] s'] eqn:L.
  cbn [fst] in P. inversion P; subst.
  apply pull_loop_log in L. destruct L as (l & L1 & L2 & L3 & L4 & L5 & L6).
  cbn [snd count success failure] in L2, L3, L4, L5.
  exists l. cbv zeta. split; [|split; [exact L2|exact L1]].
  rewrite L6. cbn [app count]. unfold verdict. cbn [failure count].
  rewrite L3, L5. reflexivity.
Qed.

(** [X11] When [start] completes, the reporter has been called with the
    version, then with events none of which is a [bailout], then with a
    plan from 1 to N and a comment.  N is the number of reported
    assertions and sub test assertions whose offset is not positive;
    these carry the ids 1 to N in the order of the report; the comment
    is 'ok' when all of them pass and 'failed K of N tests' when K of
    them fail. *)
Theorem start_completed_report (fuel : nat) (m : registry) (log : list event) :
  start fuel m = (log, Completed) ->
  exists reported : list event,
    let points := List.filter numbered reported in
    let k := mkCounters (List.length points)
                        (List.length (List.filter data_pass points))
                        (List.length (List.filter (fun ev => negb (data_pass ev)) points)) in
    log = (mkEvent (Version 13) None
             :: reported
             ++ [mkEvent (Plan 1 (count k)) None; mkEvent (Comment (verdict k)) None])%list
    /\ List.map data_id points = List.map Some (seq 1 (List.length points))
    /\ existsb is_bailout reported = false.
Proof. apply start_completed. Qed.

Lemma start_completed_report_witness :
  exists reported : list event,
    let points := List.filter numbered reported in
    let k := mkCounters (List.length points)
                        (List.length (List.filter data_pass points))
                        (List.length (List.filter (fun ev => negb (data_pass ev)) points)) in
    fst (start 30 (load 0 [Top "parent" failing_inside 5]))
    = (mkEvent (Version 13) None
         :: reported
         ++ [mkEvent (Plan 1 (count k)) None; mkEvent (Comment (verdict k)) None])%list
    /\ List.map data_id points = List.map Some (seq 1 (List.length points))
    /\ existsb is_bailout reported = false.
Proof.
  apply (@start_completed_report 30 (load 0 [Top "parent" failing_inside 5])).
  vm_compute. reflexivity.
Defined.

(* ================================================================== *)
(** ** The registry of a file *)

Lemma collector_with_coRoutine (x : assertion + instance) (p : promise) (u : instance) :
  collector x (with_coRoutine p u) = with_coRoutine p (collector x u).
Proof. destruct x; reflexivity. Qed.

Lemma run_root_body (file : list declaration) :
  forall u : instance,
    unit_offset u = 0 ->
    run false (root_body file) u
    = (fold_left (fun r d => match d with
                             | Top _ _ _ => r
                             | Bsd description spec el =>
                                 collector (inr (tester 1 description spec el)) r
                             end) file u, Return).
Proof.
  induction file as [|[d spec el|d spec el] file IH]; intros u Hu; cbn [root_body fold_left].
  - reflexivity.
  - apply IH, Hu.
  - cbn [run andb negb]. rewrite Hu. unfold tester.
    destruct (run false spec (fresh 1 d spec el)) as [c left].
    apply IH. destruct (collector_shape (inr (with_coRoutine (Pending left) c)) u) as (E & _).
    rewrite E. exact Hu.
Qed.

Lemma load_fold (file : list declaration) :
  forall (fl : bool) (root : instance) (others : list instance),
    fold_left declare file (mkRegistry fl (root :: others))
    = mkRegistry (fl && negb (existsb is_bsd file))
                 (fold_left (fun r d => match d with
                                        | Top _ _ _ => r
                                        | Bsd description spec el =>
                                            collector (inr (tester 1 description spec el)) r
                                        end) file root
                    :: others ++ top_units (tops_of file)).
Proof.
  induction file as [|[d spec el|d spec el] file IH]; intros fl root others;
    cbn [fold_left declare tests flatten existsb is_bsd tops_of top_units List.map orb negb].
  - rewrite andb_true_r, app_nil_r. reflexivity.
  - rewrite <- app_comm_cons, IH, <- app_assoc. reflexivity.
  - rewrite IH, andb_false_r. reflexivity.
Qed.

Lemma fold_with_coRoutine (file : list declaration) (p : promise) :
  forall u : instance,
    fold_left (fun r d => match d with
                          | Top _ _ _ => r
                          | Bsd description spec el =>
                              collector (inr (tester 1 description spec el)) r
                          end) file (with_coRoutine p u)
    = with_coRoutine p
        (fold_left (fun r d => match d with
                               | Top _ _ _ => r
                               | Bsd description spec el =>
                                   collector (inr (tester 1 description spec el)) r
                               end) file u).
Proof.
  induction file as [|[d spec el|d spec el] file IH]; intro u; cbn [fold_left].
  - reflexivity.
  - apply IH.
  - rewrite collector_with_coRoutine. apply IH.
Qed.

(** The variables of the module once a file has been loaded. *)
Lemma load_tests (el : nat) (file : list declaration) :
  flatten (load el file) = negb (existsb is_bsd file)
  /\ tests (load el file)
     = tester 0 "Root" (root_body file) el :: top_units (tops_of file).
Proof.
  unfold load, loaded. rewrite load_fold. cbn [flatten tests andb app]. split; [reflexivity|].
  f_equal.
  assert (R : tester 0 "Root" (root_body file) el
              = with_coRoutine (Pending Return)
                  (fold_left (fun r d => match d with
                                         | Top _ _ _ => r
                                         | Bsd description spec el =>
                                             collector (inr (tester 1 description spec el)) r
                                         end) file (fresh 0 "Root" (root_body file) el))).
  { unfold tester at 1.
    rewrite (run_root_body file (fresh 0 "Root" (root_body file) el) eq_refl).
    reflexivity. }
  rewrite R, <- fold_with_coRoutine. reflexivity.
Qed.

(** [X12] Once a file is loaded, [flatten] is still true exactly when
    the file does not call [test.test].  [tests] holds the root unit
    first, which is the unit Root would be had its body registered the
    tests declared with [test.test] as sub tests, in order and without
    awaiting them; then come the units of the tests declared with
    [test], in order. *)
Theorem load_shape (el : nat) (file : list declaration) :
  flatten (load el file) = negb (existsb is_bsd file)
  /\ tests (load el file)
     = tester 0 "Root" (root_body file) el :: top_units (tops_of file).
Proof. apply load_tests. Qed.

(* ================================================================== *)
(** ** Files whose bodies all return *)

Lemma merged_counter_free : counter_free merged.
Proof.
  unfold counter_free, merged.
  induction fuel as [|fuel IH]; intros c k k'; [reflexivity|].
  rewrite !combine_next_unfold.
  destruct (current c) as [cur|]; [|reflexivity].
  destruct (next fuel cur) as [[v|r|err|] cur']; try reflexivity.
  apply IH.
Qed.

Lemma filter_counter_free (V R : Type) (predicate : V -> bool) (it : iterator state V R) :
  counter_free it -> counter_free (filter predicate it).
Proof.
  intro H. unfold counter_free.
  induction fuel as [|fuel IH]; intros c k k'; [reflexivity|].
  cbn [filter]. rewrite (H fuel c k k').
  destruct (it fuel (c, k)) as [[v|r|err|] [c1 k1]]; cbn [fst snd]; try reflexivity.
  destruct (negb (predicate v)); [|reflexivity].
  apply IH.
Qed.

Lemma map_pure_counter_free (V W R : Type) (f : V -> W) (it : iterator state V R) :
  counter_free it -> counter_free (map (pure f) it).
Proof.
  intros H [|fuel] c k k'; [reflexivity|].
  cbn [map]. rewrite (H fuel c k k').
  destruct (it fuel (c, k)) as [[v|r|err|] [c1 k1]]; reflexivity.
Qed.

Lemma renumber_frame (item : event) (c : combined instance) (k : counters) :
  renumber item (c, k)
  = (fst (renumber item (combine [], k)),
     (c, snd (snd (renumber item (combine [], k))))).
Proof.
  unfold renumber.
  destruct (offset_positive item
            || negb (String.eqb (type item) "assert")
               && negb (String.eqb (type item) "testAssert")); reflexivity.
Qed.

(** Pulled to its end, the last [map] of [start] gives the events of
    the stream it is applied to, renumbered one after the other. *)
Lemma renumber_drains (inner : iterator state event Result.t) :
  monotone inner ->
  counter_free inner ->
  forall (l : list event) (fuel : nat) (c c' : combined instance) (k0 k0' : counters)
         (r : option Result.t),
    drain inner fuel (c, k0) = (l, Done r, (c', k0')) ->
    forall k : counters,
      exists fuel0,
        forall fuel', fuel0 <= fuel' ->
          drain (map renumber inner) fuel' (c, k)
          = (fst (renumber_all l k), Done None, (c', snd (renumber_all l k))).
Proof.
  intros Hm Hc.
  pose proof (map_monotone renumber Hm) as Hf.
  induction l as [|v l IH]; intros fuel c c' k0 k0' r H k.
  - apply drain_nil_inv in H; [|discriminate]. destruct H as (n & -> & H).
    exists (S (S n)). apply (drain_monotone Hf); [|discriminate].
    rewrite drain_unfold. cbn [map]. rewrite (Hc n c k0 k), H. reflexivity.
  - apply drain_cons_inv in H. destruct H as (n & [c1 k1] & -> & Hv & H).
    cbn [renumber_all].
    destruct (renumber v (combine [], k)) as [v' s2] eqn:Er.
    destruct (IH _ _ _ _ _ _ H (snd s2)) as [fuel0 IH0].
    destruct (renumber_all l (snd s2)) as [l' k'] eqn:Ea.
    cbn [fst snd] in *.
    set (M := Nat.max n fuel0).
    assert (HM : inner M (c, k) = (Yield v, (c1, k))).
    { eapply Hm; [|discriminate|unfold M; apply Nat.le_max_l].
      rewrite (Hc n c k0 k), Hv. reflexivity. }
    exists (S (S M)). apply (drain_monotone Hf); [|discriminate].
    rewrite drain_unfold. cbn [map]. rewrite HM, renumber_frame, Er. cbn [fst snd].
    rewrite (IH0 (S M) ltac:(unfold M; lia)). reflexivity.
Qed.

(** The loop of [start] on an output stream that ends without a
    [bailout] event. *)
Lemma pull_loop_drain (flatten : bool) (fuel : nat) :
  forall (s s' : state) (log l : list event) (r : option Result.t),
    drain (outputStream flatten) fuel s = (l, Done r, s') ->
    existsb is_bailout l = false ->
    pull_loop flatten fuel s log
    = ((log ++ l ++ [mkEvent (Plan 1 (count (snd s'))) None;
                     mkEvent (Comment (verdict (snd s'))) None])%list,
       Completed, s').
Proof.
  induction fuel as [|fuel IH]; intros s s' log l r H Hb; [discriminate H|].
  rewrite drain_unfold in H.
  destruct (outputStream flatten fuel s) as [[ev|r1|err|] s1] eqn:E.
  - destruct (drain (outputStream flatten) fuel s1) as [[l1 e1] s2] eqn:D.
    inversion H; subst. cbn [existsb] in Hb. apply orb_false_iff in Hb.
    destruct Hb as [B1 B2].
    rewrite (@pull_loop_step flatten fuel s s1 ev log E B1).
    rewrite (IH _ _ _ _ _ D B2), <- app_assoc. reflexivity.
  - inversion H; subst. rewrite pull_loop_unfold, E. reflexivity.
  - inversion H.
  - inversion H.
Qed.

Lemma body_events_no_bailout (b : body) :
  forall o n, existsb is_bailout (body_events o n b) = false.
Proof.
  induction b as [|err rest _|a rest IH|d sub IHsub el awaited rest IH|rest IH];
    intros o n; cbn [body_events].
  - reflexivity.
  - reflexivity.
  - cbn [existsb]. rewrite IH. reflexivity.
  - rewrite existsb_app. cbn [existsb]. rewrite existsb_app, IHsub, IH. reflexivity.
  - apply IH.
Qed.

Lemma tester_no_bailout (o : nat) (d : string) (spec : body) (el : nat) :
  returns spec = true ->
  existsb is_bailout (events (tester o d spec el)) = false.
Proof.
  intro Hr. destruct (tester_events o d spec el Hr) as [E _]. rewrite E.
  cbn [existsb]. rewrite existsb_app, body_events_no_bailout. reflexivity.
Qed.

Lemma top_units_no_bailout (tops : list (string * body * nat)) :
  forallb (fun t => returns (snd (fst t))) tops = true ->
  existsb is_bailout (units_events (top_units tops)) = false.
Proof.
  induction tops as [|t tops IH]; intro H; [reflexivity|].
  cbn [forallb] in H. apply andb_true_iff in H. destruct H as [H1 H2].
  cbn [top_units List.map].
  destruct (units_cons (tester 0 (fst (fst t)) (snd (fst t)) (snd t))
                       (top_units tops)) as (_ & _ & C).
  unfold top_units in *. rewrite C, existsb_app, (tester_no_bailout _ _ _ _ H1), (IH H2).
  reflexivity.
Qed.

Lemma filter_no_bailout (p : event -> bool) (l : list event) :
  existsb is_bailout l = false -> existsb is_bailout (List.filter p l) = false.
Proof.
  induction l as [|e l IH]; [auto|]. cbn [existsb List.filter]. intro H.
  apply orb_false_iff in H. destruct H as [H1 H2].
  destruct (p e); [cbn [existsb]; rewrite H1|]; auto.
Qed.

Lemma resetOffset_no_bailout (l : list event) :
  existsb is_bailout (List.map resetOffset l) = existsb is_bailout l.
Proof.
  induction l as [|e l IH]; [reflexivity|]. cbn [List.map existsb]. rewrite IH.
  reflexivity.
Qed.

Lemma renumber_all_no_bailout (l : list event) :
  forall k, existsb is_bailout (fst (renumber_all l k)) = existsb is_bailout l.
Proof.
  induction l as [|e l IH]; intro k; [reflexivity|]. cbn [renumber_all].
  destruct (renumber e (combine [], k)) as [e' s] eqn:Er.
  specialize (IH (snd s)). destruct (renumber_all l (snd s)) as [l' k'].
  cbn [fst existsb] in *. rewrite IH.
  apply renumber_shape in Er. destruct Er as (Et & _). unfold is_bailout. rewrite Et.
  reflexivity.
Qed.

Lemma flattened_no_bailout (flatten : bool) (l : list event) :
  existsb is_bailout l = false -> existsb is_bailout (flattened flatten l) = false.
Proof.
  intro H. unfold flattened. destruct flatten; [|exact H].
  rewrite resetOffset_no_bailout. apply filter_no_bailout, H.
Qed.

Lemma returns_parts (file : list declaration) :
  forallb (fun d => returns (declared_body d)) file = true ->
  returns (root_body file) = true
  /\ forallb (fun t => returns (snd (fst t))) (tops_of file) = true.
Proof.
  induction file as [|[d spec el|d spec el] file IH]; cbn [forallb declared_body]; intro H.
  - auto.
  - apply andb_true_iff in H. destruct H as [H1 H2]. destruct (IH H2) as [A B].
    cbn [root_body tops_of forallb fst snd]. rewrite H1, B. auto.
  - apply andb_true_iff in H. destruct H as [H1 H2]. destruct (IH H2) as [A B].
    cbn [root_body tops_of returns]. rewrite H1, A. auto.
Qed.

Lemma outputStream_drains (flatten : bool) (l : list event) (fuel : nat)
      (c c' : combined instance) (k0 k0' : counters) (r : option Result.t) :
  drain merged fuel (c, k0) = (l, Done r, (c', k0')) ->
  forall k : counters,
    exists fuel0,
      forall fuel', fuel0 <= fuel' ->
        drain (outputStream flatten) fuel' (c, k)
        = (fst (renumber_all (List.filter keep (flattened flatten l)) k),
           Done None,
           (c', snd (renumber_all (List.filter keep (flattened flatten l)) k))).
Proof.
  intros H k. unfold outputStream, flattened. destruct flatten.
  - destruct (filter_drains merged_monotone notTestAssert _ _ H) as [f1 D1].
    pose proof (filter_monotone notTestAssert merged_monotone) as M1.
    destruct (map_drains M1 resetOffset _ _ (D1 f1 (le_n f1))) as [f2 D2].
    pose proof (map_monotone (pure resetOffset) M1) as M2.
    destruct (filter_drains M2 keep _ _ (D2 f2 (le_n f2))) as [f3 D3].
    pose proof (filter_monotone keep M2) as M3.
    eapply (renumber_drains M3).
    + apply filter_counter_free, map_pure_counter_free, filter_counter_free,
        merged_counter_free.
    + exact (D3 f3 (le_n f3)).
  - destruct (filter_drains merged_monotone keep _ _ H) as [f1 D1].
    pose proof (filter_monotone keep merged_monotone) as M1.
    eapply (renumber_drains M1).
    + apply filter_counter_free, merged_counter_free.
    + exact (D1 f1 (le_n f1)).
Qed.

Lemma top_units_events (tops : list (string * body * nat)) :
  forallb (fun t => returns (snd (fst t))) tops = true ->
  units_events (top_units tops) = List.concat (List.map (test_events 0) tops).
Proof.
  induction tops as [|t tops IH]; intro H; [reflexivity|].
  cbn [forallb] in H. apply andb_true_iff in H. destruct H as [H1 H2].
  cbn [top_units List.map List.concat].
  destruct (units_cons (tester 0 (fst (fst t)) (snd (fst t)) (snd t))
                       (top_units tops)) as (_ & _ & C).
  unfold top_units in *. rewrite C, (IH H2).
  destruct (tester_events 0 (fst (fst t)) (snd (fst t)) (snd t) H1) as [E _].
  rewrite E. reflexivity.
Qed.

Lemma file_events_no_bailout (el : nat) (file : list declaration) :
  forallb (fun d => returns (declared_body d)) file = true ->
  existsb is_bailout (file_events el file) = false.
Proof.
  intro Hret. destruct (returns_parts file Hret) as [Hroot Htops].
  unfold file_events. rewrite existsb_app.
  rewrite <- (top_units_events _ Htops), (top_units_no_bailout _ Htops).
  unfold test_events. cbn [tl fst snd]. rewrite existsb_app, body_events_no_bailout.
  reflexivity.
Qed.

(** The log of [start] on a file whose bodies all return. *)
Lemma start_report (el : nat) (file : list declaration) :
  forallb (fun d => returns (declared_body d)) file = true ->
  exists fuel0,
    forall fuel, fuel0 <= fuel ->
      List.concat (List.map (fun u => fst (fst (drain next fuel u)))
                            (tests (load el file)))
      = mkEvent (Title "Root") (Some 0) :: file_events el file
      /\ let numbered_events :=
           renumber_all (List.filter keep (flattened (flatten (load el file))
                                                     (file_events el file)))
                        (mkCounters 0 0 0) in
         start fuel (load el file)
         = ((mkEvent (Version 13) None
               :: fst numbered_events
               ++ [mkEvent (Plan 1 (count (snd numbered_events))) None;
                   mkEvent (Comment (verdict (snd numbered_events))) None])%list,
            Completed).
Proof.
  intro Hret. destruct (returns_parts file Hret) as [Hroot Htops].
  destruct (load_tests el file) as [_ Ht].
  set (root := tester 0 "Root" (root_body file) el) in *.
  set (tops := top_units (tops_of file)) in *.
  destruct (tester_facts 0 "Root" (root_body file) el Hroot) as (Hh & _ & _).
  destruct (tester_events 0 "Root" (root_body file) el Hroot) as (He & _).
  destruct (top_units_facts (tops_of file) Htops) as (Hth & _).
  fold root in Hh, He. fold tops in Hth.
  assert (Hfirst : exists e root', next (S (work root)) root = (Yield e, root')
                                   /\ healthy root' = true
                                   /\ events root = e :: events root').
  { destruct (next_facts (fuel := S (work root)) root Hh ltac:(lia))
      as [(e & u' & N & H1 & _)|(u' & N & _)];
      destruct (next_events (fuel := S (work root)) root Hh ltac:(lia))
      as [(e2 & u2 & N2 & H2 & _)|(u2 & N2 & H2 & _)];
      rewrite N in N2; try discriminate N2.
    - inversion N2; subst. eauto.
    - rewrite He in H2. discriminate H2. }
  destruct Hfirst as (e & root' & Hn & Hh' & Hev).
  set (units := root' :: tops).
  assert (Hu : forallb healthy units = true)
    by (unfold units; cbn [forallb]; rewrite Hh', Hth; reflexivity).
  assert (Hfile : units_events units = file_events el file).
  { destruct (units_cons root' tops) as (_ & _ & C'). unfold units. rewrite C'.
    unfold file_events, tops. rewrite (top_units_events _ Htops).
    f_equal. rewrite He in Hev. inversion Hev. reflexivity. }
  destruct (tidy_combine units) as (T1 & T2).
  pose proof (drain_during_events (fuel := units_work units + 2) [] (mkCounters 0 0 0) T1) as D.
  rewrite T2 in D. specialize (D Hu ltac:(lia)).
  rewrite drain_during_nil, Hfile in D.
  destruct (@outputStream_drains (flatten (load el file)) _ _ _ _ _ _ _ D (mkCounters 0 0 0))
    as [f3 D3].
  exists (Nat.max (S (work root)) (Nat.max f3 (units_work (root :: tops) + 2))).
  intros fuel Hf. split.
  - rewrite Ht.
    rewrite <- (units_events_alone (fuel := fuel) (root :: tops)).
    + destruct (units_cons root tops) as (_ & _ & C). rewrite C.
      destruct (units_cons root' tops) as (_ & _ & C'). unfold units in Hfile.
      rewrite <- Hfile, C', Hev. rewrite He in Hev. inversion Hev. reflexivity.
    + cbn [forallb]. rewrite Hh, Hth. reflexivity.
    + lia.
  - cbv zeta. unfold start. rewrite Ht.
    assert (Hn' : next fuel root = (Yield e, root'))
      by (eapply next_monotone; [exact Hn|discriminate|lia]).
    rewrite Hn'. cbv beta iota. fold units.
    assert (Hb : existsb is_bailout
                   (fst (renumber_all
                           (List.filter keep (flattened (flatten (load el file))
                                                        (file_events el file)))
                           (mkCounters 0 0 0))) = false)
      by (rewrite renumber_all_no_bailout;
          apply filter_no_bailout, flattened_no_bailout, file_events_no_bailout, Hret).
    rewrite (@pull_loop_drain (flatten (load el file)) fuel _ _
                              [mkEvent (Version 13) None] _ _
                              (D3 fuel ltac:(lia)) Hb).
    reflexivity.
Qed.

(** [X13] On a file whose bodies all return, [start] completes, for
    every large enough bound.  It reports the version; then the events
    that the units in [tests] give when each is pulled alone to its end,
    in the order of [tests] and without the title of the root unit,
    taken through the stream of [start]: with flattening the
    [testAssert] events are left out and every offset is set to 0; the
    events at offset 0 that are no title, assertion, sub test assertion
    or comment are left out; the assertions and sub test assertions at
    offset 0 are renumbered from 1.  Then it reports the plan and the
    comment the counters give. *)
Theorem start_completes (el : nat) (file : list declaration) :
  forallb (fun d => returns (declared_body d)) file = true ->
  exists fuel0,
    forall fuel, fuel0 <= fuel ->
      let m := load el file in
      let all := List.concat (List.map (fun u => fst (fst (drain next fuel u))) (tests m)) in
      let numbered_events :=
        renumber_all (List.filter keep (flattened (flatten m) (tl all))) (mkCounters 0 0 0) in
      start fuel m
      = ((mkEvent (Version 13) None
            :: fst numbered_events
            ++ [mkEvent (Plan 1 (count (snd numbered_events))) None;
                mkEvent (Comment (verdict (snd numbered_events))) None])%list,
         Completed).
Proof.
  intro Hret. destruct (start_report el file Hret) as [fuel0 H].
  exists fuel0. intros fuel Hf. destruct (H fuel Hf) as [Hall Hs].
  cbv zeta. rewrite Hall. cbn [tl]. exact Hs.
Qed.

Lemma start_completes_witness :
  exists fuel0,
    forall fuel, fuel0 <= fuel ->
      let m := load 0 [Bsd "parent" nested 5; Top "alone" failing_inside 2] in
      let all := List.concat (List.map (fun u => fst (fst (drain next fuel u))) (tests m)) in
      let numbered_events :=
        renumber_all (List.filter keep (flattened (flatten m) (tl all))) (mkCounters 0 0 0) in
      start fuel m
      = ((mkEvent (Version 13) None
            :: fst numbered_events
            ++ [mkEvent (Plan 1 (count (snd numbered_events))) None;
                mkEvent (Comment (verdict (snd numbered_events))) None])%list,
         Completed).
Proof.
  apply (@start_completes 0 [Bsd "parent" nested 5; Top "alone" failing_inside 2]).
  reflexivity.
Defined.

(** The counters after a list of events has been renumbered. *)
Lemma renumber_all_counts (l : list event) :
  forall k : counters,
    count (snd (renumber_all l k)) = count k + List.length (List.filter numbered l)
    /\ failure (snd (renumber_all l k))
       = failure k
         + List.length (List.filter negb (List.map data_pass (List.filter numbered l)))
    /\ success (snd (renumber_all l k))
       = success k
         + List.length (List.filter (fun b : bool => b)
                                    (List.map data_pass (List.filter numbered l))).
Proof.
  induction l as [|e l IH]; intro k; cbn [renumber_all List.filter].
  - cbn. repeat split; lia.
  - destruct (renumber e (combine [], k)) as [e' s] eqn:Er.
    specialize (IH (snd s)). destruct (renumber_all l (snd s)) as [l' k'].
    cbn [snd] in *. destruct IH as (I1 & I2 & I3).
    assert (Hn : numbered e
                 = negb (offset_positive e
                         || negb (String.eqb (type e) "assert")
                            && negb (String.eqb (type e) "testAssert")))
      by (unfold numbered;
          destruct (offset_positive e), (String.eqb (type e) "assert"),
            (String.eqb (type e) "testAssert"); reflexivity).
    unfold renumber in Er. rewrite Hn.
    destruct (offset_positive e
              || negb (String.eqb (type e) "assert")
                 && negb (String.eqb (type e) "testAssert")); cbn [negb].
    + inversion Er; subst. cbn [snd] in *. auto.
    + inversion Er; subst. cbn [snd count failure success] in *.
      cbn [List.map List.filter List.length].
      destruct (data_pass e); cbn [negb List.filter List.length] in *; repeat split; lia.
Qed.

Lemma numbered_kept (e : event) : numbered e = true -> keep e = true.
Proof.
  unfold numbered, keep, includes, toKeep. intro H.
  apply andb_true_iff in H. destruct H as [_ H]. apply orb_true_iff in H.
  destruct H as [H|H]; apply String.eqb_eq in H; rewrite H; cbn; apply orb_true_r.
Qed.

Lemma filter_within (A : Type) (p q : A -> bool) (l : list A) :
  (forall x, p x = true -> q x = true) ->
  List.filter p (List.filter q l) = List.filter p l.
Proof.
  intro H. induction l as [|x l IH]; [reflexivity|]. cbn [List.filter].
  destruct (q x) eqn:Q; cbn [List.filter]; rewrite IH; [reflexivity|].
  destruct (p x) eqn:P; [|reflexivity]. rewrite (H x P) in Q. discriminate Q.
Qed.

Lemma deeper_not_numbered (o : nat) (l : list event) :
  forallb (at_least (S o)) l = true -> List.filter numbered l = [].
Proof.
  induction l as [|e l IH]; [reflexivity|]. cbn [forallb List.filter]. intro H.
  apply andb_true_iff in H. destruct H as [He Hl]. rewrite (IH Hl).
  unfold at_least in He. unfold numbered, offset_positive.
  destruct (offset e) as [[|k]|]; try discriminate He. reflexivity.
Qed.

Lemma body_events_entries (b : body) :
  forall n, List.map data_pass (List.filter numbered (body_events 0 n b)) = entries_pass b.
Proof.
  induction b as [|err rest _|a rest IH|d sub IHsub el awaited rest IH|rest IH];
    intro n; cbn [body_events entries_pass].
  - reflexivity.
  - reflexivity.
  - cbn [List.filter]. change (numbered (mkEvent (Assert (set_id (S n) a)) (Some 0))) with true.
    cbn [List.map]. rewrite IH. reflexivity.
  - rewrite filter_app.
    rewrite (@deeper_not_numbered 0).
    + cbn [app List.filter].
      change (numbered (mkEvent (TestAssert ?x) (Some 0))) with true.
      cbn [List.map]. rewrite IH. reflexivity.
    + cbn [forallb]. rewrite forallb_app.
      destruct (body_events_levels sub 1 0) as [A _]. rewrite A. reflexivity.
  - apply IH.
Qed.

Lemma body_events_assertions (b : body) :
  forall o n,
    List.map data_pass (List.filter is_assert (body_events o n b))
    = List.map pass (assertions_in b).
Proof.
  induction b as [|err rest _|a rest IH|d sub IHsub el awaited rest IH|rest IH];
    intros o n; cbn [body_events assertions_in].
  - reflexivity.
  - reflexivity.
  - cbn [List.filter]. change (is_assert (mkEvent (Assert ?x) ?y)) with true.
    cbn [List.map]. rewrite IH. reflexivity.
  - rewrite filter_app. cbn [List.filter].
    change (is_assert (mkEvent (Title ?x) ?y)) with false.
    change (is_assert (mkEvent (TestAssert ?x) ?y)) with false.
    cbv iota. rewrite filter_app. cbn [List.filter].
    change (is_assert (mkEvent (Plan ?a ?b) ?y)) with false.
    change (is_assert (mkEvent (Time ?x) ?y)) with false.
    cbv iota. rewrite app_nil_r, !map_app, IH, IHsub. reflexivity.
  - apply IH.
Qed.

Lemma no_bsd_root (file : list declaration) :
  existsb is_bsd file = false -> root_body file = Return.
Proof.
  induction file as [|[d spec el|d spec el] file IH]; cbn [existsb is_bsd root_body orb].
  - reflexivity.
  - exact IH.
  - discriminate.
Qed.

Lemma points_of_tests (p : event -> bool) (g : string * body * nat -> list bool)
      (tops : list (string * body * nat)) :
  (forall t, List.map data_pass (List.filter p (test_events 0 t)) = g t) ->
  List.map data_pass (List.filter p (List.concat (List.map (test_events 0) tops)))
  = flat_map g tops.
Proof.
  intro H. induction tops as [|t tops IH]; [reflexivity|].
  cbn [List.map List.concat flat_map]. rewrite filter_app, map_app, H, IH. reflexivity.
Qed.

Lemma test_events_entries (t : string * body * nat) :
  List.map data_pass (List.filter numbered (test_events 0 t)) = entries_pass (snd (fst t)).
Proof.
  unfold test_events. cbn [List.filter].
  change (numbered (mkEvent (Title ?x) ?y)) with false. cbv iota.
  rewrite filter_app. cbn [List.filter].
  change (numbered (mkEvent (Plan ?a ?b) ?y)) with false.
  change (numbered (mkEvent (Time ?x) ?y)) with false. cbv iota.
  rewrite app_nil_r. apply body_events_entries.
Qed.

Lemma test_events_assertions (t : string * body * nat) :
  List.map data_pass (List.filter is_assert (test_events 0 t))
  = List.map pass (assertions_in (snd (fst t))).
Proof.
  unfold test_events. cbn [List.filter].
  change (is_assert (mkEvent (Title ?x) ?y)) with false. cbv iota.
  rewrite filter_app. cbn [List.filter].
  change (is_assert (mkEvent (Plan ?a ?b) ?y)) with false.
  change (is_assert (mkEvent (Time ?x) ?y)) with false. cbv iota.
  rewrite app_nil_r. apply body_events_assertions.
Qed.

Lemma numbered_flattened (l : list event) :
  List.map data_pass
           (List.filter numbered (List.map resetOffset (List.filter notTestAssert l)))
  = List.map data_pass (List.filter is_assert l).
Proof.
  induction l as [|e l IH]; [reflexivity|]. cbn [List.filter].
  unfold notTestAssert at 1. unfold is_assert at 1.
  destruct (String.eqb (type e) "testAssert") eqn:T; cbn [negb].
  - apply String.eqb_eq in T. rewrite T. cbn [String.eqb Ascii.eqb Bool.eqb]. exact IH.
  - cbn [List.map List.filter].
    assert (N : numbered (resetOffset e) = String.eqb (type e) "assert").
    { unfold numbered, resetOffset, offset_positive, type. cbn [data offset negb andb].
      fold (type e). rewrite T. apply orb_false_r. }
    rewrite N. destruct (String.eqb (type e) "assert"); cbn [List.map]; rewrite IH;
      reflexivity.
Qed.

(** The numbered events of a file, by whether they pass. *)
Lemma numbered_file_events (el : nat) (file : list declaration) :
  List.map data_pass
           (List.filter numbered
                        (List.filter keep
                                     (flattened (negb (existsb is_bsd file))
                                                (file_events el file))))
  = top_points file.
Proof.
  rewrite (filter_within _ _ _ numbered_kept).
  unfold flattened, top_points, file_events.
  destruct (existsb is_bsd file) eqn:B; cbn [negb].
  - rewrite filter_app, map_app.
    rewrite (points_of_tests numbered (fun t => entries_pass (snd (fst t))))
      by apply test_events_entries.
    f_equal.
    pose proof (test_events_entries ("Root", root_body file, el)) as R.
    unfold test_events in *. cbn [tl fst snd List.filter] in *.
    exact R.
  - rewrite numbered_flattened, filter_app, map_app.
    rewrite (points_of_tests is_assert
                             (fun t => List.map pass (assertions_in (snd (fst t)))))
      by apply test_events_assertions.
    rewrite (no_bsd_root _ B). reflexivity.
Qed.

Lemma length_filter_map (A : Type) (f : A -> bool) (l : list A) :
  List.length (List.filter (fun x => negb (f x)) l)
  = List.length (List.filter negb (List.map f l)).
Proof.
  induction l as [|x l IH]; [reflexivity|]. cbn [List.filter List.map].
  destruct (f x); cbn [negb List.length]; rewrite IH; reflexivity.
Qed.

(** [X14] On a file whose bodies all return, the plan and the comment
    [start] reports at the end count, without [test.test], every
    assertion of the file, those of sub tests included; with
    [test.test], one test point for each test declared with
    [test.test], which passes when every result in it does, and, for
    each test declared with [test], one test point for each of its own
    assertions and sub tests. *)
Theorem start_plan_counts (el : nat) (file : list declaration) :
  forallb (fun d => returns (declared_body d)) file = true ->
  exists fuel0,
    forall fuel, fuel0 <= fuel ->
      exists reported : list event,
        let points := top_points file in
        let k := mkCounters (List.length points)
                            (List.length (List.filter (fun b : bool => b) points))
                            (List.length (List.filter negb points)) in
        start fuel (load el file)
        = ((mkEvent (Version 13) None
              :: reported
              ++ [mkEvent (Plan 1 (count k)) None; mkEvent (Comment (verdict k)) None])%list,
           Completed).
Proof.
  intro Hret. destruct (start_report el file Hret) as [fuel0 H].
  exists fuel0. intros fuel Hf. destruct (H fuel Hf) as [_ Hs]. cbv zeta in Hs.
  destruct (load_tests el file) as [Hfl _]. rewrite Hfl in Hs.
  set (L := List.filter keep (flattened (negb (existsb is_bsd file)) (file_events el file)))
    in *.
  destruct (renumber_all_counts L (mkCounters 0 0 0)) as (C1 & C2 & _).
  pose proof (numbered_file_events el file) as P. fold L in P.
  exists (fst (renumber_all L (mkCounters 0 0 0))). cbv zeta.
  rewrite Hs. unfold verdict. cbn [count failure] in *.
  rewrite C1, C2, P, <- (length_map data_pass), P. reflexivity.
Qed.

Lemma start_plan_counts_witness :
  exists fuel0,
    forall fuel, fuel0 <= fuel ->
      exists reported : list event,
        start fuel (load 0 [Bsd "parent" nested 5; Top "alone" failing_inside 2])
        = ((mkEvent (Version 13) None
              :: reported
              ++ [mkEvent (Plan 1 3) None;
                  mkEvent (Comment "failed 1 of 3 tests") None])%list,
           Completed).
Proof.
  apply (@start_plan_counts 0 [Bsd "parent" nested 5; Top "alone" failing_inside 2]).
  reflexivity.
Defined.

(* ================================================================== *)
(** ** A test whose body raises *)

Lemma merged_doomed (fuel : nat) :
  forall (c : combined instance) (k : counters) (r : step event Result.t) (s' : state),
    has_doomed c ->
    merged fuel (c, k) = (r, s') ->
    has_doomed (fst s') /\ forall v, r <> Done v.
Proof.
  unfold merged.
  induction fuel as [|fuel IH]; intros c k r s' Hd H.
  - cbn in H. inversion H; subst. split; [exact Hd|discriminate].
  - rewrite combine_next_unfold in H.
    destruct Hd as (u & Hin & Hu). unfold remaining in Hin.
    destruct (current c) as [cur|] eqn:Hc; [|destruct Hin].
    destruct (next fuel cur) as [r1 cur'] eqn:E.
    assert (Keep : has_doomed (mkCombined (Some cur') (pending c))).
    { destruct Hin as [<-|Hin].
      - exists cur'. split; [left; reflexivity|]. exact (proj1 (doomed_next _ Hu E)).
      - exists u. split; [right; exact Hin|exact Hu]. }
    destruct r1 as [v|r1|err|].
    + inversion H; subst. split; [exact Keep|discriminate].
    + apply (IH _ _ _ _) in H; [exact H|].
      destruct Hin as [<-|Hin].
      * destruct (proj2 (doomed_next _ Hu E) r1 eq_refl).
      * exists u. split; [|exact Hu]. unfold remaining. cbn [current pending].
        destruct (pending c) as [|p ps]; [destruct Hin|exact Hin].
    + inversion H; subst. split; [exact Keep|discriminate].
    + inversion H; subst. split; [exact Keep|discriminate].
Qed.

Section NeverEnds.

Variables V W R : Type.
Variable it : iterator state V R.
Hypothesis it_never_ends :
  forall fuel s r s',
    has_doomed (fst s) -> it fuel s = (r, s') ->
    has_doomed (fst s') /\ forall v, r <> Done v.

Lemma filter_never_ends (predicate : V -> bool) :
  forall fuel s r s',
    has_doomed (fst s) -> filter predicate it fuel s = (r, s') ->
    has_doomed (fst s') /\ forall v, r <> Done v.
Proof.
  induction fuel as [|fuel IH]; intros s r s' Hd H.
  - cbn in H. inversion H; subst. split; [exact Hd|discriminate].
  - cbn [filter] in H. destruct (it fuel s) as [r1 s1] eqn:E.
    destruct (it_never_ends Hd E) as [Hd1 Hr1].
    destruct r1 as [v|r1|err|].
    + destruct (negb (predicate v)); [exact (IH _ _ _ Hd1 H)|].
      inversion H; subst. split; [exact Hd1|discriminate].
    + destruct (Hr1 r1 eq_refl).
    + inversion H; subst. split; [exact Hd1|discriminate].
    + inversion H; subst. split; [exact Hd1|discriminate].
Qed.

Lemma map_never_ends (mapFn : V -> state -> W * state) :
  (forall v s, fst (snd (mapFn v s)) = fst s) ->
  forall fuel s r s',
    has_doomed (fst s) -> map mapFn it fuel s = (r, s') ->
    has_doomed (fst s') /\ forall v, r <> Done v.
Proof.
  intros Hm [|fuel] s r s' Hd H.
  - cbn in H. inversion H; subst. split; [exact Hd|discriminate].
  - cbn [map] in H. destruct (it fuel s) as [r1 s1] eqn:E.
    destruct (it_never_ends Hd E) as [Hd1 Hr1].
    destruct r1 as [v|r1|err|].
    + pose proof (Hm v s1) as M. destruct (mapFn v s1) as [w s2].
      inversion H; subst. cbn [snd] in M. rewrite M. split; [exact Hd1|discriminate].
    + destruct (Hr1 r1 eq_refl).
    + inversion H; subst. split; [exact Hd1|discriminate].
    + inversion H; subst. split; [exact Hd1|discriminate].
Qed.

End NeverEnds.

Lemma outputStream_doomed (flatten : bool) :
  forall fuel s r s',
    has_doomed (fst s) -> outputStream flatten fuel s = (r, s') ->
    has_doomed (fst s') /\ forall v, r <> Done v.
Proof.
  assert (M : forall fuel s r s',
             has_doomed (fst s) -> merged fuel s = (r, s') ->
             has_doomed (fst s') /\ forall v, r <> Done v).
  { intros fuel [c k] r s'. apply merged_doomed. }
  unfold outputStream. apply map_never_ends.
  - apply filter_never_ends. destruct flatten.
    + apply map_never_ends; [|reflexivity]. apply filter_never_ends. exact M.
    + exact M.
  - intros v s. destruct s as [c k]. pose proof (@renumber_shape v) as Sh.
    destruct (renumber v (c, k)) as [ev s2] eqn:Er.
    destruct (Sh _ _ _ Er) as (_ & _ & F). exact F.
Qed.

Lemma pull_loop_doomed (flatten : bool) (fuel : nat) :
  forall (s : state) (log : list event),
    has_doomed (fst s) ->
    ending (pull_loop flatten fuel s log) <> Completed.
Proof.
  induction fuel as [|fuel IH]; intros s log Hd; [discriminate|].
  rewrite pull_loop_unfold.
  destruct (outputStream flatten fuel s) as [r s1] eqn:E.
  destruct (outputStream_doomed _ _ _ Hd E) as [Hd1 Hr].
  destruct r as [ev|r|err|]; try discriminate.
  - destruct (data ev); try apply (IH _ _ Hd1). discriminate.
  - destruct (Hr r eq_refl).
Qed.

Lemma start_doomed (fuel : nat) (m : registry) (u : instance) :
  In u (tests m) -> doomed u -> snd (start fuel m) <> Completed.
Proof.
  intros Hin Hu. unfold start.
  destruct (tests m) as [|root others]; [discriminate|].
  destruct (next fuel root) as [r root'] eqn:E.
  assert (Hd : has_doomed (combine (root' :: others))).
  { destruct Hin as [<-|Hin].
    - exists root'. split; [left; reflexivity|]. exact (proj1 (doomed_next _ Hu E)).
    - exists u. split; [right; exact Hin|exact Hu]. }
  pose proof (@pull_loop_doomed (flatten m) fuel
                (combine (root' :: others), mkCounters 0 0 0)
                [mkEvent (Version 13) None] Hd) as P.
  destruct r as [ev|r|err|]; try discriminate; exact P.
Qed.

Lemma start_not_rejected_flat (fuel : nat) (m : registry) (err : value) :
  flatten m = true -> tests m <> [] -> snd (start fuel m) <> Rejected err.
Proof.
  intros Hf Ht H. unfold start in H.
  destruct (tests m) as [|root others]; [congruence|].
  destruct (next fuel root) as [r root'] eqn:E.
  pose proof (next_answers _ _ E) as A.
  assert (P : snd (fst (pull_loop (flatten m) fuel
                                  (combine (root' :: others), mkCounters 0 0 0)
                                  [mkEvent (Version 13) None])) = Rejected err).
  { destruct r as [v|r|e|]; try discriminate H; try exact H. destruct A. }
  destruct (pull_loop (flatten m) fuel (combine (root' :: others), mkCounters 0 0 0)
                      [mkEvent (Version 13) None]) as [[log o] s'] eqn:L.
  cbn [fst snd] in P. subst o.
  apply pull_loop_log in L. destruct L as (l & _ & _ & _ & _ & _ & ev & _ & _ & _ & X4).
  congruence.
Qed.

Lemma top_is_loaded (el : nat) (file : list declaration) (d : string) (spec : body)
      (e : nat) :
  In (Top d spec e) file -> In (tester 0 d spec e) (tests (load el file)).
Proof.
  intro Hin. destruct (load_tests el file) as [_ Ht]. rewrite Ht. clear Ht. right.
  unfold top_units.
  apply (in_map (fun t => tester 0 (fst (fst t)) (snd (fst t)) (snd t))
                (tops_of file) (d, spec, e)).
  induction file as [|[d1 s1 e1|d1 s1 e1] file IH]; cbn [tops_of].
  - destruct Hin.
  - destruct Hin as [H|H]; [inversion H; left; reflexivity|right; exact (IH H)].
  - destruct Hin as [H|H]; [discriminate H|exact (IH H)].
Qed.

(** [X15] When a test declared with [test] has a body that raises,
    [start] never completes, whatever the bound; and when the file does
    not use [test.test], [start] does not reject either: its promise
    stays pending for ever. *)
Theorem raising_test_hangs_start (el : nat) (file : list declaration)
        (d : string) (spec : body) (e : nat) (err : value) (after : body) :
  In (Top d spec e) file ->
  ending_of spec = Throw err after ->
  forall fuel,
    snd (start fuel (load el file)) <> Completed
    /\ (existsb is_bsd file = false -> snd (start fuel (load el file)) = Unresolved).
Proof.
  intros Hin He fuel.
  pose proof (@top_is_loaded el file d spec e Hin) as Hl.
  pose proof (@doomed_tester 0 d spec e err after He) as Hd.
  pose proof (@start_doomed fuel (load el file) _ Hl Hd) as Hc.
  split; [exact Hc|].
  intro Hb. destruct (load_tests el file) as [Hf Ht].
  rewrite Hb in Hf. cbn [negb] in Hf.
  destruct (snd (start fuel (load el file))) as [|err0|] eqn:S.
  - destruct (Hc eq_refl).
  - assert (Hne : tests (load el file) <> []) by (rewrite Ht; discriminate).
    destruct (@start_not_rejected_flat fuel (load el file) err0 Hf Hne S).
  - reflexivity.
Qed.

Lemma raising_test_hangs_start_witness :
  snd (start 40 (load 0 failing_top)) = Unresolved.
Proof.
  assert (Hin : In (Top "boom" (Throw boom Return) 5) failing_top)
    by (left; reflexivity).
  destruct (@raising_test_hangs_start 0 failing_top "boom" (Throw boom Return) 5
                                      boom Return Hin eq_refl 40) as [_ H].
  exact (H eq_refl).
Defined.

(* ================================================================== *)
(** ** What the reporter prints *)

Lemma padStart_add (a b : nat) (message : string) :
  padStart (a + b) message = padStart a (padStart b message).
Proof. induction a as [|a IH]; [reflexivity|]. cbn. rewrite IH. reflexivity. Qed.

Lemma print_levels (message : string) (n : nat) :
  print message (2 * n) = padStart (4 * n) message.
Proof. unfold print. f_equal. lia. Qed.

Lemma print_half (message : string) (n : nat) :
  print message (2 * n + 1) = padStart (4 * n) (String " " (String " " message)).
Proof.
  unfold print. replace (2 * (2 * n + 1)) with (4 * n + 2) by lia.
  rewrite padStart_add. reflexivity.
Qed.

Lemma print_S (message : string) (h : nat) :
  exists rest, print message (S h) = String " " rest.
Proof.
  unfold print. replace (2 * S h) with (S (S (2 * h))) by lia. cbn [padStart]. eauto.
Qed.

Lemma print_0 (message : string) : print message (2 * 0) = message.
Proof. reflexivity. Qed.


Lemma blank_line (rest : string) :
  test_line (String " " rest) = false /\ failing_line (String " " rest) = false.
Proof. split; reflexivity. Qed.

Lemma point_lines (p : bool) (rest : string) :
  test_line ((if p then "ok" else "not ok") ++ " " ++ rest) = true
  /\ failing_line ((if p then "ok" else "not ok") ++ " " ++ rest) = negb p.
Proof. destruct p, rest; split; reflexivity. Qed.

Section ReporterFacts.

Variable stringify : value -> string.

Lemma block_is_indented (a : assertion) (o : nat) :
  Forall (fun line => exists rest, line = String " " rest)
         (tl (tap.assert stringify a o)).
Proof.
  unfold tap.assert. cbn [tl].
  destruct (negb (pass a) && match operator a with
                             | Some op => negb (String.eqb op "")
                             | None => false
                             end); [|constructor].
  rewrite Nat.add_1_r.
  constructor; [apply print_S|].
  apply Forall_app. split.
  - unfold tap.toYaml. rewrite Nat.add_1_r.
    repeat (constructor; [apply print_S|]). constructor.
  - constructor; [apply print_S|constructor].
Qed.

Lemma indented_no_points (l : list string) :
  Forall (fun line => exists rest, line = String " " rest) l ->
  List.filter test_line l = [] /\ List.filter failing_line l = [].
Proof.
  induction 1 as [|line l [rest ->] _ [IH1 IH2]]; [auto|].
  cbn [List.filter]. destruct (blank_line rest) as [B1 B2]. rewrite B1, B2. auto.
Qed.

(** The texts printed for an event hold one test point at the margin
    when the event is a numbered one, and none otherwise. *)
Lemma tap_points (e : event) :
  List.length (List.filter test_line (tap_1 stringify e))
  = (if numbered e then 1 else 0)
  /\ List.length (List.filter failing_line (tap_1 stringify e))
     = (if numbered e && negb (data_pass e) then 1 else 0).
Proof.
  destruct e as [d o]. unfold tap_1, level, numbered, offset_positive, data_pass, type.
  cbn [data offset].
  destruct d as [t|a|a|p q|ms|t|err|n].
  - destruct o as [[|n]|]; cbn; auto.
  - unfold tap.testAssert.
    pose proof (block_is_indented a (match o with Some n => n | None => 0 end)) as B.
    apply indented_no_points in B. destruct B as [B1 B2].
    unfold tap.assert in *. cbn [tl] in B1, B2. cbn [List.filter].
    rewrite B1, B2.
    destruct o as [[|n]|].
    + rewrite print_0.
      destruct (point_lines (pass a)
                            (id_text (id a) ++ " - " ++ to_string (description a)
                             ++ match executionTime a with
                                | Some (S n) => " # time=" ++ decimal (S n) ++ "ms"
                                | _ => ""
                                end)) as [P1 P2].
      rewrite P1, P2. destruct (pass a); split; reflexivity.
    + destruct (print_S ((if pass a then "ok" else "not ok") ++ " " ++ id_text (id a)
                         ++ " - " ++ to_string (description a)
                         ++ match executionTime a with
                            | Some (S n) => " # time=" ++ decimal (S n) ++ "ms"
                            | _ => ""
                            end) (n + S (n + 0))) as [rest E].
      change (2 * S n) with (S (n + S (n + 0))). rewrite E.
      destruct (blank_line rest) as [C1 C2]. rewrite C1, C2. split; reflexivity.
    + rewrite print_0.
      destruct (point_lines (pass a)
                            (id_text (id a) ++ " - " ++ to_string (description a)
                             ++ match executionTime a with
                                | Some (S n) => " # time=" ++ decimal (S n) ++ "ms"
                                | _ => ""
                                end)) as [P1 P2].
      rewrite P1, P2. destruct (pass a); split; reflexivity.
  - unfold tap.testAssert.
    pose proof (block_is_indented a (match o with Some n => n | None => 0 end)) as B.
    apply indented_no_points in B. destruct B as [B1 B2].
    unfold tap.assert in *. cbn [tl] in B1, B2. cbn [List.filter].
    rewrite B1, B2.
    destruct o as [[|n]|].
    + rewrite print_0.
      destruct (point_lines (pass a)
                            (id_text (id a) ++ " - " ++ to_string (description a)
                             ++ match executionTime a with
                                | Some (S n) => " # time=" ++ decimal (S n) ++ "ms"
                                | _ => ""
                                end)) as [P1 P2].
      rewrite P1, P2. destruct (pass a); split; reflexivity.
    + destruct (print_S ((if pass a then "ok" else "not ok") ++ " " ++ id_text (id a)
                         ++ " - " ++ to_string (description a)
                         ++ match executionTime a with
                            | Some (S n) => " # time=" ++ decimal (S n) ++ "ms"
                            | _ => ""
                            end) (n + S (n + 0))) as [rest E].
      change (2 * S n) with (S (n + S (n + 0))). rewrite E.
      destruct (blank_line rest) as [C1 C2]. rewrite C1, C2. split; reflexivity.
    + rewrite print_0.
      destruct (point_lines (pass a)
                            (id_text (id a) ++ " - " ++ to_string (description a)
                             ++ match executionTime a with
                                | Some (S n) => " # time=" ++ decimal (S n) ++ "ms"
                                | _ => ""
                                end)) as [P1 P2].
      rewrite P1, P2. destruct (pass a); split; reflexivity.
  - destruct o as [[|n]|]; cbn; auto.
  - destruct o as [[|n]|]; cbn; auto.
  - destruct o as [[|n]|]; cbn; auto.
  - destruct o as [[|n]|]; cbn; auto.
  - destruct o as [[|k]|]; cbn; auto.
Qed.

End ReporterFacts.

Lemma assert_indented (stringify : value -> string) (a : assertion) (o : nat)
      (line : string) :
  In line (tap.assert stringify a o) -> exists text, line = padStart (4 * o) text.
Proof.
  unfold tap.assert. intros [<-|H]; [eexists; apply print_levels|].
  destruct (negb (pass a) && match operator a with
                             | Some op => negb (String.eqb op "")
                             | None => false
                             end); [|destruct H].
  cbn [tap.toYaml List.map app In fst snd] in H.
  repeat (destruct H as [<-|H]; [eexists; apply print_half|]).
  destruct H.
Qed.

Section ReportFacts.

Variable stringify : value -> string.

Lemma printed_app (l1 l2 : list event) :
  printed stringify (l1 ++ l2) = (printed stringify l1 ++ printed stringify l2)%list.
Proof. unfold printed. rewrite map_app, concat_app. reflexivity. Qed.

Lemma printed_points (log : list event) :
  List.length (List.filter test_line (printed stringify log))
  = List.length (List.filter numbered log)
  /\ List.length (List.filter failing_line (printed stringify log))
     = List.length (List.filter (fun ev => negb (data_pass ev)) (List.filter numbered log)).
Proof.
  induction log as [|e log [IH1 IH2]]; [auto|].
  change (printed stringify (e :: log))
    with (tap_1 stringify e ++ printed stringify log)%list.
  rewrite !filter_app, !length_app, IH1, IH2.
  destruct (tap_points stringify e) as [P1 P2]. rewrite P1, P2.
  cbn [List.filter]. destruct (numbered e); cbn [andb List.filter];
    [destruct (data_pass e)|]; cbn [negb List.length]; auto.
Qed.

(** [X16] When [start] completes, the last two texts printed are the
    plan '1..N' and the comment, where N is the number of printed texts
    that begin with 'ok ' or 'not ok '; the comment is '# ok' when no
    printed text begins with 'not ok ', and '# failed K of N tests' when
    K of them do. *)
Theorem tap_plan_matches (fuel : nat) (m : registry) (log : list event) :
  start fuel m = (log, Completed) ->
  let lines := printed stringify log in
  let n := List.length (List.filter test_line lines) in
  let k := List.length (List.filter failing_line lines) in
  exists front,
    lines = (front ++ [("1.." ++ decimal n)%string;
                       ("# " ++ verdict (mkCounters n (n - k) k))%string])%list.
Proof.
  intro H. cbv zeta.
  apply start_completed in H. destruct H as (l & H & _). cbv zeta in H.
  destruct (printed_points log) as [P1 P2]. rewrite P1, P2.
  assert (N : List.filter numbered log = List.filter numbered l).
  { rewrite H. cbn [List.filter]. rewrite filter_app.
    cbn. apply app_nil_r. }
  rewrite N, H.
  exists (tap_1 stringify (mkEvent (Version 13) None) ++ printed stringify l)%list.
  change (mkEvent (Version 13) None :: ?x)
    with ([mkEvent (Version 13) None] ++ x)%list.
  rewrite !printed_app. unfold printed at 1. cbn [List.map List.concat].
  rewrite app_nil_r, <- app_assoc. reflexivity.
Qed.

End ReportFacts.

Lemma tap_plan_matches_witness :
  let lines := printed to_string (fst (start 30 (load 0 [Top "parent" failing_inside 5]))) in
  let n := List.length (List.filter test_line lines) in
  let k := List.length (List.filter failing_line lines) in
  exists front,
    lines = (front ++ [("1.." ++ decimal n)%string;
                       ("# " ++ verdict (mkCounters n (n - k) k))%string])%list.
Proof.
  apply (@tap_plan_matches to_string 30 (load 0 [Top "parent" failing_inside 5])).
  vm_compute. reflexivity.
Defined.

(** [X17] Every text the reporter prints for an event other than the
    version and a bailout begins with four blanks for each level of the
    offset of the event, none when the event has no offset; the version
    and a bailout are printed the same whatever the offset. *)
Theorem tap_indentation (stringify : value -> string) :
  (forall (e : event) (line : string),
      type e <> "version" -> type e <> "bailout" ->
      In line (tap_1 stringify e) ->
      exists text, line = padStart (4 * level e) text)
  /\ (forall (d : message) (o : option nat),
         type (mkEvent d o) = "version" \/ type (mkEvent d o) = "bailout" ->
         tap_1 stringify (mkEvent d o) = tap_1 stringify (mkEvent d None)).
Proof.
  split.
  - intros [d o] line Hv Hb H. unfold tap_1 in H. cbn [data] in H.
    set (n := level (mkEvent d o)) in *.
    destruct d as [t|a|a|p q|ms|t|err|v].
    + destruct H as [<-|[]]. eexists. apply print_levels.
    + exact (assert_indented H).
    + exact (assert_indented H).
    + destruct H as [<-|[]]. eexists. apply print_levels.
    + destruct H as [<-|[]]. eexists. apply print_levels.
    + destruct H as [<-|[]]. eexists. apply print_levels.
    + destruct (Hb eq_refl).
    + destruct (Hv eq_refl).
  - intros d o [H|H]; destruct d; try discriminate H; reflexivity.
Qed.

Lemma tap_indentation_witness :
  (exists text,
      "        # Subtest: inner" = padStart (4 * level (mkEvent (Title "inner") (Some 2))) text)
  /\ tap_1 to_string (mkEvent (Bailout boom) (Some 2))
     = tap_1 to_string (mkEvent (Bailout boom) None).
Proof.
  destruct (tap_indentation to_string) as [H1 H2]. split.
  - apply (H1 (mkEvent (Title "inner") (Some 2))).
    + discriminate.
    + discriminate.
    + left. reflexivity.
  - apply H2. right. reflexivity.
Defined.



Lemma method_result_operator (a : assertion) :
  method_result a ->
  at_ a = None /\ exists op, operator a = Some op /\ op <> "".
Proof.
  intros [(val & d & ->)|[(val & d & ->)|[(d & ->)|[(f & e & d & H)|(f & e & d & H)]]]].
  - split; [reflexivity|]. exists "ok". split; [reflexivity|discriminate].
  - split; [reflexivity|]. exists "notOk". split; [reflexivity|discriminate].
  - split; [reflexivity|]. exists "fail". split; [reflexivity|discriminate].
  - assert (R : at_ a = None /\ operator a = Some "throws").
    { unfold Assertion.throws in H.
      destruct (is_string e), f as [v|err]; cbv beta iota zeta in H;
        repeat match type of H with
               | context [if ?c then _ else _] => destruct c
               | context [match constructor_of ?x with _ => _ end] =>
                   destruct (constructor_of x)
               end;
        inversion H; subst; split; reflexivity. }
    destruct R as [R1 R2]. split; [exact R1|]. exists "throws". split; [exact R2|discriminate].
  - unfold Assertion.doesNotThrow in H.
    destruct (is_string e); inversion H; subst;
      (split; [reflexivity|]; exists "doesNotThrow"; split; [reflexivity|discriminate]).
Qed.

(** [X19] A result of [ok], [notOk], [fail], [throws] or
    [doesNotThrow] that passes records no location and is printed as its
    test point alone; one that fails is printed as its test point and
    the six lines of the block, whose [at] line gives the location the
    hook has recorded. *)
Theorem method_results_are_diagnosed
        (stringify : value -> string) (a : assertion) (location : string)
        (o : option nat) :
  method_result a ->
  let e := mkEvent (Assert (assertMethodHook location a)) o in
  (pass a = true ->
   at_ (assertMethodHook location a) = None
   /\ List.length (tap_1 stringify e) = 1)
  /\ (pass a = false ->
      List.length (tap_1 stringify e) = 7
      /\ nth 4 (tap_1 stringify e) ""
         = padStart (4 * level e + 2) ("at: " ++ stringify (VString location))).
Proof.
  intros Hm. cbv zeta.
  destruct (method_result_operator Hm) as (Hat & op & Hop & Hne).
  apply String.eqb_neq in Hne.
  unfold assertMethodHook, tap_1. cbn [data].
  split; intro Hp; rewrite Hp; cbn [negb].
  - split; [exact Hat|]. unfold tap.assert. rewrite Hp. reflexivity.
  - unfold tap.assert, set_at. cbn [pass operator at_ expected actual id description
                                     executionTime].
    rewrite Hp, Hop, Hne. cbn [negb andb].
    cbn [tap.toYaml List.map app fst snd text_or_empty List.length nth].
    split; [reflexivity|].
    rewrite print_half, padStart_add. reflexivity.
Qed.

Lemma method_results_are_diagnosed_witness :
  List.length (tap_1 to_string
                     (mkEvent (Assert (assertMethodHook "file.js:3"
                                                        (Assertion.ok (VNumber 0) VUndefined)))
                              (Some 1))) = 7
  /\ nth 4 (tap_1 to_string
                  (mkEvent (Assert (assertMethodHook "file.js:3"
                                                     (Assertion.ok (VNumber 0) VUndefined)))
                           (Some 1))) ""
     = "      at: file.js:3".
Proof.
  assert (Hm : method_result (Assertion.ok (VNumber 0) VUndefined))
    by (left; exists (VNumber 0), VUndefined; reflexivity).
  destruct (@method_results_are_diagnosed to_string _ "file.js:3" (Some 1) Hm) as [_ H].
  exact (H eq_refl).
Defined.

(* ================================================================== *)
(** ** [throws] raising by itself *)

(** [X20] When the matcher of [throws] is a function and the function
    under test raises [undefined] or [null], [throws] itself raises a
    [TypeError], on reading [actual.constructor], instead of returning
    a result. *)
Theorem throws_type_error (func : completion value) (expected description : value) :
  is_function (matcher expected description) = true ->
  func = Raises VUndefined \/ func = Raises VNull ->
  exists err,
    Assertion.throws func expected description = Raises err
    /\ instanceof err (VFunction "TypeError") = true.
Proof.
  intros Hm Hf. unfold Assertion.throws, matcher in *.
  destruct (is_string expected) eqn:Es.
  - destruct description; try discriminate Hm.
    destruct Hf as [-> | ->]; cbn; eauto.
  - destruct expected; try discriminate Hm; try discriminate Es.
    destruct Hf as [-> | ->]; cbn; eauto.
Qed.

Lemma throws_type_error_witness :
  exists err,
    Assertion.throws (Raises VUndefined) (VFunction "Error") VUndefined = Raises err
    /\ instanceof err (VFunction "TypeError") = true.
Proof.
  apply throws_type_error.
  - reflexivity.
  - left. reflexivity.
Defined.

(* ================================================================== *)
(** ** test/samples/async.js, as it is printed *)

(** The report of the two tests on the console. *)
Example async_js_printed :
  printed to_string (fst (start 20 (load 0 async_js)))
  = ["TAP version 13";
     "# test 1";
     "ok 1 - assert1";
     "ok 2 - assert2";
     "# test 2";
     "ok 3 - assert3";
     "ok 4 - assert4";
     "1..4";
     "# ok"].
Proof. vm_compute. reflexivity. Qed.

(* ================================================================== *)
(** ** A body that raises in a nested unit *)

Arguments items_trace : simpl never.
Arguments items_effort : simpl never.
Arguments items_sane : simpl never.
Arguments trace : simpl never.
Arguments effort : simpl never.
Arguments sane : simpl never.

Lemma trace_eq (u : instance) :
  trace u
  = items_trace (unit_offset u) (buffer u)
                match coRoutine u with
                | Pending rest =>
                    body_trace (unit_offset u) (Result.count (result u)) (elapsed u)
                               (Result.description (result u)) rest
                | Resolved _ => []
                end.
Proof. destruct u; reflexivity. Qed.

Lemma effort_eq (u : instance) :
  effort u = items_effort (buffer u)
             + match coRoutine u with
               | Pending rest => body_effort rest + 4
               | Resolved _ => 0
               end.
Proof. destruct u; reflexivity. Qed.

Lemma sane_eq (u : instance) :
  sane u = match coRoutine u with
           | Pending _ => negb (done u)
           | Resolved with_result => Bool.eqb with_result (done u)
           end
           && items_sane (buffer u).
Proof. destruct u; reflexivity. Qed.

Lemma items_trace_app (o : nat) (b1 b2 : list (item instance)) (tail : list event) :
  items_trace o (b1 ++ b2) tail = items_trace o b1 (items_trace o b2 tail).
Proof. unfold items_trace. apply fold_right_app. Qed.

Lemma items_trace_event (o : nat) (e : event) (b : list (item instance))
      (tail : list event) :
  items_trace o (IEvent e :: b) tail = e :: items_trace o b tail.
Proof. reflexivity. Qed.

Lemma items_trace_sub (o : nat) (c : instance) (b : list (item instance))
      (tail : list event) :
  items_trace o (ISubTest c :: b) tail
  = if healthy c
    then (events c
          ++ mkEvent (TestAssert (summary_assertion (unit_id c) (final c))) (Some o)
          :: items_trace o b tail)%list
    else trace c.
Proof. reflexivity. Qed.

Lemma items_trace_nil (o : nat) (tail : list event) : items_trace o [] tail = tail.
Proof. reflexivity. Qed.

Lemma items_effort_app (b1 b2 : list (item instance)) :
  items_effort (b1 ++ b2) = items_effort b1 + items_effort b2.
Proof. unfold items_effort. rewrite map_app, list_sum_app. reflexivity. Qed.

Lemma items_sane_app (b1 b2 : list (item instance)) :
  items_sane (b1 ++ b2) = items_sane b1 && items_sane b2.
Proof. apply forallb_app. Qed.

Lemma items_effort_cons (x : item instance) (b : list (item instance)) :
  items_effort (x :: b)
  = match x with
    | IEvent _ => 1
    | ISubTest c => (if healthy c then work c else effort c) + 2
    end + items_effort b.
Proof. reflexivity. Qed.

Lemma items_sane_cons (x : item instance) (b : list (item instance)) :
  items_sane (x :: b) = on_sub (fun c => healthy c || sane c) true x && items_sane b.
Proof. reflexivity. Qed.

Lemma with_id_sick (n : nat) (u : instance) :
  trace (with_id n u) = trace u
  /\ effort (with_id n u) = effort u
  /\ sane (with_id n u) = sane u.
Proof. rewrite !trace_eq, !effort_eq, !sane_eq. auto. Qed.

Lemma body_work_effort (b : body) : body_work b <= body_effort b.
Proof.
  induction b as [|err rest _|a rest IH|d sub IHsub el awaited rest IH|rest IH];
    cbn [body_work body_effort]; lia.
Qed.

Lemma ending_of_cases (b : body) :
  ending_of b = Return \/ exists err after, ending_of b = Throw err after.
Proof.
  induction b as [|err rest _|a rest IH|d sub IHsub el awaited rest IH|rest IH];
    cbn [ending_of]; eauto.
Qed.

Lemma body_trace_returns (b : body) :
  forall (o n el : nat) (d : string),
    returns b = true ->
    body_trace o n el d b
    = (body_events o n b
       ++ [mkEvent (Plan 1 (n + body_count b)) (Some o); mkEvent (Time el) (Some o)])%list.
Proof.
  induction b as [|err rest _|a rest IH|d' sub IHsub el' awaited rest IH|rest IH];
    intros o n el d Hr; cbn [returns] in Hr; cbn [body_trace body_events body_count].
  - rewrite Nat.add_0_r. reflexivity.
  - discriminate Hr.
  - rewrite (IH _ _ _ _ Hr), Nat.add_succ_r. reflexivity.
  - apply andb_true_iff in Hr. destruct Hr as [Hs Hr].
    rewrite Hs, (IH _ _ _ _ Hr), Nat.add_succ_r.
    rewrite <- !app_assoc. reflexivity.
  - apply IH, Hr.
Qed.

(** The sub test a body registers, when the bodies of the sub test
    return. *)
Lemma subtest_healthy (flush awaited : bool) (d : string) (sub : body) (el : nat)
      (u c : instance) (left0 : body) :
  returns sub = true ->
  run (flush && awaited) sub (fresh (S (unit_offset u)) d sub el) = (c, left0) ->
  let c' := with_id (S (Result.count (result u)))
                    (if flush && awaited then settle left0 c
                     else with_coRoutine (Pending left0) c) in
  healthy c' = true
  /\ work c' + 2 <= body_work sub + 6
  /\ (events c'
      ++ [mkEvent (TestAssert (summary_assertion (unit_id c') (final c')))
                  (Some (unit_offset u))]
      = (mkEvent (Title d) (Some (S (unit_offset u)))
           :: body_events (S (unit_offset u)) 0 sub
           ++ [mkEvent (Plan 1 (body_count sub)) (Some (S (unit_offset u)));
               mkEvent (Time el) (Some (S (unit_offset u)))])
        ++ [mkEvent (TestAssert
                       (summary_assertion
                          (Some (S (Result.count (result u))))
                          (Result.mk (body_count sub) (all_pass sub) d (Some el))))
                    (Some (unit_offset u))])%list.
Proof.
  intros Hs Hc c'.
  assert (H : run flush (SubTest d sub el awaited Return) (with_buffer [] u)
              = (with_buffer [ISubTest c']
                   (with_result (Result.mk (S (Result.count (result u)))
                                           (Result.pass (result u))
                                           (Result.description (result u))
                                           (Result.executionTime (result u))) u),
                 Return)).
  { cbn [run with_buffer unit_offset]. rewrite Hc.
    destruct (awaited && negb flush); reflexivity. }
  assert (Hr : returns (SubTest d sub el awaited Return) = true)
    by (cbn [returns]; rewrite Hs; reflexivity).
  destruct (run_facts _ _ _ Hr H) as (_ & _ & _ & R4 & R5).
  destruct (run_events _ _ _ Hr H) as (E1 & _).
  cbn [with_buffer with_result buffer unit_offset result Result.count] in R4, R5, E1.
  split; [|split].
  - specialize (R5 eq_refl). destruct (items_cons_sub c' []) as (_ & _ & E).
    rewrite E in R5. apply andb_true_iff in R5. apply R5.
  - destruct (items_cons_sub c' []) as (_ & E & _). rewrite E in R4.
    cbn [body_work] in R4. unfold items_work in R4. cbn in R4. lia.
  - rewrite items_events_sub in E1. cbn [body_events] in E1.
    unfold items_events in E1. cbn [List.map List.concat] in E1.
    rewrite !app_nil_r in E1. cbn [app] in E1. exact E1.
Qed.

(** The reaction of the promise of a unit in which a body raises. *)
Lemma settle_sick (left : body) (c : instance) :
  (left = Return \/ exists err after, left = Throw err after) ->
  done c = false ->
  returns left && items_healthy (buffer c) = false ->
  items_sane (buffer c) = true ->
  healthy (settle left c) = false
  /\ sane (settle left c) = true
  /\ trace (settle left c)
     = items_trace (unit_offset c) (buffer c)
                   (body_trace (unit_offset c) (Result.count (result c)) (elapsed c)
                               (Result.description (result c)) left)
  /\ effort (settle left c) <= items_effort (buffer c) + 3
  /\ unit_offset (settle left c) = unit_offset c
  /\ unit_id (settle left c) = unit_id c.
Proof.
  intros [->|(err & after & ->)] Hd Hh Hs; cbn [settle returns andb] in *.
  - unfold on_fulfilled, push.
    rewrite healthy_eq, sane_eq, trace_eq, effort_eq.
    cbn [with_coRoutine with_done with_buffer with_result buffer coRoutine done
         unit_offset result elapsed unit_id Result.count Result.description].
    rewrite !items_healthy_app, !items_sane_app, !items_trace_app, !items_effort_app, Hh, Hs.
    cbn [body_trace]. repeat split.
    unfold items_effort. cbn. lia.
  - unfold on_rejected, push.
    rewrite healthy_eq, sane_eq, trace_eq, effort_eq.
    cbn [with_coRoutine with_done with_buffer with_result buffer coRoutine done
         unit_offset result elapsed unit_id Result.count Result.description].
    rewrite !items_sane_app, !items_trace_app, !items_effort_app, Hs, Hd.
    cbn [body_trace]. repeat split.
    unfold items_effort. cbn. lia.
Qed.

(** A unit that has just been built, when one of its bodies raises. *)
Lemma built_sick (sub : body) (wait : bool) (o : nat) (d : string) (el : nat)
      (c : instance) (left0 : body) :
  run_keeps sub ->
  returns sub = false ->
  run wait sub (fresh o d sub el) = (c, left0) ->
  let c' := if wait then settle left0 c else with_coRoutine (Pending left0) c in
  healthy c' = false
  /\ sane c' = true
  /\ trace c' = mkEvent (Title d) (Some o) :: body_trace o 0 el d sub
  /\ effort c' <= body_effort sub + 5.
Proof.
  intros IH Hs Hc c'.
  destruct (IH _ _ _ _ Hc) as (G1 & G2 & G3 & G4 & G5).
  destruct (run_shape _ _ _ Hc) as (S1 & S2 & S3 & S4 & S5).
  cbn [fresh unit_offset buffer result done elapsed Result.count Result.description] in *.
  rewrite Hs in G1. cbn [andb] in G1. specialize (G2 eq_refl).
  rewrite items_trace_event, items_trace_nil in G3.
  change (items_effort [IEvent (mkEvent (Title d) (Some o))]) with 1 in G4.
  subst c'. destruct wait.
  - pose proof (run_ending sub true (fresh o d sub el)) as (_ & Hl).
    rewrite Hc in Hl. cbn [snd] in Hl. specialize (Hl eq_refl).
    assert (Hcases : left0 = Return \/ exists err after, left0 = Throw err after)
      by (rewrite Hl; apply ending_of_cases).
    destruct (@settle_sick left0 c Hcases S2 G1 G2) as (T1 & T2 & T3 & T4 & _).
    rewrite S1, S4, G5 in T3. rewrite T3, G3.
    repeat split; try assumption. lia.
  - rewrite healthy_eq, sane_eq, trace_eq, effort_eq.
    cbn [with_coRoutine buffer coRoutine done unit_offset result elapsed].
    rewrite S1, S2, S4, G5, G2, G3. cbn [negb andb].
    repeat split; try assumption. lia.
Qed.

Lemma run_general (b : body) : run_keeps b.
Proof.
  induction b as [|err rest _|a rest IH|d sub IHsub el awaited rest IH|rest IH];
    intros flush u u' left H; cbn [run] in H.
  - inversion H; subst. repeat split; auto.
  - inversion H; subst. repeat split; auto.
  - destruct (IH _ _ _ _ H) as (G1 & G2 & G3 & G4 & G5). clear H.
    unfold collector, createAssertion, push in *.
    cbn [with_buffer with_result buffer unit_offset result elapsed
         Result.count Result.description] in *.
    rewrite items_healthy_app in G1. rewrite items_sane_app in G2.
    rewrite items_trace_app in G3. rewrite items_effort_app in G4.
    cbn [returns body_trace body_effort].
    split; [rewrite G1; unfold items_healthy at 2; cbn; btauto|].
    split; [intro Hs; apply G2; rewrite Hs; reflexivity|].
    split; [rewrite G3; reflexivity|].
    split; [unfold items_effort at 3 in G4; cbn in G4; lia|exact G5].
  - destruct (run (flush && awaited) sub (fresh (S (unit_offset u)) d sub el))
      as [c left0] eqn:Hc.
    set (c' := with_id (S (Result.count (result u)))
                       (if flush && awaited then settle left0 c
                        else with_coRoutine (Pending left0) c)).
    assert (K : healthy c' = returns sub
                /\ healthy c' || sane c' = true
                /\ (if healthy c' then work c' else effort c') + 2 <= body_effort sub + 8
                /\ forall tail,
                    items_trace (unit_offset u) [ISubTest c'] tail
                    = if returns sub
                      then ((mkEvent (Title d) (Some (S (unit_offset u)))
                               :: body_events (S (unit_offset u)) 0 sub
                               ++ [mkEvent (Plan 1 (body_count sub))
                                           (Some (S (unit_offset u)));
                                   mkEvent (Time el) (Some (S (unit_offset u)))])
                            ++ mkEvent (TestAssert
                                          (summary_assertion
                                             (Some (S (Result.count (result u))))
                                             (Result.mk (body_count sub) (all_pass sub)
                                                        d (Some el))))
                                       (Some (unit_offset u))
                            :: tail)%list
                      else mkEvent (Title d) (Some (S (unit_offset u)))
                             :: body_trace (S (unit_offset u)) 0 el d sub).
    { destruct (returns sub) eqn:Hs.
      - destruct (@subtest_healthy flush awaited d sub el u c left0 Hs Hc) as (K1 & K2 & K3).
        fold c' in K1, K2, K3. rewrite K1. cbn [orb].
        pose proof (body_work_effort sub) as B.
        split; [reflexivity|]. split; [reflexivity|]. split; [lia|].
        intro tail. rewrite items_trace_sub, K1, items_trace_nil.
        change (?x :: tail) with ([x] ++ tail)%list.
        rewrite app_assoc, K3, <- app_assoc. reflexivity.
      - destruct (@built_sick sub (flush && awaited) (S (unit_offset u)) d el c left0 IHsub Hs Hc)
          as (K1 & K2 & K3 & K4).
        destruct (with_id_sick (S (Result.count (result u)))
                               (if flush && awaited then settle left0 c
                                else with_coRoutine (Pending left0) c)) as (W1 & W2 & W3).
        destruct (with_id_facts (S (Result.count (result u)))
                                (if flush && awaited then settle left0 c
                                 else with_coRoutine (Pending left0) c)) as (_ & _ & W4).
        fold c' in W1, W2, W3, W4.
        rewrite W4, K1, W3, K2, W2. cbn [orb].
        split; [reflexivity|]. split; [reflexivity|]. split; [lia|].
        intro tail. rewrite items_trace_sub, W4, K1, W1. exact K3. }
    destruct K as (K1 & K2 & K3 & K4).
    assert (B : buffer (collector (inr (if flush && awaited then settle left0 c
                                        else with_coRoutine (Pending left0) c)) u)
                = (buffer u ++ [ISubTest c'])%list) by reflexivity.
    assert (Bc : Result.count (result (collector
                    (inr (if flush && awaited then settle left0 c
                          else with_coRoutine (Pending left0) c)) u))
                 = S (Result.count (result u))) by reflexivity.
    assert (Bd : Result.description (result (collector
                    (inr (if flush && awaited then settle left0 c
                          else with_coRoutine (Pending left0) c)) u))
                 = Result.description (result u)) by reflexivity.
    destruct (collector_shape (inr (if flush && awaited then settle left0 c
                                    else with_coRoutine (Pending left0) c)) u)
      as (C1 & _ & _ & C4 & _).
    cbn [returns body_trace body_effort].
    destruct (awaited && negb flush) eqn:Stop.
    + assert (Hu : u' = collector (inr (if flush && awaited then settle left0 c
                                        else with_coRoutine (Pending left0) c)) u)
        by congruence.
      assert (Hl : left = rest) by congruence.
      clear H. subst u' left. rewrite B, Bc.
      rewrite items_healthy_app, items_sane_app, items_trace_app, items_effort_app, K4.
      split.
      { unfold items_healthy at 2. cbn [forallb on_sub]. rewrite K1. btauto. }
      split.
      { intro Hs. rewrite Hs. unfold items_sane. cbn [forallb on_sub].
        rewrite K2. reflexivity. }
      split; [reflexivity|].
      split; [|reflexivity].
      rewrite items_effort_cons. change (items_effort []) with 0. lia.
    + destruct (IH _ _ _ _ H) as (G1 & G2 & G3 & G4 & G5). clear H.
      rewrite C1, C4, Bd, B, Bc in *.
      rewrite items_healthy_app in G1. rewrite items_sane_app in G2.
      rewrite items_trace_app, K4 in G3. rewrite items_effort_app in G4.
      split.
      { rewrite G1. unfold items_healthy at 2. cbn [forallb on_sub]. rewrite K1. btauto. }
      split.
      { intro Hs. apply G2. rewrite Hs. unfold items_sane. cbn [forallb on_sub].
        rewrite K2. reflexivity. }
      split; [exact G3|].
      split; [|exact G5].
      rewrite items_effort_cons in G4. change (items_effort []) with 0 in G4. lia.
  - destruct flush.
    + apply (IH _ _ _ _ H).
    + inversion H; subst. repeat split; auto.
Qed.

(** A unit that has just been built, when a body of its tree raises. *)
Lemma tester_sick (o : nat) (d : string) (spec : body) (el : nat) :
  returns spec = false ->
  healthy (tester o d spec el) = false
  /\ sane (tester o d spec el) = true
  /\ trace (tester o d spec el) = mkEvent (Title d) (Some o) :: body_trace o 0 el d spec
  /\ effort (tester o d spec el) <= body_effort spec + 5.
Proof.
  intro Hs. unfold tester.
  destruct (run false spec (fresh o d spec el)) as [u left] eqn:Hc.
  exact (@built_sick spec false o d el u left (run_general spec) Hs Hc).
Qed.

(** One pull on a unit in which a body raises, with a bound above the
    pulls it answers to: either an event comes out, the first of those it
    still has to give, or the unit does not answer and has nothing left
    to give. *)
Lemma next_sick (fuel : nat) :
  forall u : instance,
    healthy u = false ->
    sane u = true ->
    effort u < fuel ->
    (exists e u', next fuel u = (Yield e, u')
                  /\ trace u = e :: trace u'
                  /\ healthy u' = false
                  /\ sane u' = true
                  /\ effort u' < effort u)
    \/ (exists u', next fuel u = (Blocked, u') /\ trace u = []).
Proof.
  induction fuel as [|fuel IH]; intros u Hh Hs Hw; [lia|].
  rewrite next_unfold.
  pose proof Hh as Hh'. rewrite healthy_eq in Hh'.
  pose proof Hs as Hs'. rewrite sane_eq in Hs'.
  pose proof (effort_eq u) as Hk. pose proof (trace_eq u) as Ht.
  destruct (buffer u) as [|[e|delegate] rest] eqn:Hb.
  - change (items_healthy []) with true in Hh'.
    change (items_sane []) with true in Hs'.
    change (items_effort []) with 0 in Hk.
    rewrite items_trace_nil in Ht.
    rewrite andb_true_r in Hh', Hs'.
    destruct (coRoutine u) as [left|b] eqn:Hco.
    + apply negb_true_iff in Hs'. rewrite Hs' in *. cbn [negb andb] in Hh'.
      unfold await_coRoutine. rewrite Hco.
      destruct (run true left u) as [u1 left1] eqn:Hrun.
      destruct (run_general left _ _ Hrun) as (G1 & G2 & G3 & G4 & G5).
      destruct (run_shape _ _ _ Hrun) as (S1 & S2 & S3 & S4 & S5).
      pose proof (run_ending left true u) as (_ & Hl).
      rewrite Hrun in Hl. cbn [snd] in Hl. specialize (Hl eq_refl).
      assert (Hcases : left1 = Return \/ exists err after, left1 = Throw err after)
        by (rewrite Hl; apply ending_of_cases).
      rewrite Hb, Hh' in G1. cbn [andb] in G1.
      rewrite Hb in G2, G3, G4. specialize (G2 eq_refl).
      rewrite items_trace_nil in G3. change (items_effort []) with 0 in G4.
      rewrite Hs' in S2.
      destruct (@settle_sick left1 u1 Hcases S2 G1 G2) as (T1 & T2 & T3 & T4 & _).
      rewrite S1, S4, G5, G3, <- Ht in T3.
      destruct (IH (settle left1 u1) T1 T2 ltac:(lia))
        as [(e & u' & N & N1 & N2 & N3 & N4)|(u' & N & N1)].
      * left. exists e, u'. rewrite N. split; [reflexivity|].
        repeat split; try assumption; [congruence|lia].
      * right. exists u'. split; [exact N|congruence].
    + apply eqb_prop in Hs'. subst b.
      destruct (done u) eqn:Hd; [discriminate Hh'|].
      right. exists u. split; [|exact Ht].
      unfold await_coRoutine. rewrite Hco.
      apply stuck_blocked. split; [exact Hb|]. split; [exact Hd|]. eauto.
  - rewrite items_trace_event in Ht. rewrite items_effort_cons in Hk.
    destruct (items_cons_event e rest) as (_ & _ & E3). rewrite E3 in Hh'.
    rewrite items_sane_cons in Hs'. cbn [on_sub andb] in Hs'.
    left. exists e, (with_buffer rest u).
    split; [reflexivity|].
    rewrite (trace_eq (with_buffer rest u)), (healthy_eq (with_buffer rest u)),
      (sane_eq (with_buffer rest u)), (effort_eq (with_buffer rest u)).
    cbn [with_buffer coRoutine done buffer result unit_offset unit_id elapsed].
    repeat split; try assumption. lia.
  - rewrite items_trace_sub in Ht. rewrite items_effort_cons in Hk.
    destruct (items_cons_sub delegate rest) as (_ & _ & E3). rewrite E3 in Hh'.
    rewrite items_sane_cons in Hs'. cbn [on_sub] in Hs'.
    destruct (healthy delegate) eqn:Hhd.
    + cbn [orb andb] in Hs', Hh'.
      destruct (next_facts (fuel := fuel) delegate Hhd ltac:(lia))
        as [(e1 & d1 & M & M1 & M2 & M3)|(d1 & M & M1)];
        destruct (next_events (fuel := fuel) delegate Hhd ltac:(lia))
        as [(e & d' & N & N1 & N2 & N3 & N4)|(d' & N & N1 & N2 & N3)];
        rewrite N in M; try discriminate M.
      * assert (d1 = d') by congruence. subst d1. clear M. rewrite N.
        left. exists e, (with_buffer (ISubTest d' :: rest) u).
        split; [reflexivity|].
        rewrite (trace_eq (with_buffer (ISubTest d' :: rest) u)),
          (healthy_eq (with_buffer (ISubTest d' :: rest) u)),
          (sane_eq (with_buffer (ISubTest d' :: rest) u)),
          (effort_eq (with_buffer (ISubTest d' :: rest) u)).
        cbn [with_buffer coRoutine done buffer result unit_offset unit_id elapsed].
        destruct (items_cons_sub d' rest) as (_ & _ & D3).
        rewrite items_trace_sub, D3, items_sane_cons, items_effort_cons, M1, N2, N3.
        cbn [on_sub orb andb]. rewrite M1.
        split; [rewrite Ht, N1; reflexivity|].
        repeat split; try assumption. lia.
      * rewrite N. clear M.
        unfold subTestAssertion, createAssertion.
        cbn [with_result with_buffer coRoutine done buffer result data offset
             unit_offset elapsed unit_id tl].
        rewrite Hb. cbn [tl].
        destruct fuel as [|fuel]; [lia|].
        rewrite next_unfold. cbn [with_result with_buffer coRoutine done buffer result].
        left. eexists; eexists. split; [reflexivity|].
        match goal with
        | |- trace u = _ :: trace ?v /\ _ =>
            rewrite (trace_eq v), (healthy_eq v), (sane_eq v), (effort_eq v)
        end.
        cbn [with_result with_buffer coRoutine done buffer result unit_offset
             unit_id elapsed Result.count Result.pass Result.description
             Result.executionTime].
        rewrite Ht, N1, N2, N3. cbn [app].
        split; [reflexivity|].
        repeat split; try assumption. lia.
    + cbn [orb andb] in Hs'. rewrite andb_false_r in Hh'.
      apply andb_true_iff in Hs'. destruct Hs' as [Hco Hs'].
      apply andb_true_iff in Hs'. destruct Hs' as [Hsd Hsr].
      destruct (IH delegate Hhd Hsd ltac:(lia))
        as [(e & d' & N & N1 & N2 & N3 & N4)|(d' & N & N1)]; rewrite N.
      * left. exists e, (with_buffer (ISubTest d' :: rest) u).
        split; [reflexivity|].
        rewrite (trace_eq (with_buffer (ISubTest d' :: rest) u)),
          (healthy_eq (with_buffer (ISubTest d' :: rest) u)),
          (sane_eq (with_buffer (ISubTest d' :: rest) u)),
          (effort_eq (with_buffer (ISubTest d' :: rest) u)).
        cbn [with_buffer coRoutine done buffer result unit_offset unit_id elapsed].
        destruct (items_cons_sub d' rest) as (_ & _ & D3).
        rewrite items_trace_sub, D3, items_sane_cons, items_effort_cons, N2.
        cbn [on_sub orb andb]. rewrite N3, Hco, Hsr, andb_false_r.
        split; [congruence|].
        repeat split; lia.
      * right. eexists. split; [reflexivity|congruence].
Qed.

Lemma sick_gives (n : nat) :
  forall u : instance,
    healthy u = false ->
    sane u = true ->
    effort u <= n ->
    exists u', gives next u (trace u) u'.
Proof.
  induction n as [|n IH]; intros u Hh Hs Hw.
  - destruct (next_sick (fuel := 1) u Hh Hs ltac:(lia))
      as [(e & u' & N & N1 & N2 & N3 & N4)|(u' & N & N1)]; [lia|].
    rewrite N1. exists u. constructor.
  - destruct (next_sick (fuel := S (effort u)) u Hh Hs ltac:(lia))
      as [(e & u' & N & N1 & N2 & N3 & N4)|(u' & N & N1)].
    + destruct (IH u' N2 N3 ltac:(lia)) as (u'' & G).
      exists u''. rewrite N1. econstructor; eassumption.
    + rewrite N1. exists u. constructor.
Qed.

Section Gives.

Variables St V R : Type.

Lemma gives_app (it : iterator St V R) (s s1 s2 : St) (l1 l2 : list V) :
  gives it s l1 s1 -> gives it s1 l2 s2 -> gives it s (l1 ++ l2) s2.
Proof.
  intros G1 G2. induction G1 as [s|fuel s sa sb v l E G IH]; [exact G2|].
  cbn [app]. econstructor; [exact E|]. apply IH, G2.
Qed.

Lemma drain_gives (it : iterator St V R) (fuel : nat) :
  forall (s s' : St) (l : list V) (r : step V R),
    drain it fuel s = (l, r, s') ->
    r <> Blocked ->
    exists s1 f, gives it s l s1 /\ it f s1 = (r, s').
Proof.
  induction fuel as [|fuel IH]; intros s s' l r D Hr; cbn [drain] in D.
  - inversion D; subst. congruence.
  - destruct (it fuel s) as [[v|x|err|] s0] eqn:E.
    + destruct (drain it fuel s0) as [[l0 e0] s0'] eqn:D0.
      inversion D; subst.
      destruct (IH _ _ _ _ D0 Hr) as (s1 & f & G & F).
      exists s1, f. split; [|exact F]. econstructor; eassumption.
    + inversion D; subst. exists s, fuel. split; [constructor|exact E].
    + inversion D; subst. exists s, fuel. split; [constructor|exact E].
    + inversion D; subst. congruence.
Qed.

Lemma filter_gives (p : V -> bool) (it : iterator St V R) :
  monotone it ->
  forall (l : list V) (s s' : St) (v : V),
    gives it s (l ++ [v]) s' ->
    p v = true ->
    gives (filter p it) s (List.filter p l ++ [v]) s'.
Proof.
  intros Hm. induction l as [|a l IH]; intros s s' v G Hp; cbn [app] in G.
  - inversion G as [|fuel s0 s1 s2 v0 l0 E G']; subst.
    inversion G'; subst.
    apply gives_cons with (fuel := S fuel) (s1 := s'); [|constructor].
    cbn [filter]. rewrite E, Hp. reflexivity.
  - inversion G as [|fuel s0 s1 s2 v0 l0 E G']; subst.
    specialize (IH _ _ _ G' Hp).
    cbn [List.filter]. destruct (p a) eqn:Ha.
    + cbn [app]. apply gives_cons with (fuel := S fuel) (s1 := s1); [|exact IH].
      cbn [filter]. rewrite E, Ha. reflexivity.
    + inversion IH as [s3 Hn|fuel1 s3 s4 s5 v1 l1 E1 G1 Hl]; subst.
      { destruct (List.filter p l); discriminate. }
      apply gives_cons with (fuel := S (Nat.max fuel fuel1)) (s1 := s4); [|exact G1].
      cbn [filter].
      assert (E' : it (Nat.max fuel fuel1) s = (Yield a, s1))
        by (eapply Hm; [exact E|discriminate|lia]).
      rewrite E', Ha. cbn [negb].
      eapply filter_monotone; [exact Hm|exact E1|discriminate|lia].
Qed.

End Gives.

Lemma renumber_gives (inner : iterator state event Result.t) :
  counter_free inner ->
  forall (l : list event) (c c' : combined instance) (k0 k0' : counters),
    gives inner (c, k0) l (c', k0') ->
    forall k,
      gives (map renumber inner) (c, k) (fst (renumber_all l k))
            (c', snd (renumber_all l k)).
Proof.
  intros Hf. induction l as [|a l IH]; intros c c' k0 k0' G k.
  - inversion G; subst. constructor.
  - inversion G as [|fuel s0 [c1 k1] s2 v0 l0 E G']; subst.
    specialize (IH _ _ _ _ G').
    cbn [renumber_all].
    pose proof (renumber_frame a c1 k) as Fr.
    destruct (renumber a (combine [], k)) as [a' sa] eqn:Ra.
    cbn [fst snd] in Fr.
    specialize (IH (snd sa)).
    destruct (renumber_all l (snd sa)) as [l' k'] eqn:Rl.
    cbn [fst snd] in *.
    apply gives_cons with (fuel := S fuel) (s1 := (c1, snd sa)); [|exact IH].
    cbn [map]. rewrite (Hf fuel c k0 k), E. cbn [fst snd]. rewrite Fr. reflexivity.
Qed.

Lemma renumber_all_app (l1 l2 : list event) :
  forall k,
    fst (renumber_all (l1 ++ l2) k)
    = (fst (renumber_all l1 k) ++ fst (renumber_all l2 (snd (renumber_all l1 k))))%list.
Proof.
  induction l1 as [|a l1 IH]; intro k; [reflexivity|].
  cbn [app renumber_all].
  destruct (renumber a (combine [], k)) as [a' sa].
  specialize (IH (snd sa)).
  destruct (renumber_all (l1 ++ l2) (snd sa)) as [l' k'].
  destruct (renumber_all l1 (snd sa)) as [l1' k1'].
  cbn [fst snd] in *. rewrite IH. reflexivity.
Qed.

Lemma pull_loop_gives (flatten : bool) :
  forall (l : list event) (s s' : state) (ev : event) (err : value),
    gives (outputStream flatten) s (l ++ [ev]) s' ->
    existsb is_bailout l = false ->
    data ev = Bailout err ->
    exists fuel0,
      forall fuel, fuel0 <= fuel ->
        forall log,
          pull_loop flatten fuel s log = ((log ++ l ++ [ev])%list, Rejected err, s').
Proof.
  induction l as [|a l IH]; intros s s' ev err G Hl He; cbn [app] in G.
  - inversion G as [|f s0 s1 s2 v0 l0 E G']; subst. inversion G'; subst.
    exists (S f). intros fuel Hf log.
    destruct fuel as [|fuel]; [lia|].
    rewrite pull_loop_unfold.
    assert (E' : outputStream flatten fuel s = (Yield ev, s'))
      by (eapply outputStream_monotone; [exact E|discriminate|lia]).
    rewrite E', He. reflexivity.
  - inversion G as [|f s0 s1 s2 v0 l0 E G']; subst.
    cbn [existsb] in Hl. apply orb_false_iff in Hl. destruct Hl as [Ha Hl].
    destruct (IH _ _ _ _ G' Hl He) as (fuel1 & H1).
    exists (S (Nat.max f fuel1)). intros fuel Hf log.
    destruct fuel as [|fuel]; [lia|].
    assert (E' : outputStream flatten fuel s = (Yield a, s1))
      by (eapply outputStream_monotone; [exact E|discriminate|lia]).
    rewrite (@pull_loop_step flatten fuel s s1 a log E' Ha), H1 by lia.
    rewrite <- app_assoc. reflexivity.
Qed.

(** The merged stream follows its current unit. *)
Lemma merged_lift (u u' : instance) (l : list event) :
  gives next u l u' ->
  forall (p : list instance) (k : counters),
    gives merged (mkCombined (Some u) p, k) l (mkCombined (Some u') p, k).
Proof.
  intros G p k. induction G as [s|fuel s sa sb v l E G IH]; [constructor|].
  apply gives_cons with (fuel := S fuel) (s1 := (mkCombined (Some sa) p, k)); [|exact IH].
  unfold merged. rewrite combine_next_unfold. cbn [current pending]. rewrite E.
  reflexivity.
Qed.

(** Once its current unit is over, the merged stream goes on with the
    next one. *)
Lemma merged_shift (u u2 : instance) (p : list instance) (k : counters) (f : nat)
      (r : option Result.t) (e : event) (l : list event) (s' : state) :
  next f u = (Done r, u2) ->
  gives merged (mkCombined (hd_error p) (tl p), k) (e :: l) s' ->
  gives merged (mkCombined (Some u) p, k) (e :: l) s'.
Proof.
  intros N G. inversion G as [|f1 s0 s1 s2 v0 l0 E G']; subst.
  apply gives_cons with (fuel := S (Nat.max f f1)) (s1 := s1); [|exact G'].
  unfold merged. rewrite combine_next_unfold. cbn [current pending].
  assert (N' : next (Nat.max f f1) u = (Done r, u2))
    by (eapply next_monotone; [exact N|discriminate|lia]).
  rewrite N'.
  eapply merged_monotone; [exact E|discriminate|lia].
Qed.

Lemma unit_gives (u : instance) :
  healthy u || sane u = true ->
  exists u', gives next u (unit_trace u) u'
             /\ (healthy u = true -> exists f r u2, next f u' = (Done r, u2)).
Proof.
  intro Hfit. unfold unit_trace. destruct (healthy u) eqn:Hh.
  - destruct (drain_events (fuel := work u + 2) u Hh ltac:(lia)) as (u2 & D).
    destruct (drain_gives _ _ _ D ltac:(discriminate)) as (s1 & f & G & N).
    exists s1. split; [exact G|]. intros _. eauto.
  - cbn [orb] in Hfit.
    destruct (sick_gives (n := effort u) u Hh Hfit (Nat.le_refl _)) as (u' & G).
    exists u'. split; [exact G|]. discriminate.
Qed.

(** The merged stream gives the events of its units in turn, up to the
    point where the first unit that is not healthy stops. *)
Lemma units_give (us : list instance) :
  forallb (fun u => healthy u || sane u) us = true ->
  forall k, exists s', gives merged (combine us, k) (units_trace us) s'.
Proof.
  induction us as [|u us IH]; intros Hfit k.
  - eexists. constructor.
  - cbn [forallb] in Hfit. apply andb_true_iff in Hfit. destruct Hfit as [Hu Hus].
    destruct (unit_gives u Hu) as (u' & G & Hend).
    pose proof (merged_lift G us k) as M.
    change (combine (u :: us)) with (mkCombined (Some u) us).
    cbn [units_trace]. destruct (healthy u) eqn:Hh.
    + destruct (Hend eq_refl) as (f & r & u2 & N).
      destruct (IH Hus k) as (s' & G').
      destruct (units_trace us) as [|e l] eqn:El.
      * rewrite app_nil_r. eexists. exact M.
      * exists s'. eapply gives_app; [exact M|].
        eapply merged_shift; [exact N|exact G'].
    + rewrite app_nil_r. eexists. exact M.
Qed.

(** The first pull on a unit that has something to give. *)
Lemma first_pull (u : instance) (e : event) (l : list event) :
  healthy u || sane u = true ->
  unit_trace u = e :: l ->
  exists fuel0 u',
    (forall fuel, fuel0 <= fuel -> next fuel u = (Yield e, u'))
    /\ unit_trace u' = l
    /\ healthy u' = healthy u
    /\ healthy u' || sane u' = true.
Proof.
  intros Hfit Ht. unfold unit_trace in *. destruct (healthy u) eqn:Hh.
  - destruct (next_facts (fuel := S (work u)) u Hh ltac:(lia))
      as [(e1 & d1 & M & M1 & M2 & M3)|(d1 & M & M1)];
      destruct (next_events (fuel := S (work u)) u Hh ltac:(lia))
      as [(e' & d' & N & N1 & N2 & N3 & N4)|(d' & N & N1 & N2 & N3)];
      rewrite N in M; try discriminate M; [|congruence].
    assert (d1 = d') by congruence. subst d1.
    rewrite Ht in N1. inversion N1; subst e' l.
    exists (S (work u)), d'. rewrite M1. cbn [orb]. repeat split.
    intros fuel Hf. eapply next_monotone; [exact N|discriminate|exact Hf].
  - cbn [orb] in Hfit.
    destruct (next_sick (fuel := S (effort u)) u Hh Hfit ltac:(lia))
      as [(e' & u' & N & N1 & N2 & N3 & N4)|(u' & N & N1)]; [|congruence].
    rewrite Ht in N1. inversion N1; subst e' l.
    exists (S (effort u)), u'. rewrite N2, N3. cbn [orb]. repeat split.
    intros fuel Hf. eapply next_monotone; [exact N|discriminate|exact Hf].
Qed.

(** A unit that has just been built, whatever its bodies do. *)
Lemma tester_fit (o : nat) (t : string * body * nat) :
  healthy (tester o (fst (fst t)) (snd (fst t)) (snd t)) = returns (snd (fst t))
  /\ healthy (tester o (fst (fst t)) (snd (fst t)) (snd t))
     || sane (tester o (fst (fst t)) (snd (fst t)) (snd t)) = true
  /\ unit_trace (tester o (fst (fst t)) (snd (fst t)) (snd t)) = test_trace o t.
Proof.
  destruct t as [[d b] el]. cbn [fst snd]. unfold unit_trace, test_trace. cbn [fst snd].
  destruct (returns b) eqn:Hr.
  - destruct (tester_facts o d b el Hr) as (T1 & _).
    destruct (tester_events o d b el Hr) as (T2 & _).
    rewrite T1, T2, (body_trace_returns _ _ _ _ _ Hr). auto.
  - destruct (tester_sick o d b el Hr) as (T1 & T2 & T3 & _).
    rewrite T1, T2, T3. auto.
Qed.

Lemma top_units_fit (ts : list (string * body * nat)) :
  forallb (fun u => healthy u || sane u) (top_units ts) = true
  /\ units_trace (top_units ts) = tests_trace ts.
Proof.
  induction ts as [|t ts [IH1 IH2]]; [split; reflexivity|].
  destruct (tester_fit 0 t) as (T1 & T2 & T3).
  change (top_units (t :: ts))
    with (tester 0 (fst (fst t)) (snd (fst t)) (snd t) :: top_units ts).
  cbn [forallb units_trace tests_trace].
  rewrite T2, T3, T1, IH1, IH2. split; reflexivity.
Qed.

Lemma body_trace_bailout (b : body) :
  forall (o n el : nat) (d : string),
    if returns b
    then existsb is_bailout (body_trace o n el d b) = false
    else exists front err k,
        body_trace o n el d b = (front ++ [mkEvent (Bailout err) (Some k)])%list
        /\ existsb is_bailout front = false
        /\ o <= k
        /\ (ending_of b = Return -> S o <= k).
Proof.
  induction b as [|err rest _|a rest IH|d' sub IHsub el' awaited rest IH|rest IH];
    intros o n el d; cbn [returns body_trace ending_of].
  - reflexivity.
  - exists [mkEvent (Assert (mkAssertion false VUndefined VUndefined (VString d)
                                         None None None None)) None;
            mkEvent (Comment "Unhandled exception") None], err, o.
    split; [reflexivity|]. split; [reflexivity|]. split; [lia|discriminate].
  - specialize (IH o (S n) el d). destruct (returns rest).
    + cbn [existsb]. rewrite IH. reflexivity.
    + destruct IH as (front & err & k & E & F & K1 & K2).
      exists (mkEvent (Assert (set_id (S n) a)) (Some o) :: front), err, k.
      rewrite E. split; [reflexivity|]. cbn [existsb]. rewrite F. auto.
  - destruct (returns sub) eqn:Hs; cbn [andb].
    + specialize (IH o (S n) el d). destruct (returns rest).
      * rewrite existsb_app. cbn [existsb].
        rewrite existsb_app, body_events_no_bailout, IH. reflexivity.
      * destruct IH as (front & err & k & E & F & K1 & K2).
        eexists (_ ++ _ :: front)%list, err, k. rewrite E.
        split; [rewrite <- app_assoc; reflexivity|].
        rewrite existsb_app. cbn [existsb].
        rewrite existsb_app, body_events_no_bailout, F. auto.
    + specialize (IHsub (S o) 0 el' d'). try rewrite Hs in IHsub. cbn beta iota in IHsub.
      destruct IHsub as (front & err & k & E & F & K1 & K2).
      exists (mkEvent (Title d') (Some (S o)) :: front), err, k.
      rewrite E. split; [reflexivity|]. cbn [existsb]. rewrite F.
      split; [reflexivity|]. split; [lia|]. intros _. exact K1.
  - apply IH.
Qed.

Lemma bailout_last_app (l1 l2 : list event) :
  existsb is_bailout l1 = false -> bailout_last l2 -> bailout_last (l1 ++ l2).
Proof.
  intros H1 [H2|(front & err & k & E & F)].
  - left. rewrite existsb_app, H1, H2. reflexivity.
  - right. exists (l1 ++ front)%list, err, k. rewrite E, app_assoc.
    split; [reflexivity|]. rewrite existsb_app, H1, F. reflexivity.
Qed.

Lemma body_trace_last (b : body) (o n el : nat) (d : string) :
  bailout_last (body_trace o n el d b)
  /\ (returns b = true -> existsb is_bailout (body_trace o n el d b) = false).
Proof.
  pose proof (body_trace_bailout b o n el d) as H. destruct (returns b).
  - split; [left; exact H|auto].
  - split; [|discriminate]. destruct H as (front & err & k & E & F & _).
    right. eauto.
Qed.

Lemma tests_trace_last (ts : list (string * body * nat)) : bailout_last (tests_trace ts).
Proof.
  induction ts as [|[[d b] el] ts IH]; [left; reflexivity|].
  cbn [tests_trace fst snd]. unfold test_trace. cbn [fst snd app].
  change (?x :: ?l ++ ?m)%list with ([x] ++ (l ++ m))%list.
  apply bailout_last_app; [reflexivity|].
  destruct (body_trace_last b 0 0 el d) as [L C].
  destruct (returns b).
  - apply bailout_last_app; [auto|exact IH].
  - rewrite app_nil_r. exact L.
Qed.

Lemma file_trace_eq (el : nat) (file : list declaration) :
  file_trace el file
  = (body_trace 0 0 el "Root" (root_body file)
     ++ if returns (root_body file) then tests_trace (tops_of file) else [])%list.
Proof. reflexivity. Qed.

Lemma file_trace_last (el : nat) (file : list declaration) :
  bailout_last (file_trace el file).
Proof.
  rewrite file_trace_eq.
  destruct (body_trace_last (root_body file) 0 0 el "Root") as [L C].
  destruct (returns (root_body file)).
  - apply bailout_last_app; [auto|apply tests_trace_last].
  - rewrite app_nil_r. exact L.
Qed.

Lemma bailout_last_front (l front : list event) (ev : event) :
  bailout_last l ->
  l = (front ++ [ev])%list ->
  is_bailout ev = true ->
  existsb is_bailout front = false.
Proof.
  intros Hl El Hb. rewrite El in Hl. clear El.
  destruct Hl as [H|(front' & err & k & E & F)].
  - rewrite existsb_app in H. cbn [existsb] in H. rewrite Hb in H.
    rewrite orb_true_r in H. discriminate H.
  - apply app_inj_tail in E. destruct E as [E _]. subst front'. exact F.
Qed.

Lemma root_body_ending (file : list declaration) : ending_of (root_body file) = Return.
Proof.
  induction file as [|[d spec el|d spec el] file IH]; cbn [root_body ending_of]; auto.
Qed.

(** When a body raises in a test declared with [test.test] or below it,
    the events of the file stop with a [bailout] event at a positive
    offset. *)
Lemma file_trace_nested (el : nat) (file : list declaration) :
  returns (root_body file) = false ->
  exists front err n,
    file_trace el file = (front ++ [mkEvent (Bailout err) (Some (S n))])%list.
Proof.
  intro Hr. rewrite file_trace_eq.
  pose proof (body_trace_bailout (root_body file) 0 0 el "Root") as H.
  rewrite Hr in *. rewrite app_nil_r.
  destruct H as (front & err & k & E & _ & _ & K).
  specialize (K (root_body_ending file)).
  destruct k as [|n]; [lia|]. eauto.
Qed.

Lemma returns_root_bsd (file : list declaration) :
  returns (root_body file) = false -> existsb is_bsd file = true.
Proof.
  induction file as [|[d spec el|d spec el] file IH]; cbn [root_body returns existsb is_bsd];
    intro H; [discriminate H|auto|reflexivity].
Qed.

(** The run of a file that calls [test.test] and whose first [bailout]
    event, in the order of the report, has a positive offset. *)
Lemma start_rejects_nested (el : nat) (file : list declaration) (front : list event)
      (err : value) (n : nat) :
  existsb is_bsd file = true ->
  file_trace el file = (front ++ [mkEvent (Bailout err) (Some (S n))])%list ->
  exists fuel0,
    forall fuel, fuel0 <= fuel ->
      start fuel (load el file)
      = ((mkEvent (Version 13) None
            :: fst (renumber_all (List.filter keep front) (mkCounters 0 0 0))
            ++ [mkEvent (Bailout err) (Some (S n))])%list,
         Rejected err).
Proof.
  intros Hb Ht.
  assert (Hfront : existsb is_bailout front = false)
    by (eapply bailout_last_front; [apply (file_trace_last el file)|exact Ht|reflexivity]).
  destruct (load_tests el file) as (Lf & Lt).
  rewrite Hb in Lf. cbn [negb] in Lf.
  destruct (tester_fit 0 ("Root", root_body file, el)) as (R1 & R2 & R3).
  cbn [fst snd] in R1, R2, R3. unfold test_trace in R3. cbn [fst snd] in R3.
  destruct (first_pull _ R2 R3) as (fuel1 & root' & N & N1 & N2 & N3).
  destruct (top_units_fit (tops_of file)) as (T1 & T2).
  assert (Hfit : forallb (fun u => healthy u || sane u) (root' :: top_units (tops_of file))
                 = true) by (cbn [forallb]; rewrite N3, T1; reflexivity).
  destruct (units_give _ Hfit (mkCounters 0 0 0)) as ([c' k'] & G).
  cbn [units_trace] in G. rewrite N1, N2, R1, T2, <- file_trace_eq, Ht in G.
  apply (filter_gives keep merged_monotone) in G; [|reflexivity].
  apply (renumber_gives (filter_counter_free keep merged_counter_free))
    with (k := mkCounters 0 0 0) in G.
  rewrite renumber_all_app in G.
  change (fst (renumber_all [mkEvent (Bailout err) (Some (S n))] ?k))
    with [mkEvent (Bailout err) (Some (S n))] in G.
  change (map renumber (filter keep merged)) with (outputStream false) in G.
  assert (Hclean : existsb is_bailout
                     (fst (renumber_all (List.filter keep front) (mkCounters 0 0 0)))
                   = false)
    by (rewrite renumber_all_no_bailout; apply filter_no_bailout, Hfront).
  destruct (@pull_loop_gives false _ _ _ _ err G Hclean eq_refl) as (fuel2 & P).
  exists (Nat.max fuel1 fuel2). intros fuel Hf.
  unfold start. rewrite Lt, Lf, (N fuel ltac:(lia)), (P fuel ltac:(lia)).
  reflexivity.
Qed.

(** [C2, as amended] A body that raises runs none of the statements
    after the raising one: its promise reacts with the handler for
    rejections alone, which leaves a [bailout] event at the offset of the
    unit at the end of the buffer.  In a file that calls [test.test], so
    that nothing is flattened, the units are reported in order up to the
    first body that raises, where [file_trace] stops: it holds no
    [testAssert] event for the unit that failed and nothing of what
    comes after it.  When that body is the one of a nested unit, so that
    its [bailout] event has a positive offset, no [bailout] event comes
    before it; and, for every bound that is large enough, the reporter
    is called with the version, with the events before it that the
    output stream keeps, renumbered, and last with that [bailout] event,
    and [start] rejects with the error it carries.  This is what happens
    whenever a body raises in a test declared with [test.test] or in
    one of its sub tests, at any depth. *)
Theorem nested_failure_is_fatal :
  (forall (u : instance) (err : value) (after : body),
      coRoutine u = Pending (Throw err after) ->
      await_coRoutine u = on_rejected err u
      /\ exists front,
          buffer (on_rejected err u)
          = (front ++ [IEvent (mkEvent (Bailout err) (Some (unit_offset u)))])%list)
  /\ (forall (el : nat) (file : list declaration) (front : list event) (err : value)
             (n : nat),
         existsb is_bsd file = true ->
         file_trace el file = (front ++ [mkEvent (Bailout err) (Some (S n))])%list ->
         existsb is_bailout front = false
         /\ exists fuel0,
             forall fuel, fuel0 <= fuel ->
               start fuel (load el file)
               = ((mkEvent (Version 13) None
                     :: fst (renumber_all (List.filter keep front) (mkCounters 0 0 0))
                     ++ [mkEvent (Bailout err) (Some (S n))])%list,
                  Rejected err))
  /\ (forall (el : nat) (file : list declaration),
         returns (root_body file) = false ->
         existsb is_bsd file = true
         /\ exists front err n,
             file_trace el file = (front ++ [mkEvent (Bailout err) (Some (S n))])%list).
Proof.
  split; [|split].
  - intros u err after Hc. split.
    + unfold await_coRoutine. rewrite Hc. reflexivity.
    + unfold on_rejected, push. cbn. eexists. reflexivity.
  - intros el file front err n Hb Ht. split.
    + eapply bailout_last_front; [apply (file_trace_last el file)|exact Ht|reflexivity].
    + apply start_rejects_nested; assumption.
  - intros el file Hr. split.
    + apply returns_root_bsd, Hr.
    + apply file_trace_nested, Hr.
Qed.

Lemma nested_failure_is_fatal_witness :
  let u := tester 1 "boom" (Throw boom Return) 5 in
  let file := [Bsd "parent" failing_child 5] in
  let front :=
    [mkEvent (Title "parent") (Some 1);
     mkEvent (Title "c") (Some 2);
     mkEvent (Assert (mkAssertion false VUndefined VUndefined (VString "c")
                                  None None None None)) None;
     mkEvent (Comment "Unhandled exception") None] in
  await_coRoutine u = on_rejected boom u
  /\ (exists fuel0,
         forall fuel, fuel0 <= fuel ->
           start fuel (load 0 file)
           = ((mkEvent (Version 13) None
                 :: fst (renumber_all (List.filter keep front) (mkCounters 0 0 0))
                 ++ [mkEvent (Bailout boom) (Some 2)])%list,
              Rejected boom))
  /\ exists front' err n,
      file_trace 0 file = (front' ++ [mkEvent (Bailout err) (Some (S n))])%list.
Proof.
  intros u file front.
  destruct nested_failure_is_fatal as (H1 & H2 & H3).
  assert (Hc : coRoutine u = Pending (Throw boom Return)) by (vm_compute; reflexivity).
  assert (Hb : existsb is_bsd file = true) by reflexivity.
  assert (Ht : file_trace 0 file = (front ++ [mkEvent (Bailout boom) (Some 2)])%list)
    by (vm_compute; reflexivity).
  assert (Hr : returns (root_body file) = false) by reflexivity.
  split; [apply (H1 u boom Return Hc)|].
  split; [apply (H2 0 file front boom 1 Hb Ht)|].
  apply (H3 0 file Hr).
Defined.
